(** * AutoMatch: the matching and settlement engine

    A shallow embedding of the ticket marketplace's core: the pricing engine
    (services/pricingEngine.js), the matching service
    (services/matchingService.js), the seller and buyer controllers
    (controllers/sellerListingController.js, controllers/buyerOfferController.js),
    the market-data query of controllers/eventController.js and the Mongoose
    schemas they work on (models/*.js).

    Conventions of the embedding
    - A JavaScript [Number] that carries a price is an IEEE 754 binary64 value
      ([float], the kernel's primitive floats), so rounding, NaN and the
      infinities are the ones of the program.  Quantities are integers ([Z]).
    - A [Date] is its number of milliseconds since the epoch.
    - An [ObjectId] is a natural number; [nextId] of the store is the source of
      fresh ids ([new Model(...)] draws one; a client never chooses an id).
    - A Mongoose collection is the list of its documents in storage order.
      [find(q).sort(k)] filters the list and sorts it on [k].  MongoDB leaves
      the order among documents with equal keys open: where a handler acts on
      the first document of a sorted result, that order is read from the
      [Env] ([precedes]); the paging of [getMyListings] is stated for a store
      that returns equal keys in storage order.
    - A controller method is a function from the store to a new store and an
      HTTP outcome, called on its controller.  What the handler reads from
      outside the store (the clock, the answers of the payment gateway and
      of the notifier) is its [Env].  Requests are served one after the other;
      the Mongo session of [acceptOffer] is one such step.
    - A module binds the identifiers it imports or declares.  Evaluating any
      other identifier throws a ReferenceError: so do [Transaction] and [User]
      in controllers/buyerOfferController.js and [BuyerOffer] in
      services/matchingService.js, which use these models without importing
      them.
    - [save()] runs the validators written in the schema ([required], [min],
      [enum]); a value outside an enumeration is represented by its absence.
    - Fields that only serve display or analytics (view counters, venue data,
      profile data) are left out of the records. *)

From Stdlib Require Import ZArith NArith List Bool String Floats Lia.
From Stdlib Require Import Sorting.Sorted.
Import ListNotations.

Set Warnings "-inexact-float".
Local Open Scope N_scope.

(** ** JavaScript numbers *)

Module JS.

Definition Number := float.

(** [ToBoolean] on a number: [NaN], [+0] and [-0] are falsy. *)
Definition truthy (x : Number) : bool :=
  negb (PrimFloat.is_nan x || PrimFloat.is_zero x).

(** [x || d] on numbers. *)
Definition or_else (x d : Number) : Number :=
  if truthy x then x else d.

(** [Math.max(a, b)]: NaN if either is NaN; [+0] is larger than [-0]. *)
Definition Math_max (a b : Number) : Number :=
  if PrimFloat.is_nan a || PrimFloat.is_nan b then PrimFloat.nan
  else if PrimFloat.ltb a b then b
  else if PrimFloat.ltb b a then a
  else if PrimFloat.get_sign a then b else a.

(** [Math.min(a, b)]: NaN if either is NaN; [-0] is smaller than [+0]. *)
Definition Math_min (a b : Number) : Number :=
  if PrimFloat.is_nan a || PrimFloat.is_nan b then PrimFloat.nan
  else if PrimFloat.ltb a b then a
  else if PrimFloat.ltb b a then b
  else if PrimFloat.get_sign a then a else b.

(** [ToNumber] of a field that may be absent: [undefined] becomes NaN. *)
Definition ToNumber (x : option Number) : Number :=
  match x with
  | Some v => v
  | None => PrimFloat.nan
  end.

(** An integer of the program as a number. *)
Definition of_int (z : Z) : Number := PrimFloat.of_uint63 (Uint63.of_Z z).

(** The length of an array, as a number. *)
Definition length_number {A : Type} (l : list A) : Number :=
  of_int (Z.of_nat (List.length l)).

(** [arr.reduce((sum, x) => sum + f(x), 0)]. *)
Definition reduce_sum {A : Type} (f : A -> Number) (l : list A) : Number :=
  fold_left (fun sum x => PrimFloat.add sum (f x)) l PrimFloat.zero.

(** [arr.includes(x)] on strings. *)
Definition includes (x : string) (l : list string) : bool :=
  existsb (String.eqb x) l.

(** A property of a request body: absent ([undefined]), [null], or a value. *)
Inductive Supplied (A : Type) : Type :=
| Undefined
| Null
| Value (a : A).
Arguments Undefined {A}.
Arguments Null {A}.
Arguments Value {A} a.

(** A date as a request body carries it: an ISO string, or a number of
    milliseconds.  Mongoose casts either to the date; as a JavaScript value
    the string is truthy, and the number is truthy unless it is 0. *)
Inductive DateInput :=
| iso (ms : Z)
| millis (ms : Z).

Definition to_date (d : DateInput) : Z :=
  match d with
  | iso ms | millis ms => ms
  end.

(** [ToBoolean] of a property that carries a date. *)
Definition supplied_truthy (x : Supplied DateInput) : bool :=
  match x with
  | Value (iso _) => true
  | Value (millis ms) => negb (ms =? 0)%Z
  | _ => false
  end.

(** The date that a property assigns to a field. *)
Definition supplied_date (x : Supplied DateInput) : Supplied Z :=
  match x with
  | Undefined => Undefined
  | Null => Null
  | Value d => Value (to_date d)
  end.

(** [doc[field] = body[field]] guarded by [body[field] !== undefined], for a
    field of the schema that may stay empty. *)
Definition assign {A : Type} (x : Supplied A) (old : option A) : option A :=
  match x with
  | Undefined => old
  | Null => None
  | Value a => Some a
  end.

End JS.

Bind Scope float_scope with JS.Number.

Definition ObjectId := N.
Definition Date := Z.
Bind Scope N_scope with ObjectId.
Bind Scope Z_scope with Date.

(** ** The documents (models/*.js) *)

Inductive DeliveryMethod := ticketmaster | axs | pdf | willcall | other.

Module Event.
Inductive Status := upcoming | ongoing | completed | cancelled.

Record t := mk {
  _id : ObjectId;
  dateTime : Date;
  averagePrice : option JS.Number;   (* marketStats.averagePrice *)
  status : Status
}.
End Event.

Module BuyerOffer.
Inductive Status := active | matched | expired | cancelled | completed.

Inductive PaymentStatus := pending | authorized | captured | pcancelled.

Record PaymentIntent := mkIntent {
  stripePaymentIntentId : string;
  amount : JS.Number;
  pstatus : PaymentStatus;
  authorizedAt : Date
}.

Record t := mk {
  _id : ObjectId;
  buyer : ObjectId;
  event : ObjectId;
  sections : list string;
  maxPrice : JS.Number;
  quantity : Z;
  suggestedPrice : JS.Number;
  acceptanceProbability : JS.Number;
  paymentIntent : PaymentIntent;
  status : Status;
  matchedListing : option ObjectId;
  matchedAt : option Date;
  expiresAt : Date;
  createdAt : Date
}.

Definition is_active (o : t) : bool :=
  match status o with
  | active => true
  | _ => false
  end.

(** [offer.status = 'matched'; offer.matchedListing = l; offer.matchedAt = d] *)
Definition set_matched (l : ObjectId) (d : Date) (o : t) : t :=
  mk (_id o) (buyer o) (event o) (sections o) (maxPrice o) (quantity o)
     (suggestedPrice o) (acceptanceProbability o) (paymentIntent o)
     matched (Some l) (Some d) (expiresAt o) (createdAt o).

(** [offer.status = 'cancelled'; offer.paymentIntent.status = 'cancelled'] *)
Definition set_cancelled (o : t) : t :=
  mk (_id o) (buyer o) (event o) (sections o) (maxPrice o) (quantity o)
     (suggestedPrice o) (acceptanceProbability o)
     (mkIntent (stripePaymentIntentId (paymentIntent o)) (amount (paymentIntent o))
               pcancelled (authorizedAt (paymentIntent o)))
     cancelled (matchedListing o) (matchedAt o) (expiresAt o) (createdAt o).
End BuyerOffer.

Module SellerListing.
Inductive Status := draft | active | matched | sold | expired | cancelled.

Record AutoSell := mkAuto {
  enabled : bool;                 (* default false *)
  triggerTime : option Date;
  acceptHighestOffer : bool       (* default true *)
}.

Definition autoSell_default : AutoSell := mkAuto false None true.

Record t := mk {
  _id : ObjectId;
  seller : ObjectId;
  event : ObjectId;
  section : string;
  row : option string;
  seats : list string;
  quantity : Z;
  askingPrice : option JS.Number;
  minimumAcceptablePrice : option JS.Number;
  isLive : bool;
  goLiveAt : option Date;
  autoSell : AutoSell;
  status : Status;
  deliveryMethod : DeliveryMethod;
  deliveryDetails : option string;
  createdAt : Date
}.

Definition is_active (l : t) : bool :=
  match status l with
  | active => true
  | _ => false
  end.

(** [['matched', 'sold'].includes(listing.status)] *)
Definition matched_or_sold (l : t) : bool :=
  match status l with
  | matched | sold => true
  | _ => false
  end.

(** [listing.status = s] *)
Definition set_status (s : Status) (l : t) : t :=
  mk (_id l) (seller l) (event l) (section l) (row l) (seats l) (quantity l)
     (askingPrice l) (minimumAcceptablePrice l) (isLive l) (goLiveAt l)
     (autoSell l) s (deliveryMethod l) (deliveryDetails l) (createdAt l).

(** [listing.status = s; listing.isLive = b] *)
Definition set_visibility (s : Status) (b : bool) (l : t) : t :=
  mk (_id l) (seller l) (event l) (section l) (row l) (seats l) (quantity l)
     (askingPrice l) (minimumAcceptablePrice l) b (goLiveAt l)
     (autoSell l) s (deliveryMethod l) (deliveryDetails l) (createdAt l).

(** [listing.status = 'active'; listing.isLive = true; listing.goLiveAt = d] *)
Definition set_live (d : Date) (l : t) : t :=
  mk (_id l) (seller l) (event l) (section l) (row l) (seats l) (quantity l)
     (askingPrice l) (minimumAcceptablePrice l) true (Some d)
     (autoSell l) active (deliveryMethod l) (deliveryDetails l) (createdAt l).

(** What [save()] validates of the schema: [section] is required (a
    non-empty string) and [quantity] is at least 1. *)
Definition valid (l : t) : bool :=
  negb (String.eqb (section l) EmptyString) && (1 <=? quantity l)%Z.
End SellerListing.

Module Transaction.
Inductive PaymentStatus := ppending | authorized | captured | pfailed | prefunded.
Inductive PayoutStatus := pending | scheduled | processing | completed | failed.
Inductive DeliveryStatus := dpending | transferred | confirmed | disputed | dfailed.
Inductive EscrowStatus := held | released | refunded.

Record t := mk {
  _id : ObjectId;
  buyer : ObjectId;
  seller : ObjectId;
  buyerOffer : ObjectId;
  sellerListing : option ObjectId;
  event : ObjectId;
  quantity : Z;
  section : string;
  row : option string;
  seats : list string;
  salePrice : JS.Number;
  buyerPaid : JS.Number;
  sellerFee : JS.Number;
  sellerPayout : JS.Number;
  stripePaymentIntentId : string;
  stripeTransferId : option string;
  paymentStatus : PaymentStatus;      (* default 'pending' *)
  payoutStatus : PayoutStatus;        (* default 'pending' *)
  deliveryStatus : DeliveryStatus;    (* default 'pending' *)
  deliveryMethod : option DeliveryMethod;
  transferredAt : option Date;
  confirmedAt : option Date;
  escrowReleaseDate : option Date;
  escrowStatus : EscrowStatus;        (* default 'held' *)
  hasDispute : bool;                  (* default false *)
  disputeReason : option string;
  notes : option string;
  createdAt : Date
}.

(** [deliveryStatus = 'transferred'; transferredAt = d; notes = n].  The
    schema has no path [ticketmasterTransferId]: an assignment to it is not
    stored. *)
Definition set_transferred (d : Date) (n : option string) (x : t) : t :=
  mk (_id x) (buyer x) (seller x) (buyerOffer x) (sellerListing x) (event x)
     (quantity x) (section x) (row x) (seats x) (salePrice x) (buyerPaid x)
     (sellerFee x) (sellerPayout x) (stripePaymentIntentId x) (stripeTransferId x)
     (paymentStatus x) (payoutStatus x) transferred (deliveryMethod x)
     (Some d) (confirmedAt x) (escrowReleaseDate x) (escrowStatus x)
     (hasDispute x) (disputeReason x) n (createdAt x).
End Transaction.

(** ** The store *)

Record Store := mkStore {
  events : list Event.t;
  offers : list BuyerOffer.t;
  listings : list SellerListing.t;
  transactions : list Transaction.t;
  nextId : ObjectId
}.

(** What a handler answers: the JSON payload of a 2xx response, or the status
  code and message of an error response. *)
Inductive Response (A : Type) : Type :=
| Ok (a : A)
| Error (code : Z) (message : string).
Arguments Ok {A} a.
Arguments Error {A} code message.

Definition is_error {A : Type} (r : Response A) : bool :=
match r with
| Ok _ => false
| Error _ _ => true
end.

(** What a handler reads from outside the store while it serves one request. *)
Record Env := mkEnv {
  now : Date;                              (* new Date() *)
  intent_created : option string;          (* stripe.paymentIntents.create: the id, or it throws *)
  capture_ok : string -> bool;             (* stripe.paymentIntents.capture(id) returns, or throws *)
  cancel_ok : string -> bool;              (* stripe.paymentIntents.cancel(id) returns, or throws *)
  fee_percentage : ObjectId -> JS.Number;  (* sellerInfo.feePercentage, default 10 *)
  notify_ok : bool;                        (* the notification service returns, or throws *)
  precedes : ObjectId -> ObjectId -> bool  (* the store returns the first document before the
                                              second when their sort keys are equal *)
}.

Section Collections.
Context {A : Type} (id : A -> ObjectId).

(** [Model.findById(x)]: the first document with that id. *)
Definition findById (x : ObjectId) (l : list A) : option A :=
  find (fun a => id a =? x) l.

(** [doc.save()] on a document read from the collection. *)
Definition update (a : A) (l : list A) : list A :=
  map (fun b => if id b =? id a then a else b) l.

(** [doc.save()] on a new document. *)
Definition insert (a : A) (l : list A) : list A := l ++ [a].

(** Sorting a list on [le], where [le a b] says that [a] may come before
    [b]: the insertion sort, which keeps elements that [le] does not tell
    apart in the order they had. *)
Fixpoint sort_insert (le : A -> A -> bool) (a : A) (l : list A) : list A :=
  match l with
  | [] => [a]
  | b :: l' => if le a b then a :: l else b :: sort_insert le a l'
  end.

Fixpoint sort (le : A -> A -> bool) (l : list A) : list A :=
  match l with
  | [] => []
  | a :: l' => sort_insert le a (sort le l')
  end.

(** [find(q).sort(k)] as the store answers it, [le] being the order of the
    key: ascending in the key, and among documents with equal keys in the
    order the store chooses. *)
Definition sorted_by (before : ObjectId -> ObjectId -> bool) (le : A -> A -> bool)
    (l : list A) : list A :=
  sort (fun a b => le a b && (negb (le b a) || before (id a) (id b))) l.
End Collections.

(** ** services/pricingEngine.js *)

Module Pricing.

Record Suggestion := mkSuggestion {
  suggestedPrice : JS.Number;
  probability : JS.Number;
  avgOfferPrice : JS.Number;       (* marketData.avgOfferPrice *)
  avgSalePrice : JS.Number;        (* marketData.avgSalePrice *)
  activeOffers : nat               (* marketData.activeOffers *)
}.

(** [{ $in: sections }] on an array field: the arrays share an element. *)
Definition intersects (xs ys : list string) : bool :=
  existsb (fun x => JS.includes x ys) xs.

(** [calculateAcceptanceProbability(price, event, sections)] *)
Definition calculateAcceptanceProbability (price : JS.Number) (event : Event.t) : JS.Number :=
  (JS.Math_min 95
     (JS.Math_max 10
        (50 + (price / JS.ToNumber (Event.averagePrice event) - 1) * 100)))%float.

(** [BuyerOffer.find({ event: eventId, status: 'active',
    sections: { $in: sections } })] *)
Definition findActiveOffers (db : Store) (eventId : ObjectId) (sections : list string)
    : list BuyerOffer.t :=
  filter (fun o => (BuyerOffer.event o =? eventId)
                   && BuyerOffer.is_active o
                   && intersects (BuyerOffer.sections o) sections)
         (offers db).

(** [Transaction.find({ event: eventId, section: { $in: sections } })] *)
Definition findCompletedTransactions (db : Store) (eventId : ObjectId)
    (sections : list string) : list Transaction.t :=
  filter (fun t => (Transaction.event t =? eventId)
                   && JS.includes (Transaction.section t) sections)
         (transactions db).

(** [calculateSuggestedPrice({ eventId, sections, maxPrice, quantity })].
    [None] is the TypeError of [event.marketStats] when no event has the id. *)
Definition calculateSuggestedPrice (db : Store) (eventId : ObjectId)
    (sections : list string) (maxPrice : JS.Number) (quantity : Z) : option Suggestion :=
  let event := findById Event._id eventId (events db) in
  let activeOffers := findActiveOffers db eventId sections in
  let completedTransactions := findCompletedTransactions db eventId sections in
  let avgOfferPrice :=
    JS.or_else (JS.reduce_sum BuyerOffer.maxPrice activeOffers
                / JS.length_number activeOffers)%float 0%float in
  let avgSalePrice :=
    JS.or_else (JS.reduce_sum Transaction.salePrice completedTransactions
                / JS.length_number completedTransactions)%float 0%float in
  let suggestedPrice := JS.Math_max (avgOfferPrice * 1.1)%float (avgSalePrice * 0.95)%float in
  match event with
  | None => None
  | Some event =>
      let probability := calculateAcceptanceProbability suggestedPrice event in
      Some {| suggestedPrice := JS.Math_min suggestedPrice maxPrice;
              probability := probability;
              avgOfferPrice := avgOfferPrice;
              avgSalePrice := avgSalePrice;
              activeOffers := List.length activeOffers |}
  end.

End Pricing.

Definition set_offers (l : list BuyerOffer.t) (db : Store) : Store :=
  mkStore (events db) l (listings db) (transactions db) (nextId db).

Definition set_listings (l : list SellerListing.t) (db : Store) : Store :=
  mkStore (events db) (offers db) l (transactions db) (nextId db).

Definition set_transactions (l : list Transaction.t) (db : Store) : Store :=
  mkStore (events db) (offers db) (listings db) l (nextId db).

Definition set_events (l : list Event.t) (db : Store) : Store :=
  mkStore l (offers db) (listings db) (transactions db) (nextId db).

(** [new Model(...)] draws an id. *)
Definition draw_id (db : Store) : Store :=
  mkStore (events db) (offers db) (listings db) (transactions db) (nextId db + 1).

(** [new Transaction({...})]: the fields a settlement gives, the schema's
    defaults for the rest. *)
Definition new_Transaction (id buyer seller buyerOffer : ObjectId)
    (sellerListing : option ObjectId) (event : ObjectId) (quantity : Z)
    (section : string) (row : option string) (seats : list string)
    (salePrice buyerPaid sellerFee sellerPayout : JS.Number)
    (stripePaymentIntentId : string) (deliveryMethod : option DeliveryMethod)
    (createdAt : Date) : Transaction.t :=
  {| Transaction._id := id;
     Transaction.buyer := buyer;
     Transaction.seller := seller;
     Transaction.buyerOffer := buyerOffer;
     Transaction.sellerListing := sellerListing;
     Transaction.event := event;
     Transaction.quantity := quantity;
     Transaction.section := section;
     Transaction.row := row;
     Transaction.seats := seats;
     Transaction.salePrice := salePrice;
     Transaction.buyerPaid := buyerPaid;
     Transaction.sellerFee := sellerFee;
     Transaction.sellerPayout := sellerPayout;
     Transaction.stripePaymentIntentId := stripePaymentIntentId;
     Transaction.stripeTransferId := None;
     Transaction.paymentStatus := Transaction.ppending;
     Transaction.payoutStatus := Transaction.pending;
     Transaction.deliveryStatus := Transaction.dpending;
     Transaction.deliveryMethod := deliveryMethod;
     Transaction.transferredAt := None;
     Transaction.confirmedAt := None;
     Transaction.escrowReleaseDate := None;
     Transaction.escrowStatus := Transaction.held;
     Transaction.hasDispute := false;
     Transaction.disputeReason := None;
     Transaction.notes := None;
     Transaction.createdAt := createdAt |}.

(** ** services/transactionService.js *)

Module TransactionService.

(** Modelled from the spec: [createMatch(offer, listing)] of
    services/transactionService.js, which the matching service imports and
    calls, is not among the sources.  It is the settlement unit of section
    4.3 and section 5: inside one atomic unit it reads the offer and the
    listing again, aborts with a conflict unless both are still 'active',
    checks that the listing's section is one the offer accepts and that the
    quantities are compatible, computes the seller's fee from the seller's fee
    percentage on [salePrice = offer.maxPrice] and
    [sellerPayout = salePrice - sellerFee], creates the Transaction, moves
    the offer to 'matched' (with the match time and the listing) and the
    listing to 'matched', and requests the capture; a failed capture aborts
    the whole unit.  The status codes are those of the error classes of
    section 7 (404 not found, 409 conflict, 502 external dependency). *)
Definition createMatch (env : Env) (buyerOffer : BuyerOffer.t)
    (sellerListing : SellerListing.t) (db : Store) : Store * Response Transaction.t :=
  match findById BuyerOffer._id (BuyerOffer._id buyerOffer) (offers db),
        findById SellerListing._id (SellerListing._id sellerListing) (listings db) with
  | Some offer, Some listing =>
      if negb (BuyerOffer.is_active offer && SellerListing.is_active listing)
      then (db, Error 409 "Offer or listing no longer active")
      else if negb (JS.includes (SellerListing.section listing) (BuyerOffer.sections offer))
      then (db, Error 409 "Section not in buyer preferences")
      else if negb (SellerListing.quantity listing <=? BuyerOffer.quantity offer)%Z
      then (db, Error 409 "Quantities not compatible")
      else
        let salePrice := BuyerOffer.maxPrice offer in
        let sellerFee :=
          (salePrice * (fee_percentage env (SellerListing.seller listing) / 100))%float in
        let sellerPayout := (salePrice - sellerFee)%float in
        let transaction :=
          new_Transaction (nextId db) (BuyerOffer.buyer offer)
            (SellerListing.seller listing) (BuyerOffer._id offer)
            (Some (SellerListing._id listing)) (BuyerOffer.event offer)
            (SellerListing.quantity listing) (SellerListing.section listing)
            (SellerListing.row listing) (SellerListing.seats listing)
            salePrice salePrice sellerFee sellerPayout
            (BuyerOffer.stripePaymentIntentId (BuyerOffer.paymentIntent offer))
            (Some (SellerListing.deliveryMethod listing)) (now env) in
        let offer' := BuyerOffer.set_matched (SellerListing._id listing) (now env) offer in
        let listing' := SellerListing.set_status SellerListing.matched listing in
        let session :=
          draw_id
            (set_transactions (insert transaction (transactions db))
               (set_listings (update SellerListing._id listing' (listings db))
                  (set_offers (update BuyerOffer._id offer' (offers db)) db))) in
        if capture_ok env (BuyerOffer.stripePaymentIntentId (BuyerOffer.paymentIntent offer))
        then (session, Ok transaction)
        else (db, Error 502 "Payment capture failed")
  | _, _ => (db, Error 404 "Offer or listing not found")
  end.

End TransactionService.

(** ** services/matchingService.js *)

Module MatchingService.

(** The filter of the query of [checkForInstantMatch].  [$lte] matches no
    document in which the field is missing. *)
Definition instantMatchQuery (buyerOffer : BuyerOffer.t) (l : SellerListing.t) : bool :=
  (SellerListing.event l =? BuyerOffer.event buyerOffer)
  && JS.includes (SellerListing.section l) (BuyerOffer.sections buyerOffer)
  && SellerListing.is_active l
  && SellerListing.isLive l
  && (SellerListing.quantity l <=? BuyerOffer.quantity buyerOffer)%Z
  && match SellerListing.minimumAcceptablePrice l with
     | Some m => (m <=? BuyerOffer.maxPrice buyerOffer)%float
     | None => false
     end.

(** [.sort('minimumAcceptablePrice')]: ascending; a missing field sorts first. *)
Definition by_minimumAcceptablePrice (a b : SellerListing.t) : bool :=
  match SellerListing.minimumAcceptablePrice a, SellerListing.minimumAcceptablePrice b with
  | None, _ => true
  | Some _, None => false
  | Some x, Some y => (x <=? y)%float
  end.

Definition matchingListings (env : Env) (buyerOffer : BuyerOffer.t) (db : Store)
    : list SellerListing.t :=
  sorted_by SellerListing._id (precedes env) by_minimumAcceptablePrice
            (filter (instantMatchQuery buyerOffer) (listings db)).

(** The listing [checkForInstantMatch] hands to [createMatch]:
    [matchingListings[0]] when the result is not empty. *)
Definition bestListing (env : Env) (buyerOffer : BuyerOffer.t) (db : Store)
    : option SellerListing.t :=
  match matchingListings env buyerOffer db with
  | [] => None
  | best :: _ => Some best
  end.

Definition checkForInstantMatch (env : Env) (buyerOffer : BuyerOffer.t) (db : Store)
    : Store * Response unit :=
  match bestListing env buyerOffer db with
  | Some best =>
      match TransactionService.createMatch env buyerOffer best db with
      | (db', Ok _) => (db', Ok tt)
      | (db', Error c m) => (db', Error c m)
      end
  | None => (db, Ok tt)
  end.

(** [findBestOfferForListing(listing)].  The module imports [SellerListing]
    and [createMatch] only: its first statement, [BuyerOffer.find({...})],
    throws a ReferenceError, so the promise is rejected before any offer is
    read and before [createMatch] could be called.  [Error] stands for the
    rejection; there is no HTTP answer. *)
Definition findBestOfferForListing (env : Env) (listing : SellerListing.t) (db : Store)
    : Store * Response unit :=
  (db, Error 500 "BuyerOffer is not defined").

(** The filter of the query of [processAutoSellListings]. *)
Definition autoSellQuery (now : Date) (l : SellerListing.t) : bool :=
  SellerListing.enabled (SellerListing.autoSell l)
  && match SellerListing.triggerTime (SellerListing.autoSell l) with
     | Some t => (t <=? now)%Z
     | None => false
     end
  && SellerListing.is_active l.

(** The loop of the sweep over the listings read at its start; the rejection
    of [findBestOfferForListing] ends it, and the sweep with it. *)
Fixpoint autoSellLoop (env : Env) (listingsToProcess : list SellerListing.t) (db : Store)
    : Store * Response unit :=
  match listingsToProcess with
  | [] => (db, Ok tt)
  | listing :: rest =>
      match findBestOfferForListing env listing db with
      | (db', Ok _) => autoSellLoop env rest db'
      | (db', Error c m) => (db', Error c m)
      end
  end.

Definition processAutoSellListings (env : Env) (db : Store) : Store * Response unit :=
  autoSellLoop env (filter (autoSellQuery (now env)) (listings db)) db.

End MatchingService.

(** ** controllers/sellerListingController.js *)

Module SellerListingController.

(** The body of an accept-offer request.  [section] may be missing and
    [deliveryMethod] may be missing or outside the enumeration ([None]). *)
Record AcceptBody := mkAccept {
  a_section : option string;
  a_row : option string;
  a_seats : list string;
  a_deliveryMethod : option DeliveryMethod;
  a_deliveryDetails : option string
}.

(** The atomic unit of [acceptOffer]: the statements between
    [session.startTransaction()] and [session.commitTransaction()], run on
    the session's view of the store.  [inl] is the message of the exception
    that leaves the unit. *)
Definition acceptOffer_unit (env : Env) (user offerId : ObjectId) (body : AcceptBody)
    (session : Store) : string + Store * Transaction.t :=
  match findById BuyerOffer._id offerId (offers session) with
  | None => inl "Offer not available"%string
  | Some offer =>
      if negb (BuyerOffer.is_active offer) then inl "Offer not available"%string
      else
        match a_section body with
        | None => inl "Section not in buyer preferences"%string
        | Some section =>
            if negb (JS.includes section (BuyerOffer.sections offer))
            then inl "Section not in buyer preferences"%string
            else
              match findById Event._id (BuyerOffer.event offer) (events session) with
              | None => inl "Cannot read properties of null (reading '_id')"%string
              | Some event =>
                  match a_deliveryMethod body with
                  | None => inl "SellerListing validation failed: deliveryMethod"%string
                  | Some deliveryMethod =>
                      let listing :=
                        {| SellerListing._id := nextId session;
                           SellerListing.seller := user;
                           SellerListing.event := Event._id event;
                           SellerListing.section := section;
                           SellerListing.row := a_row body;
                           SellerListing.seats := a_seats body;
                           SellerListing.quantity := BuyerOffer.quantity offer;
                           SellerListing.askingPrice := Some (BuyerOffer.maxPrice offer);
                           SellerListing.minimumAcceptablePrice := None;
                           SellerListing.isLive := false;
                           SellerListing.goLiveAt := None;
                           SellerListing.autoSell := SellerListing.autoSell_default;
                           SellerListing.status := SellerListing.matched;
                           SellerListing.deliveryMethod := deliveryMethod;
                           SellerListing.deliveryDetails := a_deliveryDetails body;
                           SellerListing.createdAt := now env |} in
                      if negb (SellerListing.valid listing)
                      then inl "SellerListing validation failed"%string
                      else
                        let session1 :=
                          draw_id (set_listings (insert listing (listings session)) session) in
                        let offer' :=
                          BuyerOffer.set_matched (SellerListing._id listing) (now env) offer in
                        let session2 :=
                          set_offers (update BuyerOffer._id offer' (offers session1)) session1 in
                        let transaction :=
                          new_Transaction (nextId session2) (BuyerOffer.buyer offer) user
                            (BuyerOffer._id offer) (Some (SellerListing._id listing))
                            (Event._id event) (BuyerOffer.quantity offer) section
                            (a_row body) (a_seats body)
                            (BuyerOffer.maxPrice offer)
                            (BuyerOffer.maxPrice offer)
                            (BuyerOffer.maxPrice offer * 0.1)%float
                            (BuyerOffer.maxPrice offer * 0.9)%float
                            (BuyerOffer.stripePaymentIntentId (BuyerOffer.paymentIntent offer))
                            (Some deliveryMethod) (now env) in
                        let session3 :=
                          draw_id (set_transactions
                                     (insert transaction (transactions session2)) session2) in
                        if capture_ok env
                             (BuyerOffer.stripePaymentIntentId (BuyerOffer.paymentIntent offer))
                        then inr (session3, transaction)
                        else inl "Payment capture failed"%string
                  end
              end
        end
  end.

(** [acceptOffer]: the unit commits, or aborts and leaves the store as it
    found it; an exception of [notifyMatch] after the commit only changes the
    answer. *)
Definition acceptOffer (env : Env) (user offerId : ObjectId) (body : AcceptBody)
    (db : Store) : Store * Response Transaction.t :=
  match acceptOffer_unit env user offerId body db with
  | inr (session, transaction) =>
      if notify_ok env
      then (session, Ok transaction)
      else (session, Error 500 "Notification failed")
  | inl message => (db, Error 500 message)
  end.

(** The body of a create-listing request, or one element of a bulk upload. *)
Record ListingBody := mkListingBody {
  c_eventId : ObjectId;
  c_section : string;
  c_row : option string;
  c_seats : list string;
  c_quantity : Z;
  c_askingPrice : option JS.Number;
  c_minimumAcceptablePrice : option JS.Number;
  c_deliveryMethod : option DeliveryMethod;
  c_deliveryDetails : option string;
  c_goLiveAt : JS.Supplied JS.DateInput;
  c_autoSell : option SellerListing.AutoSell
}.

(** [new SellerListing({..., status: goLiveAt ? 'draft' : 'active',
    isLive: !goLiveAt, ...})] followed by [save()]; [None] when [save()]
    rejects the document.  [event] is the value given for the path [event],
    which the schema requires. *)
Definition new_listing (env : Env) (user id : ObjectId) (event : option ObjectId)
    (b : ListingBody) : option SellerListing.t :=
  match event, c_deliveryMethod b with
  | Some event, Some deliveryMethod =>
      let listing :=
        {| SellerListing._id := id;
           SellerListing.seller := user;
           SellerListing.event := event;
           SellerListing.section := c_section b;
           SellerListing.row := c_row b;
           SellerListing.seats := c_seats b;
           SellerListing.quantity := c_quantity b;
           SellerListing.askingPrice := c_askingPrice b;
           SellerListing.minimumAcceptablePrice := c_minimumAcceptablePrice b;
           SellerListing.isLive := negb (JS.supplied_truthy (c_goLiveAt b));
           SellerListing.goLiveAt := JS.assign (JS.supplied_date (c_goLiveAt b)) None;
           SellerListing.autoSell :=
             match c_autoSell b with
             | Some a => a
             | None => SellerListing.autoSell_default
             end;
           SellerListing.status :=
             if JS.supplied_truthy (c_goLiveAt b)
             then SellerListing.draft else SellerListing.active;
           SellerListing.deliveryMethod := deliveryMethod;
           SellerListing.deliveryDetails := c_deliveryDetails b;
           SellerListing.createdAt := now env |} in
      if SellerListing.valid listing then Some listing else None
  | _, _ => None
  end.

(** [createListing]: the document is built with [event: eventId]. *)
Definition createListing (env : Env) (user : ObjectId) (body : ListingBody) (db : Store)
    : Store * Response SellerListing.t :=
  match findById Event._id (c_eventId body) (events db) with
  | Some (Event.mk _ _ _ Event.upcoming) =>
      match new_listing env user (nextId db) (Some (c_eventId body)) body with
      | Some listing =>
          (draw_id (set_listings (insert listing (listings db)) db), Ok listing)
      | None => (db, Error 500 "SellerListing validation failed")
      end
  | _ => (db, Error 400 "Invalid or past event")
  end.

(** One element of [req.body.listings].  The document is built from the
    spread of the element, so its paths are the keys of the element that the
    schema has: [e_event] is the key [event]; the key [eventId], which the
    route validates and [createListing] reads, is not a path of the schema and
    is dropped.  The other keys are those of a create-listing body. *)
Record BulkElement := mkElement {
  e_event : option ObjectId;
  e_listing : ListingBody
}.

(** [bulkUpload]: every element is saved on its own; one rejected save makes
    the answer an error and leaves the other documents saved.  The event of
    an element is not looked up. *)
Fixpoint bulkUpload_saves (env : Env) (user : ObjectId) (elements : list BulkElement)
    (db : Store) : Store * bool :=
  match elements with
  | [] => (db, true)
  | e :: rest =>
      match new_listing env user (nextId db) (e_event e) (e_listing e) with
      | Some listing =>
          bulkUpload_saves env user rest
            (draw_id (set_listings (insert listing (listings db)) db))
      | None =>
          let (db', _) := bulkUpload_saves env user rest db in (db', false)
      end
  end.

Definition bulkUpload (env : Env) (user : ObjectId) (elements : list BulkElement)
    (db : Store) : Store * Response nat :=
  match bulkUpload_saves env user elements db with
  | (db', true) => (db', Ok (List.length elements))
  | (db', false) => (db', Error 500 "Bulk upload failed")
  end.

(** The body of an update-listing request: the ten fields of
    [allowedUpdates]. *)
Record UpdateBody := mkUpdate {
  u_section : JS.Supplied string;
  u_row : JS.Supplied string;
  u_seats : JS.Supplied (list string);
  u_quantity : JS.Supplied Z;
  u_askingPrice : JS.Supplied JS.Number;
  u_minimumAcceptablePrice : JS.Supplied JS.Number;
  u_deliveryMethod : JS.Supplied DeliveryMethod;
  u_deliveryDetails : JS.Supplied string;
  u_goLiveAt : JS.Supplied JS.DateInput;
  u_autoSell : JS.Supplied SellerListing.AutoSell
}.

(** The assignment of a required field: [null] makes [save()] fail. *)
Definition assign_required {A : Type} (x : JS.Supplied A) (old : A) : option A :=
  match x with
  | JS.Undefined => Some old
  | JS.Null => None
  | JS.Value a => Some a
  end.

(** The [allowedUpdates.forEach] loop, the status update that follows it and
    the validation of [save()]; [None] when the validation fails. *)
Definition apply_updates (body : UpdateBody) (l : SellerListing.t) : option SellerListing.t :=
  match assign_required (u_section body) (SellerListing.section l),
        assign_required (u_quantity body) (SellerListing.quantity l),
        assign_required (u_deliveryMethod body) (SellerListing.deliveryMethod l) with
  | Some section, Some quantity, Some deliveryMethod =>
      let updated :=
        {| SellerListing._id := SellerListing._id l;
           SellerListing.seller := SellerListing.seller l;
           SellerListing.event := SellerListing.event l;
           SellerListing.section := section;
           SellerListing.row := JS.assign (u_row body) (SellerListing.row l);
           SellerListing.seats :=
             match u_seats body with
             | JS.Undefined => SellerListing.seats l
             | JS.Null => []
             | JS.Value v => v
             end;
           SellerListing.quantity := quantity;
           SellerListing.askingPrice :=
             JS.assign (u_askingPrice body) (SellerListing.askingPrice l);
           SellerListing.minimumAcceptablePrice :=
             JS.assign (u_minimumAcceptablePrice body) (SellerListing.minimumAcceptablePrice l);
           SellerListing.isLive :=
             if JS.supplied_truthy (u_goLiveAt body) then false else SellerListing.isLive l;
           SellerListing.goLiveAt :=
             JS.assign (JS.supplied_date (u_goLiveAt body)) (SellerListing.goLiveAt l);
           SellerListing.autoSell :=
             match u_autoSell body with
             | JS.Undefined => SellerListing.autoSell l
             | JS.Null => SellerListing.autoSell_default
             | JS.Value v => v
             end;
           SellerListing.status :=
             if JS.supplied_truthy (u_goLiveAt body)
             then SellerListing.draft else SellerListing.status l;
           SellerListing.deliveryMethod := deliveryMethod;
           SellerListing.deliveryDetails :=
             JS.assign (u_deliveryDetails body) (SellerListing.deliveryDetails l);
           SellerListing.createdAt := SellerListing.createdAt l |} in
      if SellerListing.valid updated then Some updated else None
  | _, _, _ => None
  end.

(** [SellerListing.findOne({ _id: id, seller: user })] *)
Definition findOwn (user id : ObjectId) (db : Store) : option SellerListing.t :=
  find (fun l => (SellerListing._id l =? id) && (SellerListing.seller l =? user))
       (listings db).

Definition updateListing (user id : ObjectId) (body : UpdateBody) (db : Store)
    : Store * Response SellerListing.t :=
  match findOwn user id db with
  | None => (db, Error 404 "Listing not found")
  | Some listing =>
      if SellerListing.matched_or_sold listing
      then (db, Error 400 "Cannot update listing in current status")
      else
        match apply_updates body listing with
        | Some updated =>
            (set_listings (update SellerListing._id updated (listings db)) db, Ok updated)
        | None => (db, Error 500 "SellerListing validation failed")
        end
  end.

Definition deleteListing (user id : ObjectId) (db : Store) : Store * Response unit :=
  match findOwn user id db with
  | None => (db, Error 404 "Listing not found")
  | Some listing =>
      if SellerListing.matched_or_sold listing
      then (db, Error 400 "Cannot delete listing in current status")
      else
        let deleted := SellerListing.set_status SellerListing.cancelled listing in
        (set_listings (update SellerListing._id deleted (listings db)) db, Ok tt)
  end.

(** [goLive]; [checkForInstantMatchForListing], which it calls last, only
    reads. *)
Definition goLive (env : Env) (user id : ObjectId) (db : Store)
    : Store * Response SellerListing.t :=
  match find (fun l => (SellerListing._id l =? id) && (SellerListing.seller l =? user)
                       && match SellerListing.status l with
                          | SellerListing.draft => true
                          | _ => false
                          end)
             (listings db) with
  | None => (db, Error 404 "Draft listing not found")
  | Some listing =>
      match findById Event._id (SellerListing.event listing) (events db) with
      | None => (db, Error 500 "Cannot read properties of null (reading 'status')")
      | Some (Event.mk _ _ _ Event.upcoming) =>
          let live := SellerListing.set_live (now env) listing in
          (set_listings (update SellerListing._id live (listings db)) db, Ok live)
      | Some _ => (db, Error 400 "Event has already passed")
      end
  end.

(** [transferTickets], with the body's [transferConfirmation] and [notes].
    The confirmation is assigned to [transaction.ticketmasterTransferId],
    which is not a path of the Transaction schema: nothing of it is stored. *)
Definition transferTickets (env : Env) (user id : ObjectId)
    (transferConfirmation notes : option string) (db : Store)
    : Store * Response Transaction.t :=
  match find (fun t => (Transaction._id t =? id) && (Transaction.seller t =? user)
                       && match Transaction.deliveryStatus t with
                          | Transaction.dpending => true
                          | _ => false
                          end)
             (transactions db) with
  | None => (db, Error 404 "Transaction not found or already transferred")
  | Some transaction =>
      let transferred := Transaction.set_transferred (now env) notes transaction in
      (set_transactions (update Transaction._id transferred (transactions db)) db,
       Ok transferred)
  end.

(** The pagination block of a list answer.  [pages] is
    [Math.ceil(total / limit)]; it is not a finite number when [limit] is 0
    ([None]). *)
Record Pagination := mkPagination {
  p_page : nat;
  p_limit : nat;
  p_total : nat;
  p_pages : option nat
}.

(** [.sort('-createdAt')]: newest first. *)
Definition newest_first (a b : SellerListing.t) : bool :=
  (SellerListing.createdAt b <=? SellerListing.createdAt a)%Z.

(** The query of [getMyListings]: the seller's listings, of the status and of
    the event of the request when it names them. *)
Definition myListingsQuery (user : ObjectId) (status : option SellerListing.Status)
    (eventId : option ObjectId) (l : SellerListing.t) : bool :=
  (SellerListing.seller l =? user)
  && match status with
     | Some s =>
         match s, SellerListing.status l with
         | SellerListing.draft, SellerListing.draft
         | SellerListing.active, SellerListing.active
         | SellerListing.matched, SellerListing.matched
         | SellerListing.sold, SellerListing.sold
         | SellerListing.expired, SellerListing.expired
         | SellerListing.cancelled, SellerListing.cancelled => true
         | _, _ => false
         end
     | None => true
     end
  && match eventId with
     | Some e => SellerListing.event l =? e
     | None => true
     end.

(** [.limit(n)]: at most [n] documents; 0 is no limit. *)
Definition limit_to {A : Type} (n : nat) (l : list A) : list A :=
  match n with
  | O => l
  | _ => firstn n l
  end.

(** [getMyListings] with the [page] and [limit] of the query string as the
    natural numbers they are read as.  A page of 0 makes the skip negative,
    which the store refuses, unless the limit is 0 too. *)
Definition getMyListings (user : ObjectId) (status : option SellerListing.Status)
    (eventId : option ObjectId) (page limit : nat) (db : Store)
    : Response (list SellerListing.t * Pagination) :=
  let found := filter (myListingsQuery user status eventId) (listings db) in
  let total := List.length found in
  let pagination :=
    mkPagination page limit total
      (match limit with
       | O => None
       | _ => Some ((total + limit - 1) / limit)%nat
       end) in
  match page, limit with
  | O, S _ => Error 500 "Failed to fetch listings"
  | _, _ =>
      let skip := ((page - 1) * limit)%nat in
      Ok (limit_to limit (skipn skip (sort newest_first found)), pagination)
  end.

(** The [listings] of an answer of [getMyListings]. *)
Definition listed (r : Response (list SellerListing.t * Pagination))
    : list SellerListing.t :=
  match r with
  | Ok (l, _) => l
  | Error _ _ => []
  end.

End SellerListingController.

(** ** controllers/buyerOfferController.js *)

Module BuyerOfferController.

Record OfferBody := mkOfferBody {
  b_eventId : ObjectId;
  b_sections : list string;
  b_maxPrice : JS.Number;
  b_quantity : Z
}.

(** What [save()] validates of the offer: the section names are non-empty,
    [maxPrice >= 0], [quantity >= 1], and neither number of the pricing
    suggestion is NaN (the cast of NaN to a Number path fails). *)
Definition valid_offer (o : BuyerOffer.t) : bool :=
  forallb (fun s => negb (String.eqb s EmptyString)) (BuyerOffer.sections o)
  && (0 <=? BuyerOffer.maxPrice o)%float
  && (1 <=? BuyerOffer.quantity o)%Z
  && negb (PrimFloat.is_nan (BuyerOffer.suggestedPrice o))
  && negb (PrimFloat.is_nan (BuyerOffer.acceptanceProbability o)).

(** [createOffer].  The offer is saved before the matching service is asked
    for an instant match; an exception of the latter only changes the
    answer. *)
Definition createOffer (env : Env) (user : ObjectId) (body : OfferBody) (db : Store)
    : Store * Response BuyerOffer.t :=
  match findById Event._id (b_eventId body) (events db) with
  | Some (Event.mk eid dateTime avg Event.upcoming) =>
      match Pricing.calculateSuggestedPrice db (b_eventId body) (b_sections body)
              (b_maxPrice body) (b_quantity body),
            intent_created env with
      | Some pricingSuggestion, Some paymentIntentId =>
          let expiresAt := (dateTime - 3600000)%Z in
          let offer :=
            {| BuyerOffer._id := nextId db;
               BuyerOffer.buyer := user;
               BuyerOffer.event := b_eventId body;
               BuyerOffer.sections := b_sections body;
               BuyerOffer.maxPrice := b_maxPrice body;
               BuyerOffer.quantity := b_quantity body;
               BuyerOffer.suggestedPrice := Pricing.suggestedPrice pricingSuggestion;
               BuyerOffer.acceptanceProbability := Pricing.probability pricingSuggestion;
               BuyerOffer.paymentIntent :=
                 BuyerOffer.mkIntent paymentIntentId
                   (b_maxPrice body * JS.of_int (b_quantity body))%float
                   BuyerOffer.authorized (now env);
               BuyerOffer.status := BuyerOffer.active;
               BuyerOffer.matchedListing := None;
               BuyerOffer.matchedAt := None;
               BuyerOffer.expiresAt := expiresAt;
               BuyerOffer.createdAt := now env |} in
          if valid_offer offer
          then
            let db1 := draw_id (set_offers (insert offer (offers db)) db) in
            match MatchingService.checkForInstantMatch env offer db1 with
            | (db2, Ok _) => (db2, Ok offer)
            | (db2, Error _ _) => (db2, Error 500 "Failed to create offer")
            end
          else (db, Error 500 "Failed to create offer")
      | _, _ => (db, Error 500 "Failed to create offer")
      end
  | _ => (db, Error 400 "Invalid or past event")
  end.

Definition cancelOffer (env : Env) (user id : ObjectId) (db : Store) : Store * Response unit :=
  match find (fun o => (BuyerOffer._id o =? id) && (BuyerOffer.buyer o =? user)
                       && BuyerOffer.is_active o)
             (offers db) with
  | None => (db, Error 404 "Offer not found")
  | Some offer =>
      if cancel_ok env (BuyerOffer.stripePaymentIntentId (BuyerOffer.paymentIntent offer))
      then (set_offers (update BuyerOffer._id (BuyerOffer.set_cancelled offer) (offers db)) db,
            Ok tt)
      else (db, Error 500 "Failed to cancel offer")
  end.

(** [confirmDelivery].  The module does not import [Transaction]: the first
    statement of the [try] block, [Transaction.findOne({...})], throws a
    ReferenceError, which the [catch] answers with 500.  Nothing is read and
    nothing is written; the statements that confirm the delivery, release the
    escrow and call [processSellerPayout] are never reached. *)
Definition confirmDelivery (env : Env) (user id : ObjectId) (db : Store)
    : Store * Response Transaction.t :=
  (db, Error 500 "Failed to confirm delivery").

Definition validReasons : list string :=
  ["tickets_not_received"; "invalid_tickets"; "wrong_section"; "wrong_quantity";
   "event_cancelled"; "other"]%string.

(** [disputeTransaction].  After the check of the reason the handler
    evaluates [Transaction.findOne({...})], which throws a ReferenceError for
    the same reason; the [catch] answers with 500. *)
Definition disputeTransaction (env : Env) (user id : ObjectId) (reason : string) (db : Store)
    : Store * Response Transaction.t :=
  if negb (JS.includes reason validReasons)
  then (db, Error 400 "Invalid dispute reason")
  else (db, Error 500 "Failed to submit dispute").

End BuyerOfferController.

(** ** controllers/eventController.js *)

Module EventController.

(** One side of the market data: the offers or the listings. *)
Record Side := mkSide {
  count : nat;
  totalQuantity : Z;
  avgPrice : JS.Number;
  maxPrice : JS.Number;
  minPrice : JS.Number
}.

Record MarketData := mkMarketData {
  md_offers : Side;
  md_listings : Side;
  lastUpdated : Date
}.

(** [Math.max(...prices)] and [Math.min(...prices)]. *)
Definition Math_max_all (prices : list JS.Number) : JS.Number :=
  fold_left JS.Math_max prices PrimFloat.neg_infinity.

Definition Math_min_all (prices : list JS.Number) : JS.Number :=
  fold_left JS.Math_min prices PrimFloat.infinity.

(** [prices.length ? f(prices) : 0] *)
Definition unless_empty (prices : list JS.Number) (x : JS.Number) : JS.Number :=
  match prices with
  | [] => 0%float
  | _ => x
  end.

Definition side {A : Type} (docs : list A) (quantity : A -> Z) (prices : list JS.Number)
    : Side :=
  {| count := List.length docs;
     totalQuantity := fold_left (fun sum d => (sum + quantity d)%Z) docs 0%Z;
     avgPrice :=
       unless_empty prices
         (JS.reduce_sum (fun x => x) prices / JS.length_number prices)%float;
     maxPrice := unless_empty prices (Math_max_all prices);
     minPrice := unless_empty prices (Math_min_all prices) |}.

(** [BuyerOffer.find({ event: eventId, status: 'active' })] *)
Definition activeOffers (eventId : ObjectId) (db : Store) : list BuyerOffer.t :=
  filter (fun o => (BuyerOffer.event o =? eventId) && BuyerOffer.is_active o) (offers db).

(** [SellerListing.find({ event: eventId, status: 'active', isLive: true })] *)
Definition activeListings (eventId : ObjectId) (db : Store) : list SellerListing.t :=
  filter (fun l => (SellerListing.event l =? eventId) && SellerListing.is_active l
                   && SellerListing.isLive l)
         (listings db).

(** [activeListings.filter(l => l.askingPrice).map(l => l.askingPrice)]: a
    missing asking price, 0 and NaN are left out. *)
Definition listingPrices (ls : list SellerListing.t) : list JS.Number :=
  flat_map (fun l => match SellerListing.askingPrice l with
                     | Some p => if JS.truthy p then [p] else []
                     | None => []
                     end) ls.

(** [getMarketData].  The update of the event's market statistics is refused
    by the cast of the schema when one of its numbers is NaN; it changes
    nothing when no event has the id. *)
Definition getMarketData (env : Env) (eventId : ObjectId) (db : Store)
    : Store * Response MarketData :=
  let offerPrices := map BuyerOffer.maxPrice (activeOffers eventId db) in
  let marketData :=
    {| md_offers := side (activeOffers eventId db) BuyerOffer.quantity offerPrices;
       md_listings := side (activeListings eventId db) SellerListing.quantity
                           (listingPrices (activeListings eventId db));
       lastUpdated := now env |} in
  let averagePrice :=
    ((avgPrice (md_offers marketData) + avgPrice (md_listings marketData)) / 2)%float in
  let lowestPrice :=
    JS.Math_min (minPrice (md_offers marketData)) (minPrice (md_listings marketData)) in
  let highestPrice :=
    JS.Math_max (maxPrice (md_offers marketData)) (maxPrice (md_listings marketData)) in
  if PrimFloat.is_nan averagePrice || PrimFloat.is_nan lowestPrice
     || PrimFloat.is_nan highestPrice
  then (db, Error 500 "Failed to fetch market data")
  else
    match findById Event._id eventId (events db) with
    | Some event =>
        let event' :=
          Event.mk (Event._id event) (Event.dateTime event) (Some averagePrice)
                   (Event.status event) in
        (set_events (update Event._id event' (events db)) db, Ok marketData)
    | None => (db, Ok marketData)
    end.

End EventController.

(** ** The system: requests served one after the other *)

Inductive Request :=
| CreateOffer (user : ObjectId) (body : BuyerOfferController.OfferBody)
| CancelOffer (user id : ObjectId)
| ConfirmDelivery (user id : ObjectId)
| DisputeTransaction (user id : ObjectId) (reason : string)
| AcceptOffer (user offerId : ObjectId) (body : SellerListingController.AcceptBody)
| BulkUpload (user : ObjectId) (elements : list SellerListingController.BulkElement)
| CreateListing (user : ObjectId) (body : SellerListingController.ListingBody)
| UpdateListing (user id : ObjectId) (body : SellerListingController.UpdateBody)
| DeleteListing (user id : ObjectId)
| GoLive (user id : ObjectId)
| TransferTickets (user id : ObjectId) (transferConfirmation notes : option string)
| AutoSellSweep
| CatalogueUpdate (catalogue : list Event.t).

(** The store after a request.  [CatalogueUpdate] stands for the writers of
    the Event collection (the catalogue import and the market-data query),
    which put any catalogue in place. *)
Definition step (env : Env) (r : Request) (db : Store) : Store :=
  match r with
  | CreateOffer user body => fst (BuyerOfferController.createOffer env user body db)
  | CancelOffer user id => fst (BuyerOfferController.cancelOffer env user id db)
  | ConfirmDelivery user id => fst (BuyerOfferController.confirmDelivery env user id db)
  | DisputeTransaction user id reason =>
      fst (BuyerOfferController.disputeTransaction env user id reason db)
  | AcceptOffer user offerId body =>
      fst (SellerListingController.acceptOffer env user offerId body db)
  | BulkUpload user elements =>
      fst (SellerListingController.bulkUpload env user elements db)
  | CreateListing user body => fst (SellerListingController.createListing env user body db)
  | UpdateListing user id body => fst (SellerListingController.updateListing user id body db)
  | DeleteListing user id => fst (SellerListingController.deleteListing user id db)
  | GoLive user id => fst (SellerListingController.goLive env user id db)
  | TransferTickets user id c n =>
      fst (SellerListingController.transferTickets env user id c n db)
  | AutoSellSweep => fst (MatchingService.processAutoSellListings env db)
  | CatalogueUpdate catalogue => set_events catalogue db
  end.

(** The stores the system can be in: it starts with a catalogue of events
    and no offer, listing or transaction. *)
Inductive reachable : Store -> Prop :=
| reachable_init : forall catalogue n,
    reachable (mkStore catalogue [] [] [] n)
| reachable_step : forall env r db,
    reachable db -> reachable (step env r db).

(** The store after a sequence of requests, each served in its own
    environment. *)
Fixpoint run (rs : list (Env * Request)) (db : Store) : Store :=
  match rs with
  | [] => db
  | (env, r) :: rest => run rest (step env r db)
  end.

(** ** What holds of every store the system reaches *)

(** The values present in a list of optional values. *)
Fixpoint somes {A : Type} (l : list (option A)) : list A :=
  match l with
  | [] => []
  | Some a :: l' => a :: somes l'
  | None :: l' => somes l'
  end.

(** What a bulk upload made of an element: the listing saved for it, or
    none when no document built from the element passes [save()]. *)
Definition saved_as (env : Env) (user : ObjectId)
    (e : SellerListingController.BulkElement) (r : option SellerListing.t) : Prop :=
  match r with
  | Some l =>
      SellerListingController.new_listing env user (SellerListing._id l)
        (SellerListingController.e_event e) (SellerListingController.e_listing e)
      = Some l
  | None =>
      forall id,
        SellerListingController.new_listing env user id
          (SellerListingController.e_event e) (SellerListingController.e_listing e)
        = None
  end.

Definition is_saved (r : option SellerListing.t) : bool :=
  match r with Some _ => true | None => false end.

(** The offers, and the listings, that the transactions of the store refer
    to, one entry per transaction. *)
Definition offer_refs (db : Store) : list ObjectId :=
  map Transaction.buyerOffer (transactions db).

Definition listing_refs (db : Store) : list ObjectId :=
  somes (map Transaction.sellerListing (transactions db)).

(** The escrow of a transaction is held and its delivery is pending or
    transferred: it has not been confirmed, disputed or paid out. *)
Definition escrow_held (t : Transaction.t) : Prop :=
  Transaction.escrowStatus t = Transaction.held /\
  (Transaction.deliveryStatus t = Transaction.dpending \/
   Transaction.deliveryStatus t = Transaction.transferred) /\
  Transaction.hasDispute t = false /\
  Transaction.payoutStatus t = Transaction.pending.

Record Inv (db : Store) : Prop := mkInv {
  offer_ids_fresh :
    forall o, In o (offers db) -> BuyerOffer._id o < nextId db;
  offer_ids_unique : NoDup (map BuyerOffer._id (offers db));
  listing_ids_fresh :
    forall l, In l (listings db) -> SellerListing._id l < nextId db;
  listing_ids_unique : NoDup (map SellerListing._id (listings db));
  transaction_ids_fresh :
    forall t, In t (transactions db) -> Transaction._id t < nextId db;
  transaction_ids_unique : NoDup (map Transaction._id (transactions db));
  offer_refs_fresh : forall x, In x (offer_refs db) -> x < nextId db;
  listing_refs_fresh : forall x, In x (listing_refs db) -> x < nextId db;
  offer_refs_unique : NoDup (offer_refs db);
  listing_refs_unique : NoDup (listing_refs db);
  referenced_offer_settled :
    forall o, In o (offers db) -> In (BuyerOffer._id o) (offer_refs db) ->
              BuyerOffer.status o <> BuyerOffer.active;
  referenced_listing_matched :
    forall l, In l (listings db) -> In (SellerListing._id l) (listing_refs db) ->
              SellerListing.status l = SellerListing.matched;
  escrow_of_transactions :
    forall t, In t (transactions db) -> escrow_held t
}.

(** From [db] to [db']: an offer that is not 'active' is found again as it
    was. *)
Definition settled_offers_kept (db db' : Store) : Prop :=
  forall o, In o (offers db) -> BuyerOffer.status o <> BuyerOffer.active ->
            In o (offers db').

Definition step_ok (db db' : Store) : Prop :=
  Inv db' /\ settled_offers_kept db db'.

(** ** The delivery requests *)

(** The three requests that name a transaction. *)
Definition delivery_request (r : Request) : bool :=
  match r with
  | TransferTickets _ _ _ _ | ConfirmDelivery _ _ | DisputeTransaction _ _ _ => true
  | _ => false
  end.

(** The moves of a delivery status: none, or pending to transferred. *)
Definition delivery_moves (a b : Transaction.DeliveryStatus) : Prop :=
  a = b \/ (a = Transaction.dpending /\ b = Transaction.transferred).

(** Two versions of a transaction record the same settlement: the parties,
    the offer, the listing, the event, the tickets and the amounts agree. *)
Definition same_settlement (t t' : Transaction.t) : Prop :=
  Transaction._id t' = Transaction._id t /\
  Transaction.buyer t' = Transaction.buyer t /\
  Transaction.seller t' = Transaction.seller t /\
  Transaction.buyerOffer t' = Transaction.buyerOffer t /\
  Transaction.sellerListing t' = Transaction.sellerListing t /\
  Transaction.event t' = Transaction.event t /\
  Transaction.quantity t' = Transaction.quantity t /\
  Transaction.section t' = Transaction.section t /\
  Transaction.salePrice t' = Transaction.salePrice t /\
  Transaction.buyerPaid t' = Transaction.buyerPaid t /\
  Transaction.sellerFee t' = Transaction.sellerFee t /\
  Transaction.sellerPayout t' = Transaction.sellerPayout t /\
  Transaction.stripePaymentIntentId t' = Transaction.stripePaymentIntentId t.

(** ** Sample data *)

Module Sample.

Import SellerListingController BuyerOfferController.

(** A gateway and a notifier that answer every call; the clock reads [t];
    the store returns documents with equal sort keys oldest first. *)
Definition env_at (t : Date) : Env :=
  mkEnv t (Some "pi_1"%string) (fun _ => true) (fun _ => true) (fun _ => 10%float) true
        N.ltb.

(** The same, but the store returns documents with equal sort keys newest
    first. *)
Definition env_newest_first (t : Date) : Env :=
  mkEnv t (Some "pi_1"%string) (fun _ => true) (fun _ => true) (fun _ => 10%float) true
        (fun a b => N.ltb b a).

(** The same as [env_at], but every capture is refused. *)
Definition env_capture_refused (t : Date) : Env :=
  mkEnv t (Some "pi_1"%string) (fun _ => false) (fun _ => true) (fun _ => 10%float) true
        N.ltb.

(** One upcoming event, with an average price of 100 on record. *)
Definition event1 : Event.t := Event.mk 1 10000000 (Some 100%float) Event.upcoming.

Definition empty_market : Store := mkStore [event1] [] [] [] 2.

(** The same event with no average price on record. *)
Definition event_without_average : Event.t := Event.mk 1 10000000 None Event.upcoming.

Definition bare_market : Store := mkStore [event_without_average] [] [] [] 2.

(** Buyer 8 offers [maxPrice] for two seats in section A; the offer gets id 2
    and expires at 6400000. *)
Definition offer_body (maxPrice : JS.Number) : OfferBody :=
  mkOfferBody 1 ["A"%string] maxPrice 2.

Definition market_with_offer (maxPrice : JS.Number) : Store :=
  step (env_at 500) (CreateOffer 8 (offer_body maxPrice)) empty_market.

(** Seller 7 accepts with seats in section A. *)
Definition accept_A : AcceptBody := mkAccept (Some "A"%string) None [] (Some pdf) None.

(** Seller 7 lists two seats in section A, live at once. *)
Definition listing_body (minimum : option JS.Number) : ListingBody :=
  mkListingBody 1 "A" None [] 2 (Some 180%float) minimum (Some pdf) None JS.Undefined None.

Definition market_with_listing (minimum : option JS.Number) : Store :=
  step (env_at 400) (CreateListing 7 (listing_body minimum)) empty_market.

(** Seller 7 lists two seats in section A with a minimum of 150 and auto-sell
    switched on, to trigger at 450. *)
Definition auto_sell_body : ListingBody :=
  mkListingBody 1 "A" None [] 2 (Some 180%float) (Some 150%float) (Some pdf) None
    JS.Undefined (Some (SellerListing.mkAuto true (Some 450%Z) true)).

(** That listing (id 2), and then an offer of 100 (id 3), below the minimum:
    no instant match. *)
Definition market_auto_sell : Store :=
  step (env_at 500) (CreateOffer 8 (offer_body 100))
       (step (env_at 400) (CreateListing 7 auto_sell_body) empty_market).

(** Two live listings in section A with the same minimum of 150, the first
    (id 2) created at 400 and the second (id 3) at 420. *)
Definition market_with_tie : Store :=
  step (env_at 420) (CreateListing 9 (listing_body (Some 150%float)))
       (market_with_listing (Some 150%float)).

(** The offer of [market_with_offer 200] (id 2) accepted by seller 7 at 600:
    the listing made for it has id 3 and the transaction id 4. *)
Definition settled_market : Store :=
  step (env_at 600) (AcceptOffer 7 2 accept_A) (market_with_offer 200).

(** An update that only changes the asking price. *)
Definition reprice (p : JS.Number) : UpdateBody :=
  mkUpdate JS.Undefined JS.Undefined JS.Undefined JS.Undefined (JS.Value p)
           JS.Undefined JS.Undefined JS.Undefined JS.Undefined JS.Undefined.


(** The transaction of [settled_market]: a sale at 200, delivery pending. *)
Definition sale : Transaction.t :=
  new_Transaction 4 8 7 2 (Some 3) 1 2 "A" None [] 200 200 20 180 "pi_1" (Some pdf) 600.

(** The same once seller 7 has transferred the tickets at 700. *)
Definition transferred_sale : Transaction.t :=
  Transaction.set_transferred 700 None sale.

Definition transferred_market : Store :=
  step (env_at 700) (TransferTickets 7 4 None None) settled_market.

(** A gateway that refuses to release a payment hold. *)
Definition env_cancel_refused (t : Date) : Env :=
  mkEnv t (Some "pi_1"%string) (fun _ => true) (fun _ => false) (fun _ => 10%float) true
        N.ltb.

(** The offer of [market_with_offer 200]. *)
Definition open_offer : BuyerOffer.t :=
  BuyerOffer.mk 2 8 1 ["A"%string] 200 2 0 10
    (BuyerOffer.mkIntent "pi_1" 400 BuyerOffer.authorized 500)
    BuyerOffer.active None None 6400000 500.

(** Seller 7 with two live listings for the event: id 2 created at 400 and
    id 3 created at 420. *)
Definition seller_with_two : Store :=
  step (env_at 420) (CreateListing 7 (listing_body (Some 150%float)))
       (market_with_listing (Some 150%float)).

(** The offer of [market_with_offer 200] (id 2), and then seller 7's
    auto-sell listing (id 3, minimum 150, to trigger at 450): creating a
    listing runs no match, so both are active. *)
Definition market_with_due_listing : Store :=
  step (env_at 520) (CreateListing 7 auto_sell_body) (market_with_offer 200).

(** An offer that some job outside these handlers has marked 'expired'. *)
Definition expired_offer : BuyerOffer.t :=
  BuyerOffer.mk 2 8 1 ["A"%string] 200 2 0 10
    (BuyerOffer.mkIntent "pi_1" 400 BuyerOffer.authorized 500)
    BuyerOffer.expired None None 6400000 500.

Definition market_with_expired_offer : Store :=
  mkStore [event1] [expired_offer] [] [] 3.

(** Seller 7 lists matching seats with auto-sell due, the sweep runs, buyer
    8 offers again, and seller 7 tries to accept offer 2. *)
Definition requests_after_expiry : list (Env * Request) :=
  [(env_at 520, CreateListing 7 auto_sell_body);
   (env_at 600, AutoSellSweep);
   (env_at 610, CreateOffer 8 (offer_body 200));
   (env_at 620, AcceptOffer 7 2 accept_A)].

End Sample.

(** ** The claims as the specification words them, where the code differs *)

Module Claimed.

Import SellerListingController.

(** "A listing with status in {matched, sold, cancelled} is immutable to
    further edits": every update and delete of it is rejected and changes
    nothing. *)
Definition locked (l : SellerListing.t) : bool :=
  match SellerListing.status l with
  | SellerListing.matched | SellerListing.sold | SellerListing.cancelled => true
  | _ => false
  end.

(** "A listing is a candidate exactly when it has the same event, its section
    is in the offer's sections, its status is 'active' with isLive = true, its
    quantity <= the offer's quantity, and its minimumAcceptablePrice <= the
    offer's maxPrice -- with listings that have no minimumAcceptablePrice
    treated as immediately acceptable." *)
Definition instant_match_candidate (o : BuyerOffer.t) (l : SellerListing.t) : bool :=
  (SellerListing.event l =? BuyerOffer.event o)
  && JS.includes (SellerListing.section l) (BuyerOffer.sections o)
  && SellerListing.is_active l
  && SellerListing.isLive l
  && (SellerListing.quantity l <=? BuyerOffer.quantity o)%Z
  && match SellerListing.minimumAcceptablePrice l with
     | Some m => (m <=? BuyerOffer.maxPrice o)%float
     | None => true
     end.

(** "An offer with expiresAt in the past can never transition to matched":
    no request served after the offer's expiry moves it to 'matched'. *)
Definition expired_offer_never_matched : Prop :=
  forall env r db o,
    reachable db ->
    In o (offers db) ->
    (BuyerOffer.expiresAt o < now env)%Z ->
    BuyerOffer.status o <> BuyerOffer.matched ->
    forall o', In o' (offers (step env r db)) ->
               BuyerOffer._id o' = BuyerOffer._id o ->
               BuyerOffer.status o' <> BuyerOffer.matched.

Definition locked_listings_immutable : Prop :=
  forall user id db listing,
    findOwn user id db = Some listing ->
    locked listing = true ->
    (forall body, exists c m, updateListing user id body db = (db, Error c m)) /\
    (exists c m, deleteListing user id db = (db, Error c m)).

End Claimed.

(** * Properties *)

(** ** Collections *)

Section CollectionFacts.
Context {A : Type} (id : A -> ObjectId).

Lemma findById_In : forall x l a, findById id x l = Some a -> In a l /\ id a = x.
Proof.
  unfold findById. intros x l a H. apply find_some in H.
  destruct H as [H1 H2]. apply N.eqb_eq in H2. auto.
Qed.

Lemma update_ids : forall a l, map id (update id a l) = map id l.
Proof.
  intros a l. unfold update. rewrite map_map. apply map_ext_in.
  intros b _. destruct (id b =? id a) eqn:E; [apply N.eqb_eq in E; auto | reflexivity].
Qed.

Lemma In_update : forall a l b,
  In b (update id a l) -> (b = a /\ exists c, In c l /\ id c = id a) \/ (In b l /\ id b <> id a).
Proof.
  intros a l b H. unfold update in H. apply in_map_iff in H.
  destruct H as [c [Hc Hin]]. destruct (id c =? id a) eqn:E.
  - apply N.eqb_eq in E. left. split; [auto | exists c; auto].
  - apply N.eqb_neq in E. subst. right. auto.
Qed.

Lemma update_keeps : forall a l b, In b l -> id b <> id a -> In b (update id a l).
Proof.
  intros a l b H Hn. unfold update. apply in_map_iff. exists b. split; [|exact H].
  apply N.eqb_neq in Hn. rewrite Hn. reflexivity.
Qed.

Lemma findById_update : forall a l old,
  findById id (id a) l = Some old -> findById id (id a) (update id a l) = Some a.
Proof.
  intros a l old. unfold findById, update. induction l as [|b l IH]; simpl; [discriminate|].
  destruct (id b =? id a) eqn:E.
  - intros _. rewrite N.eqb_refl. reflexivity.
  - intros H. rewrite E. auto.
Qed.

Lemma NoDup_ids_eq : forall l a b,
  NoDup (map id l) -> In a l -> In b l -> id a = id b -> a = b.
Proof.
  induction l as [|c l IH]; simpl; intros a b Hnd Ha Hb Hid; [contradiction|].
  inversion Hnd as [|? ? Hnin Hnd']; subst.
  destruct Ha as [Ha|Ha], Hb as [Hb|Hb]; subst; auto.
  - exfalso. apply Hnin. rewrite Hid. apply in_map. exact Hb.
  - exfalso. apply Hnin. rewrite <- Hid. apply in_map. exact Ha.
Qed.

End CollectionFacts.

(** ** Settlement by direct accept *)

Import SellerListingController.

Lemma acceptOffer_unit_inv : forall env user offerId body db session transaction,
  acceptOffer_unit env user offerId body db = inr (session, transaction) ->
  exists offer section event deliveryMethod,
    findById BuyerOffer._id offerId (offers db) = Some offer /\
    BuyerOffer.status offer = BuyerOffer.active /\
    a_section body = Some section /\
    JS.includes section (BuyerOffer.sections offer) = true /\
    findById Event._id (BuyerOffer.event offer) (events db) = Some event /\
    a_deliveryMethod body = Some deliveryMethod /\
    capture_ok env (BuyerOffer.stripePaymentIntentId (BuyerOffer.paymentIntent offer)) = true /\
    transaction =
      new_Transaction (nextId db + 1) (BuyerOffer.buyer offer) user (BuyerOffer._id offer)
        (Some (nextId db)) (Event._id event) (BuyerOffer.quantity offer) section
        (a_row body) (a_seats body) (BuyerOffer.maxPrice offer) (BuyerOffer.maxPrice offer)
        (BuyerOffer.maxPrice offer * 0.1)%float (BuyerOffer.maxPrice offer * 0.9)%float
        (BuyerOffer.stripePaymentIntentId (BuyerOffer.paymentIntent offer))
        (Some deliveryMethod) (now env) /\
    events session = events db /\
    offers session =
      update BuyerOffer._id (BuyerOffer.set_matched (nextId db) (now env) offer) (offers db) /\
    (exists listing,
        listings session = insert listing (listings db) /\
        SellerListing._id listing = nextId db /\
        SellerListing.status listing = SellerListing.matched) /\
    transactions session = insert transaction (transactions db) /\
    nextId session = nextId db + 2.
Proof.
  intros env user offerId body db session transaction H.
  unfold acceptOffer_unit in H.
  destruct (findById BuyerOffer._id offerId (offers db)) as [offer|] eqn:Ho; [|discriminate].
  unfold BuyerOffer.is_active in H.
  destruct (BuyerOffer.status offer) eqn:Hs; simpl in H; try discriminate.
  destruct (a_section body) as [section|] eqn:Hsec; [|discriminate].
  destruct (JS.includes section (BuyerOffer.sections offer)) eqn:Hinc; simpl in H; [|discriminate].
  destruct (findById Event._id (BuyerOffer.event offer) (events db)) as [event|] eqn:He;
    [|discriminate].
  destruct (a_deliveryMethod body) as [dm|] eqn:Hdm; [|discriminate].
  match type of H with
  | (if negb ?v then _ else _) = _ => destruct v; simpl in H; [|discriminate]
  end.
  destruct (capture_ok env _) eqn:Hcap; [|discriminate].
  inversion H; subst; clear H.
  exists offer, section, event, dm.
  repeat split; auto.
  - eexists. simpl. repeat split.
  - simpl. rewrite <- N.add_assoc. reflexivity.
Qed.

(** C5.  When the capture call of a direct-accept settlement throws, the
    atomic unit is aborted: the handler leaves the store exactly as it found
    it (no offer, listing or transaction is changed or added) and answers with
    an error. *)
Theorem acceptOffer_capture_failure_aborts :
  forall env user offerId body db offer,
    findById BuyerOffer._id offerId (offers db) = Some offer ->
    capture_ok env (BuyerOffer.stripePaymentIntentId (BuyerOffer.paymentIntent offer)) = false ->
    exists message, acceptOffer env user offerId body db = (db, Error 500 message).
Proof.
  intros env user offerId body db offer Ho Hcap.
  unfold acceptOffer.
  destruct (acceptOffer_unit env user offerId body db) as [message|[session transaction]] eqn:Hu.
  - exists message. reflexivity.
  - apply acceptOffer_unit_inv in Hu.
    destruct Hu as (offer' & section & event & dm & Ho' & _ & _ & _ & _ & _ & Hcap' & _).
    rewrite Ho in Ho'. inversion Ho'; subst. rewrite Hcap in Hcap'. discriminate.
Qed.

Lemma acceptOffer_capture_failure_aborts_witness :
  exists message,
    acceptOffer (Sample.env_capture_refused 600) 7 2 Sample.accept_A
                (Sample.market_with_offer 200)
    = (Sample.market_with_offer 200, Error 500 message).
Proof.
  eapply (acceptOffer_capture_failure_aborts (Sample.env_capture_refused 600) 7 2
            Sample.accept_A (Sample.market_with_offer 200)).
  - vm_compute. reflexivity.
  - reflexivity.
Defined.

(** C2.  The fee split of a direct-accept settlement, evaluated.  At
    [maxPrice = 200] the transaction has [salePrice = 200], [sellerFee = 20],
    [sellerPayout = 180], and the offer and the listing are 'matched'.  At
    [maxPrice = 13] the fee is [13 * 0.1 = 1.3], the payout is
    [13 * 0.9 = 11.700000000000001], and their sum is
    [13.000000000000002], not the sale price. *)
Theorem acceptOffer_fee_split_evaluated :
  (exists db t o l,
      acceptOffer (Sample.env_at 600) 7 2 Sample.accept_A (Sample.market_with_offer 200)
      = (db, Ok t) /\
      Transaction.salePrice t = 200%float /\
      Transaction.sellerFee t = 20%float /\
      Transaction.sellerPayout t = 180%float /\
      (Transaction.sellerFee t + Transaction.sellerPayout t)%float = Transaction.salePrice t /\
      offers db = [o] /\ BuyerOffer.status o = BuyerOffer.matched /\
      listings db = [l] /\ SellerListing.status l = SellerListing.matched /\
      transactions db = [t])
  /\
  (exists db t,
      acceptOffer (Sample.env_at 600) 7 2 Sample.accept_A (Sample.market_with_offer 13)
      = (db, Ok t) /\
      Transaction.salePrice t = 13%float /\
      Transaction.sellerFee t = 1.3%float /\
      Transaction.sellerPayout t = 11.700000000000001%float /\
      (Transaction.sellerFee t + Transaction.sellerPayout t)%float = 13.000000000000002%float /\
      (Transaction.sellerFee t + Transaction.sellerPayout t =? Transaction.salePrice t)%float
      = false /\
      (Transaction.sellerFee t + Transaction.sellerPayout t)%float <> Transaction.salePrice t /\
      (Transaction.sellerFee t + (Transaction.salePrice t - Transaction.sellerFee t))%float
      = Transaction.salePrice t).
Proof.
  split.
  - do 4 eexists. vm_compute. repeat split; reflexivity.
  - do 2 eexists. split; [vm_compute; reflexivity|].
    repeat split; try (vm_compute; reflexivity).
    intro H. apply (f_equal (fun x => PrimFloat.eqb x 13%float)) in H.
    vm_compute in H. discriminate.
Qed.

(** ** Listing edits *)


Lemma apply_updates_keeps : forall body l updated,
  apply_updates body l = Some updated ->
  SellerListing._id updated = SellerListing._id l /\
  SellerListing.seller updated = SellerListing.seller l /\
  (JS.supplied_truthy (u_goLiveAt body) = true ->
   SellerListing.status updated = SellerListing.draft /\
   SellerListing.isLive updated = false) /\
  (JS.supplied_truthy (u_goLiveAt body) = false ->
   SellerListing.status updated = SellerListing.status l /\
   SellerListing.isLive updated = SellerListing.isLive l).
Proof.
  intros body l updated H. unfold apply_updates in H.
  destruct (assign_required (u_section body) _); [|discriminate].
  destruct (assign_required (u_quantity body) _); [|discriminate].
  destruct (assign_required (u_deliveryMethod body) _); [|discriminate].
  match type of H with (if ?v then _ else _) = _ => destruct v; [|discriminate] end.
  inversion H; subst; clear H. simpl.
  split; [reflexivity|]. split; [reflexivity|].
  split; intros Ht; rewrite Ht; split; reflexivity.
Qed.

(** C9, as the code has it.  A stored listing whose status is 'matched' or
    'sold' rejects every update and every delete and the store is left as it
    was: its seller is answered with 400, and any other requester with 404. *)
Theorem matched_or_sold_listing_immutable :
  forall user db l,
    NoDup (map SellerListing._id (listings db)) ->
    In l (listings db) ->
    SellerListing.matched_or_sold l = true ->
    (user = SellerListing.seller l ->
     (forall body,
         updateListing user (SellerListing._id l) body db
         = (db, Error 400 "Cannot update listing in current status")) /\
     deleteListing user (SellerListing._id l) db
     = (db, Error 400 "Cannot delete listing in current status")) /\
    (user <> SellerListing.seller l ->
     (forall body,
         updateListing user (SellerListing._id l) body db
         = (db, Error 404 "Listing not found")) /\
     deleteListing user (SellerListing._id l) db
     = (db, Error 404 "Listing not found")).
Proof.
  intros user db l Hnd Hin Hm. split.
  - intros Hu. subst user.
    assert (Hown : findOwn (SellerListing.seller l) (SellerListing._id l) db = Some l).
    { unfold findOwn. revert Hnd Hin. generalize (listings db) as ls.
      induction ls as [|x ls IH]; simpl; intros Hnd Hin; [contradiction|].
      inversion Hnd as [|? ? Hnin Hnd']; subst.
      destruct Hin as [Hin|Hin].
      - subst x. rewrite !N.eqb_refl. reflexivity.
      - destruct (SellerListing._id x =? SellerListing._id l) eqn:E.
        + exfalso. apply N.eqb_eq in E. apply Hnin. rewrite E. apply in_map. exact Hin.
        + simpl. apply IH; assumption. }
    split; [intros body|]; unfold updateListing, deleteListing; rewrite Hown, Hm;
      reflexivity.
  - intros Hu.
    assert (Hown : findOwn user (SellerListing._id l) db = None).
    { unfold findOwn. destruct (find _ (listings db)) as [x|] eqn:Hf; [|reflexivity].
      exfalso. apply find_some in Hf. destruct Hf as [Hx Hp].
      apply andb_prop in Hp. destruct Hp as [Hp1 Hp2].
      apply N.eqb_eq in Hp1. apply N.eqb_eq in Hp2.
      rewrite (NoDup_ids_eq SellerListing._id _ x l Hnd Hx Hin Hp1) in Hp2.
      apply Hu. symmetry. exact Hp2. }
    split; [intros body|]; unfold updateListing, deleteListing; rewrite Hown;
      reflexivity.
Qed.

(** A settled market: the offer of [Sample.market_with_offer 200] accepted
    by seller 7, whose listing (id 3) is 'matched'.  The seller's update and
    delete are answered with 400, those of user 9 with 404. *)
Lemma matched_or_sold_listing_immutable_witness :
  exists l,
    listings Sample.settled_market = [l] /\
    SellerListing._id l = 3 /\ SellerListing.seller l = 7 /\
    SellerListing.status l = SellerListing.matched /\
    updateListing 7 3 (Sample.reprice 90) Sample.settled_market
    = (Sample.settled_market, Error 400 "Cannot update listing in current status") /\
    deleteListing 7 3 Sample.settled_market
    = (Sample.settled_market, Error 400 "Cannot delete listing in current status") /\
    updateListing 9 3 (Sample.reprice 90) Sample.settled_market
    = (Sample.settled_market, Error 404 "Listing not found") /\
    deleteListing 9 3 Sample.settled_market
    = (Sample.settled_market, Error 404 "Listing not found").
Proof.
  destruct (listings Sample.settled_market) as [|l [|x r]] eqn:Hl;
    try (vm_compute in Hl; discriminate Hl).
  assert (Hf : SellerListing._id l = 3 /\ SellerListing.seller l = 7 /\
               SellerListing.status l = SellerListing.matched).
  { vm_compute in Hl. inversion Hl. repeat split. }
  destruct Hf as (Hid & Hs & Hst).
  assert (Hnd : NoDup (map SellerListing._id (listings Sample.settled_market))).
  { rewrite Hl. simpl. constructor; [simpl; tauto|constructor]. }
  assert (Hin : In l (listings Sample.settled_market)) by (rewrite Hl; left; reflexivity).
  assert (Hm : SellerListing.matched_or_sold l = true).
  { unfold SellerListing.matched_or_sold. rewrite Hst. reflexivity. }
  destruct (matched_or_sold_listing_immutable 7 Sample.settled_market l Hnd Hin Hm)
    as [Hseller _].
  destruct (matched_or_sold_listing_immutable 9 Sample.settled_market l Hnd Hin Hm)
    as [_ Hother].
  destruct (Hseller (eq_sym Hs)) as [Hu Hd].
  destruct Hother as [Hu' Hd']; [rewrite Hs; discriminate|].
  rewrite Hid in Hu, Hd, Hu', Hd'.
  exists l. repeat split; auto.
Defined.

(** C9, as the specification words it, fails: a cancelled listing accepts an
    update (here of its asking price), and its fields change. *)
Lemma cancelled_listing_is_editable : ~ Claimed.locked_listings_immutable.
Proof.
  intro H.
  destruct (H 7 2 (step (Sample.env_at 450) (DeleteListing 7 2)
                        (Sample.market_with_listing (Some 150%float)))
              (SellerListing.set_status SellerListing.cancelled
                 (SellerListing.mk 2 7 1 "A" None [] 2 (Some 180%float) (Some 150%float)
                    true None SellerListing.autoSell_default SellerListing.active pdf None 400))
              eq_refl eq_refl) as [Hu _].
  destruct (Hu (Sample.reprice 90)) as (c & m & Hc).
  vm_compute in Hc. discriminate.
Qed.



(** ** The pricing engine *)

(** C8, evaluated on the code.  With no active offer and no transaction for
    the sections of the query, and an event whose average price is absent or
    zero, the suggested price is [Math.min(0, maxPrice)] and the probability
    is [0 / averagePrice] carried through the clamp: NaN, not 50. *)
Theorem empty_market_probability_is_nan :
  forall db eventId sections maxPrice quantity event,
    findById Event._id eventId (events db) = Some event ->
    Pricing.findActiveOffers db eventId sections = [] ->
    Pricing.findCompletedTransactions db eventId sections = [] ->
    (Event.averagePrice event = None \/ Event.averagePrice event = Some 0%float) ->
    exists s,
      Pricing.calculateSuggestedPrice db eventId sections maxPrice quantity = Some s /\
      Pricing.suggestedPrice s = JS.Math_min 0 maxPrice /\
      Pricing.probability s = PrimFloat.nan /\
      (Pricing.probability s =? 50)%float = false.
Proof.
  intros db eventId sections maxPrice quantity event He Ho Ht Havg.
  unfold Pricing.calculateSuggestedPrice. rewrite He, Ho, Ht. simpl.
  eexists. split; [reflexivity|]. simpl.
  unfold Pricing.calculateAcceptanceProbability.
  destruct Havg as [Havg|Havg]; rewrite Havg; repeat split; reflexivity.
Qed.

Lemma empty_market_probability_is_nan_witness :
  exists s,
    Pricing.calculateSuggestedPrice Sample.bare_market 1 ["A"%string] 200 2 = Some s /\
    Pricing.suggestedPrice s = JS.Math_min 0 200 /\
    Pricing.probability s = PrimFloat.nan /\
    (Pricing.probability s =? 50)%float = false.
Proof.
  apply (empty_market_probability_is_nan Sample.bare_market 1 ["A"%string] 200 2
           Sample.event_without_average).
  - reflexivity.
  - reflexivity.
  - reflexivity.
  - left. reflexivity.
Defined.

(** The probability is computed from the price before it is capped at
    [maxPrice]: with one active offer at 300 and an average price of 100, a
    query capped at 100 is answered with price 100 and probability 95, where
    [50 + (100 / 100 - 1) * 100] is 50. *)
Lemma probability_of_uncapped_price :
  let offer :=
    BuyerOffer.mk 2 8 1 ["A"%string] 300 2 0 50
      (BuyerOffer.mkIntent "pi_1" 600 BuyerOffer.authorized 500)
      BuyerOffer.active None None 6400000 500 in
  let db := mkStore [Event.mk 1 10000000 (Some 100%float) Event.upcoming] [offer] [] [] 3 in
  exists s,
    Pricing.calculateSuggestedPrice db 1 ["A"%string] 100 2 = Some s /\
    Pricing.suggestedPrice s = 100%float /\
    Pricing.probability s = 95%float /\
    Pricing.calculateAcceptanceProbability (Pricing.suggestedPrice s)
      (Event.mk 1 10000000 (Some 100%float) Event.upcoming) = 50%float.
Proof.
  eexists. vm_compute. repeat split.
Qed.

(** ** Order on prices *)

Lemma SFleb_trans : forall a b c,
  SFleb a b = true -> SFleb b c = true -> SFleb a c = true.
Proof.
  unfold SFleb, SFcompare.
  intros [sa|sa| |sa ma ea] [sb|sb| |sb mb eb] [sc|sc| |sc mc ec];
    try (destruct sa); try (destruct sb); try (destruct sc);
    try discriminate; try reflexivity; intros H1 H2;
    change (Pos.compare_cont Eq) with Pos.compare in *;
    repeat match goal with
    | H : context [Z.compare ?x ?y] |- _ =>
        let E := fresh "E" in destruct (Z.compare_spec x y) as [E|E|E]
    | |- context [Z.compare ?x ?y] =>
        let E := fresh "E" in destruct (Z.compare_spec x y) as [E|E|E]
    end; subst; try discriminate; try reflexivity; try lia;
    repeat match goal with
    | H : context [Pos.compare ?x ?y] |- _ =>
        let E := fresh "E" in destruct (Pos.compare_spec x y) as [E|E|E]
    | |- context [Pos.compare ?x ?y] =>
        let E := fresh "E" in destruct (Pos.compare_spec x y) as [E|E|E]
    end; subst; simpl in *; try discriminate; try reflexivity; try lia.
Qed.

(** Two numbers that are each below something (so neither is NaN) are
    comparable. *)
Lemma SFleb_total : forall a b x y,
  SFleb a x = true -> SFleb b y = true -> SFleb a b = true \/ SFleb b a = true.
Proof.
  unfold SFleb, SFcompare.
  intros [sa|sa| |sa ma ea] [sb|sb| |sb mb eb] x y Ha Hb;
    try (destruct sa); try (destruct sb); try discriminate; auto;
    try (destruct x; discriminate); try (destruct y; discriminate);
    clear Ha Hb;
    change (Pos.compare_cont Eq) with Pos.compare in *;
    repeat match goal with
    | |- context [Z.compare ?x ?y] =>
        let E := fresh "E" in destruct (Z.compare_spec x y) as [E|E|E]
    end; subst; auto; try lia;
    repeat match goal with
    | |- context [Pos.compare ?x ?y] =>
        let E := fresh "E" in destruct (Pos.compare_spec x y) as [E|E|E]
    end; subst; simpl; auto; try lia.
Qed.

Lemma leb_trans : forall a b c : float,
  (a <=? b)%float = true -> (b <=? c)%float = true -> (a <=? c)%float = true.
Proof. intros a b c. rewrite !leb_spec. apply SFleb_trans. Qed.

Lemma leb_total : forall a b x y : float,
  (a <=? x)%float = true -> (b <=? y)%float = true ->
  (a <=? b)%float = true \/ (b <=? a)%float = true.
Proof. intros a b x y. rewrite !leb_spec. apply SFleb_total. Qed.

(** ** The sorted result of a query *)

Section SortFacts.
Context {A : Type} (le : A -> A -> bool).

Lemma sort_insert_In : forall a l x, In x (sort_insert le a l) <-> x = a \/ In x l.
Proof.
  intros a l x. induction l as [|b l IH]; simpl.
  - intuition.
  - destruct (le a b); simpl; [intuition|]. rewrite IH. intuition.
Qed.

Lemma sort_In : forall l x, In x (sort le l) <-> In x l.
Proof.
  induction l as [|a l IH]; intros x; simpl; [reflexivity|].
  rewrite sort_insert_In, IH. intuition.
Qed.

Lemma sort_nil : forall l, sort le l = [] -> l = [].
Proof.
  intros [|a l] H; [reflexivity|]. exfalso.
  assert (Hin : In a (sort le (a :: l))) by (apply sort_In; left; reflexivity).
  rewrite H in Hin. exact Hin.
Qed.

End SortFacts.

(** The sorted result of a query holds the documents the query takes, and
    its first document is least in the key, whatever order the store gives
    to documents with equal keys. *)
Lemma sorted_by_In : forall {A : Type} (id : A -> ObjectId) before le l x,
  In x (sorted_by id before le l) <-> In x l.
Proof.
  intros A id before le l x. unfold sorted_by. apply sort_In.
Qed.

Lemma sorted_by_head : forall {A : Type} (id : A -> ObjectId) before (le : A -> A -> bool) l x r,
  (forall a b, In a l -> In b l -> le a b = true \/ le b a = true) ->
  (forall a b c, In a l -> In b l -> In c l ->
                 le a b = true -> le b c = true -> le a c = true) ->
  sorted_by id before le l = x :: r ->
  forall y, In y l -> le x y = true.
Proof.
  intros A id before le. unfold sorted_by.
  set (c := fun a b => le a b && (negb (le b a) || before (id a) (id b))).
  induction l as [|a l IH]; intros x r Htot Htr Hs y Hy; simpl in Hs; [discriminate|].
  assert (Hrefl : forall z, In z (a :: l) -> le z z = true).
  { intros z Hz. destruct (Htot z z Hz Hz); assumption. }
  destruct (sort c l) as [|h r'] eqn:E.
  - apply sort_nil in E. subst l. simpl in Hs. inversion Hs; subst.
    destruct Hy as [Hy|[]]. subst y. apply Hrefl. left. reflexivity.
  - assert (Hh : In h l) by (apply (sort_In c); rewrite E; left; reflexivity).
    assert (Hmin : forall z, In z l -> le h z = true).
    { intros z Hz. apply (IH h r'); auto.
      - intros a0 b0 Ha Hb. apply Htot; right; assumption.
      - intros a0 b0 c0 Ha Hb Hc. apply Htr; right; assumption. }
    simpl in Hs. destruct (c a h) eqn:Ec; inversion Hs; subst x; clear Hs.
    + unfold c in Ec. apply andb_prop in Ec. destruct Ec as [Eah _].
      destruct Hy as [Hy|Hy].
      * subst y. apply Hrefl. left. reflexivity.
      * apply (Htr a h y); [left; reflexivity|right; exact Hh|right; exact Hy|exact Eah|].
        apply Hmin. exact Hy.
    + destruct Hy as [Hy|Hy]; [|apply Hmin; exact Hy]. subst y.
      unfold c in Ec. destruct (le a h) eqn:Eah; simpl in Ec.
      * destruct (le h a); [reflexivity|discriminate].
      * destruct (Htot a h) as [H|H]; [left; reflexivity|right; exact Hh| |exact H].
        rewrite Eah in H. discriminate.
Qed.

(** ** The instant match of a new offer *)

Import MatchingService.

Lemma instantMatchQuery_spec : forall o l,
  instantMatchQuery o l = true <->
  SellerListing.event l = BuyerOffer.event o /\
  JS.includes (SellerListing.section l) (BuyerOffer.sections o) = true /\
  SellerListing.status l = SellerListing.active /\
  SellerListing.isLive l = true /\
  (SellerListing.quantity l <= BuyerOffer.quantity o)%Z /\
  exists m, SellerListing.minimumAcceptablePrice l = Some m /\
            (m <=? BuyerOffer.maxPrice o)%float = true.
Proof.
  intros o l. unfold instantMatchQuery, SellerListing.is_active.
  rewrite !andb_true_iff, N.eqb_eq, Z.leb_le.
  split.
  - intros [[[[[H1 H2] H3] H4] H5] H6].
    destruct (SellerListing.status l); try discriminate.
    destruct (SellerListing.minimumAcceptablePrice l) as [m|]; [|discriminate].
    repeat split; auto. exists m. auto.
  - intros (H1 & H2 & H3 & H4 & H5 & m & H6 & H7).
    rewrite H3, H6. repeat split; auto.
Qed.

Lemma by_minimumAcceptablePrice_total : forall o a b,
  instantMatchQuery o a = true -> instantMatchQuery o b = true ->
  by_minimumAcceptablePrice a b = true \/ by_minimumAcceptablePrice b a = true.
Proof.
  intros o a b Ha Hb.
  apply instantMatchQuery_spec in Ha. apply instantMatchQuery_spec in Hb.
  destruct Ha as (_ & _ & _ & _ & _ & ma & Ha & Hma).
  destruct Hb as (_ & _ & _ & _ & _ & mb & Hb & Hmb).
  unfold by_minimumAcceptablePrice. rewrite Ha, Hb. eapply leb_total; eauto.
Qed.

Lemma by_minimumAcceptablePrice_trans : forall a b c,
  by_minimumAcceptablePrice a b = true -> by_minimumAcceptablePrice b c = true ->
  by_minimumAcceptablePrice a c = true.
Proof.
  intros a b c. unfold by_minimumAcceptablePrice.
  destruct (SellerListing.minimumAcceptablePrice a),
           (SellerListing.minimumAcceptablePrice b),
           (SellerListing.minimumAcceptablePrice c); try discriminate; auto.
  apply leb_trans.
Qed.

(** C6, evaluated on the code.  Seller 7 has a live, active listing of two
    seats in section A at an asking price of 180 and with no
    minimumAcceptablePrice; buyer 8 offers 200 for two seats in section A.
    The listing is a candidate in the specification's sense, but the query
    of the instant match does not take it: no listing is selected whatever
    the store's order, and the offer is stored 'active' and unmatched, with
    the listing untouched and no transaction. *)
Theorem listing_without_minimum_is_not_considered :
  exists l offer db',
    listings (Sample.market_with_listing None) = [l] /\
    SellerListing.event l = 1 /\
    SellerListing.section l = "A"%string /\
    SellerListing.quantity l = 2%Z /\
    SellerListing.status l = SellerListing.active /\
    SellerListing.isLive l = true /\
    SellerListing.askingPrice l = Some 180%float /\
    SellerListing.minimumAcceptablePrice l = None /\
    BuyerOfferController.createOffer (Sample.env_at 500) 8 (Sample.offer_body 200)
      (Sample.market_with_listing None) = (db', Ok offer) /\
    Claimed.instant_match_candidate offer l = true /\
    instantMatchQuery offer l = false /\
    (forall env, bestListing env offer (Sample.market_with_listing None) = None) /\
    offers db' = [offer] /\
    BuyerOffer.status offer = BuyerOffer.active /\
    BuyerOffer.matchedListing offer = None /\
    listings db' = [l] /\
    transactions db' = [].
Proof.
  do 3 eexists. split; [vm_compute; reflexivity|].
  do 7 (split; [reflexivity|]). split; [vm_compute; reflexivity|].
  split; [vm_compute; reflexivity|]. split; [vm_compute; reflexivity|].
  split; [intros env; reflexivity|].
  repeat split.
Qed.

(** The sort of the instant match names no second key.  Of two candidates
    with the same minimum, the one the store puts first is selected: the
    older one where the store returns equal keys oldest first, the newer one
    where it returns them newest first. *)
Lemma bestListing_tie_follows_the_store :
  exists older newer,
    listings Sample.market_with_tie = [older; newer] /\
    SellerListing.createdAt older = 400%Z /\
    SellerListing.createdAt newer = 420%Z /\
    SellerListing.minimumAcceptablePrice older = Some 150%float /\
    SellerListing.minimumAcceptablePrice newer = Some 150%float /\
    bestListing (Sample.env_at 500) Sample.open_offer Sample.market_with_tie
    = Some older /\
    bestListing (Sample.env_newest_first 500) Sample.open_offer Sample.market_with_tie
    = Some newer.
Proof.
  do 2 eexists. split; [vm_compute; reflexivity|].
  repeat split; vm_compute; reflexivity.
Qed.

(** ** The auto-sell sweep *)

(** C7, evaluated on the code.  Seller 7's listing is active, has a minimum
    of 150 and auto-sell enabled, accepting the highest offer, with a trigger
    time of 450; buyer 8's offer of 200 for the same event, section and
    quantity is active.  At 600 the sweep takes the listing and calls
    [findBestOfferForListing], which throws before it reads any offer: the
    sweep is rejected, no match is executed, and the store is as it was. *)
Theorem auto_sell_sweep_matches_nothing :
  exists offer listing,
    offers Sample.market_with_due_listing = [offer] /\
    listings Sample.market_with_due_listing = [listing] /\
    transactions Sample.market_with_due_listing = [] /\
    BuyerOffer.status offer = BuyerOffer.active /\
    BuyerOffer.event offer = SellerListing.event listing /\
    JS.includes (SellerListing.section listing) (BuyerOffer.sections offer) = true /\
    (SellerListing.quantity listing <= BuyerOffer.quantity offer)%Z /\
    SellerListing.minimumAcceptablePrice listing = Some 150%float /\
    BuyerOffer.maxPrice offer = 200%float /\
    SellerListing.autoSell listing = SellerListing.mkAuto true (Some 450%Z) true /\
    filter (autoSellQuery 600) (listings Sample.market_with_due_listing) = [listing] /\
    findBestOfferForListing (Sample.env_at 600) listing Sample.market_with_due_listing
    = (Sample.market_with_due_listing, Error 500 "BuyerOffer is not defined") /\
    processAutoSellListings (Sample.env_at 600) Sample.market_with_due_listing
    = (Sample.market_with_due_listing, Error 500 "BuyerOffer is not defined") /\
    step (Sample.env_at 600) AutoSellSweep Sample.market_with_due_listing
    = Sample.market_with_due_listing.
Proof.
  do 2 eexists. split; [vm_compute; reflexivity|].
  split; [vm_compute; reflexivity|].
  repeat split; vm_compute; try reflexivity. discriminate.
Qed.

(** ** The invariant and the writes that keep it *)

Lemma NoDup_snoc : forall {A : Type} (l : list A) x,
  NoDup l -> ~ In x l -> NoDup (l ++ [x]).
Proof.
  intros A l x Hl Hx. apply NoDup_app.
  - exact Hl.
  - constructor; [intros []|constructor].
  - intros a Ha [Hb|[]]. subst. auto.
Qed.

Lemma somes_app : forall {A : Type} (l1 l2 : list (option A)),
  somes (l1 ++ l2) = somes l1 ++ somes l2.
Proof.
  induction l1 as [|[a|] l1 IH]; intros l2; simpl; rewrite ?IH; reflexivity.
Qed.

Lemma In_somes : forall {A : Type} (l : list (option A)) x,
  In x (somes l) <-> In (Some x) l.
Proof.
  induction l as [|[a|] l IH]; intros x; simpl.
  - reflexivity.
  - rewrite IH. split; intros [H|H]; auto; left; congruence.
  - rewrite IH. split; [auto|]. intros [H|H]; [discriminate|auto].
Qed.

(** A field that the new document shares with the one it replaces reads the
    same over the collection after the update. *)
Lemma map_update : forall {A B : Type} (id : A -> ObjectId) (g : A -> B) a' a l,
  NoDup (map id l) -> In a l -> id a' = id a -> g a' = g a ->
  map g (update id a' l) = map g l.
Proof.
  intros A B id g a' a l Hnd Hin Hid Hg. unfold update. rewrite map_map.
  apply map_ext_in. intros b Hb. destruct (id b =? id a') eqn:E; [|reflexivity].
  apply N.eqb_eq in E. rewrite Hid in E.
  rewrite (NoDup_ids_eq id l b a Hnd Hb Hin E). exact Hg.
Qed.

Ltac store_simpl :=
  unfold settled_offers_kept,
    offer_refs, listing_refs, draw_id, set_offers, set_listings,
    set_transactions, set_events, insert in *; simpl in *.

(** The goals of [step_ok]: the thirteen parts of the invariant and the
    frame condition; those that a hypothesis closes as it is, or once the
    next id has moved on, are closed. *)
Ltac step_ok_goals :=
  split; [constructor|]; store_simpl;
  try assumption;
  try (let x := fresh "x" in let Hx := fresh "Hx" in
       intros x Hx;
       match goal with
       | H : forall y, In y _ -> _ < _ |- _ < _ => apply H in Hx; lia
       end);
  try (let x := fresh "x" in let Hx := fresh "Hx" in intros x Hx ?; exact Hx).

Lemma step_ok_refl : forall db, Inv db -> step_ok db db.
Proof.
  intros db H. split; [exact H|]. intros x Hx _; exact Hx.
Qed.

Lemma step_ok_trans : forall a b c, step_ok a b -> step_ok b c -> step_ok a c.
Proof.
  intros a b c (Ha & H1) (H3 & H4). split; [exact H3|].
  intros o Ho Hn. apply H4; auto.
Qed.

Lemma ok_set_events : forall db catalogue, Inv db -> step_ok db (set_events catalogue db).
Proof.
  intros db catalogue [ ]. step_ok_goals.
Qed.

Lemma ok_insert_listing : forall db l,
  Inv db -> SellerListing._id l = nextId db ->
  step_ok db (draw_id (set_listings (insert l (listings db)) db)).
Proof.
  intros db l [ ] Hid. step_ok_goals.
  - intros x Hx. apply in_app_or in Hx. destruct Hx as [Hx|[Hx|[]]].
    + apply listing_ids_fresh0 in Hx. lia.
    + subst x. lia.
  - rewrite map_app. simpl. apply NoDup_snoc; auto.
    intros Hin. apply in_map_iff in Hin. destruct Hin as (x & Hx1 & Hx2).
    apply listing_ids_fresh0 in Hx2. lia.
  - intros x Hx Hr. apply in_app_or in Hx. destruct Hx as [Hx|[Hx|[]]]; auto.
    subst x. apply listing_refs_fresh0 in Hr. lia.
Qed.

Lemma ok_update_listing : forall db l l',
  Inv db -> In l (listings db) ->
  SellerListing._id l' = SellerListing._id l ->
  (SellerListing.status l = SellerListing.matched ->
   SellerListing.status l' = SellerListing.matched) ->
  step_ok db (set_listings (update SellerListing._id l' (listings db)) db).
Proof.
  intros db l l' [ ] Hin Hid Hst. step_ok_goals.
  - intros x Hx. apply In_update in Hx. destruct Hx as [[Hx _]|[Hx _]]; auto.
    subst x. rewrite Hid. auto.
  - rewrite update_ids. auto.
  - intros x Hx Hr. apply In_update in Hx. destruct Hx as [[Hx _]|[Hx _]]; auto.
    subst x. apply Hst. apply referenced_listing_matched0; auto. rewrite <- Hid. exact Hr.
Qed.

Lemma ok_insert_offer : forall db o,
  Inv db -> BuyerOffer._id o = nextId db ->
  step_ok db (draw_id (set_offers (insert o (offers db)) db)).
Proof.
  intros db o [ ] Hid. step_ok_goals.
  - intros x Hx. apply in_app_or in Hx. destruct Hx as [Hx|[Hx|[]]].
    + apply offer_ids_fresh0 in Hx. lia.
    + subst x. lia.
  - rewrite map_app. simpl. apply NoDup_snoc; auto.
    intros Hin. apply in_map_iff in Hin. destruct Hin as (x & Hx1 & Hx2).
    apply offer_ids_fresh0 in Hx2. lia.
  - intros x Hx Hr. apply in_app_or in Hx. destruct Hx as [Hx|[Hx|[]]]; auto.
    subst x. apply offer_refs_fresh0 in Hr. lia.
  - intros x Hx _. apply in_or_app. left. exact Hx.
Qed.

Lemma ok_update_offer : forall db o o',
  Inv db -> In o (offers db) ->
  BuyerOffer._id o' = BuyerOffer._id o ->
  BuyerOffer.status o = BuyerOffer.active ->
  BuyerOffer.status o' <> BuyerOffer.active ->
  step_ok db (set_offers (update BuyerOffer._id o' (offers db)) db).
Proof.
  intros db o o' [ ] Hin Hid Hact Hst. step_ok_goals.
  - intros x Hx. apply In_update in Hx. destruct Hx as [[Hx _]|[Hx _]]; auto.
    subst x. rewrite Hid. auto.
  - rewrite update_ids. auto.
  - intros x Hx Hr. apply In_update in Hx. destruct Hx as [[Hx _]|[Hx _]]; auto.
    subst x. exact Hst.
  - intros x Hx Hn. apply update_keeps; auto. rewrite Hid. intros E.
    apply Hn. rewrite (NoDup_ids_eq BuyerOffer._id _ x o offer_ids_unique0 Hx Hin E).
    exact Hact.
Qed.

Lemma ok_update_transaction : forall db t t',
  Inv db -> In t (transactions db) ->
  Transaction._id t' = Transaction._id t ->
  Transaction.buyerOffer t' = Transaction.buyerOffer t ->
  Transaction.sellerListing t' = Transaction.sellerListing t ->
  escrow_held t' ->
  step_ok db (set_transactions (update Transaction._id t' (transactions db)) db).
Proof.
  intros db t t' [ ] Hin Hid Hbo Hsl He.
  assert (E1 : map Transaction.buyerOffer (update Transaction._id t' (transactions db))
               = map Transaction.buyerOffer (transactions db))
    by (apply (map_update Transaction._id Transaction.buyerOffer t' t); auto).
  assert (E2 : map Transaction.sellerListing (update Transaction._id t' (transactions db))
               = map Transaction.sellerListing (transactions db))
    by (apply (map_update Transaction._id Transaction.sellerListing t' t); auto).
  split; [constructor|]; store_simpl; rewrite ?E1, ?E2; try assumption;
    try (intros ? Hx0 ?; exact Hx0).
  - intros x Hx. apply In_update in Hx. destruct Hx as [[Hx _]|[Hx _]]; auto.
    subst x. rewrite Hid. auto.
  - rewrite update_ids. auto.
  - intros x Hx. apply In_update in Hx. destruct Hx as [[Hx _]|[Hx _]]; auto.
    subst x. exact He.
Qed.

(** A settlement adds a transaction for an offer and a listing that no
    transaction refers to yet. *)
Lemma ok_insert_transaction : forall db t,
  Inv db ->
  Transaction._id t = nextId db ->
  Transaction.buyerOffer t < nextId db ->
  ~ In (Transaction.buyerOffer t) (offer_refs db) ->
  (forall o, In o (offers db) -> BuyerOffer._id o = Transaction.buyerOffer t ->
             BuyerOffer.status o <> BuyerOffer.active) ->
  (forall x, Transaction.sellerListing t = Some x ->
             x < nextId db /\ ~ In x (listing_refs db) /\
             forall l, In l (listings db) -> SellerListing._id l = x ->
                       SellerListing.status l = SellerListing.matched) ->
  escrow_held t ->
  step_ok db (draw_id (set_transactions (insert t (transactions db)) db)).
Proof.
  intros db t [ ] Hid Hbo Hnr Hso Hl He.
  split; [constructor|]; store_simpl;
    rewrite ?map_app, ?somes_app; simpl.
  - intros x Hx. apply offer_ids_fresh0 in Hx. lia.
  - assumption.
  - intros x Hx. apply listing_ids_fresh0 in Hx. lia.
  - assumption.
  - intros x Hx. apply in_app_or in Hx. destruct Hx as [Hx|[Hx|[]]].
    + apply transaction_ids_fresh0 in Hx. lia.
    + subst x. lia.
  - apply NoDup_snoc; auto.
    intros Hin. apply in_map_iff in Hin. destruct Hin as (x & Hx1 & Hx2).
    apply transaction_ids_fresh0 in Hx2. lia.
  - intros x Hx. apply in_app_or in Hx. destruct Hx as [Hx|[Hx|[]]].
    + apply offer_refs_fresh0 in Hx. lia.
    + subst x. lia.
  - intros x Hx. apply in_app_or in Hx. destruct Hx as [Hx|Hx].
    + apply listing_refs_fresh0 in Hx. lia.
    + destruct (Transaction.sellerListing t) as [y|]; simpl in Hx; [|contradiction].
      destruct Hx as [Hx|[]]. subst y. destruct (Hl x eq_refl). lia.
  - apply NoDup_snoc; auto.
  - destruct (Transaction.sellerListing t) as [y|]; simpl.
    + apply NoDup_snoc; auto. apply (Hl y eq_refl).
    + rewrite app_nil_r. assumption.
  - intros o Ho Hr. apply in_app_or in Hr. destruct Hr as [Hr|[Hr|[]]]; auto.
  - intros l Hin Hr. apply in_app_or in Hr. destruct Hr as [Hr|Hr]; auto.
    destruct (Transaction.sellerListing t) as [y|]; simpl in Hr; [|contradiction].
    destruct Hr as [Hr|[]]. apply (Hl y eq_refl); auto.
  - intros x Hx. apply in_app_or in Hx. destruct Hx as [Hx|[Hx|[]]]; auto.
    subst x. exact He.
  - intros x Hx _. exact Hx.
Qed.

Lemma escrow_held_new : forall id b s bo sl e q sec r st sp bp sf spo pi dm c,
  escrow_held (new_Transaction id b s bo sl e q sec r st sp bp sf spo pi dm c).
Proof.
  intros. unfold escrow_held. simpl. auto.
Qed.

Lemma is_active_offer : forall o,
  BuyerOffer.is_active o = true <-> BuyerOffer.status o = BuyerOffer.active.
Proof.
  intros o. unfold BuyerOffer.is_active.
  destruct (BuyerOffer.status o); split; try discriminate; reflexivity.
Qed.

Lemma is_active_listing : forall l,
  SellerListing.is_active l = true <-> SellerListing.status l = SellerListing.active.
Proof.
  intros l. unfold SellerListing.is_active.
  destruct (SellerListing.status l); split; try discriminate; reflexivity.
Qed.

(** ** Every handler keeps the invariant *)

Lemma createMatch_ok : forall env o l db,
  Inv db -> step_ok db (fst (TransactionService.createMatch env o l db)).
Proof.
  intros env o l db HI. unfold TransactionService.createMatch.
  destruct (findById BuyerOffer._id _ (offers db)) as [offer|] eqn:Ho;
    [|apply step_ok_refl; exact HI].
  destruct (findById SellerListing._id _ (listings db)) as [listing|] eqn:Hl;
    [|apply step_ok_refl; exact HI].
  destruct (BuyerOffer.is_active offer && SellerListing.is_active listing) eqn:Hact;
    simpl; [|apply step_ok_refl; exact HI].
  destruct (JS.includes _ _); simpl; [|apply step_ok_refl; exact HI].
  destruct (_ <=? _)%Z; simpl; [|apply step_ok_refl; exact HI].
  destruct (capture_ok env _); simpl; [|apply step_ok_refl; exact HI].
  apply andb_prop in Hact. destruct Hact as [Hao Hal].
  apply is_active_offer in Hao. apply is_active_listing in Hal.
  apply findById_In in Ho. destruct Ho as [Ho Hoid].
  apply findById_In in Hl. destruct Hl as [Hl Hlid].
  pose proof (ok_update_offer db offer
                (BuyerOffer.set_matched (SellerListing._id listing) (now env) offer)
                HI Ho eq_refl Hao) as S1.
  assert (S1' := S1 ltac:(simpl; discriminate)). clear S1.
  pose proof (ok_update_listing _ listing
                (SellerListing.set_status SellerListing.matched listing)
                (proj1 S1') Hl eq_refl (fun _ => eq_refl)) as S2.
  eapply step_ok_trans; [eapply step_ok_trans; [exact S1'|exact S2]|].
  match goal with
  | |- step_ok _ (draw_id (set_transactions (insert ?t _) ?s)) =>
      apply (ok_insert_transaction s t)
  end.
  - exact (proj1 S2).
  - reflexivity.
  - simpl. apply (offer_ids_fresh db HI). exact Ho.
  - simpl. intros Hr. apply (referenced_offer_settled db HI offer Ho) in Hr. auto.
  - simpl. intros x Hx Hid. apply In_update in Hx. destruct Hx as [[Hx _]|[_ Hx]].
    + subst x. simpl. discriminate.
    + simpl in Hx. contradiction.
  - simpl. intros x Hx. inversion Hx; subst x; clear Hx. split; [|split].
    + apply (listing_ids_fresh db HI). exact Hl.
    + intros Hr. apply (referenced_listing_matched db HI listing Hl) in Hr.
      rewrite Hal in Hr. discriminate.
    + intros x Hx Hid. apply In_update in Hx. destruct Hx as [[Hx _]|[_ Hx]].
      * subst x. reflexivity.
      * simpl in Hx. contradiction.
  - apply escrow_held_new.
Qed.

Lemma acceptOffer_unit_session : forall env user offerId body db session transaction,
  acceptOffer_unit env user offerId body db = inr (session, transaction) ->
  exists offer listing,
    In offer (offers db) /\
    BuyerOffer._id offer = offerId /\
    BuyerOffer.status offer = BuyerOffer.active /\
    SellerListing._id listing = nextId db /\
    SellerListing.status listing = SellerListing.matched /\
    Transaction._id transaction = nextId db + 1 /\
    Transaction.buyerOffer transaction = offerId /\
    Transaction.sellerListing transaction = Some (nextId db) /\
    escrow_held transaction /\
    session =
      draw_id
        (set_transactions (insert transaction (transactions db))
           (set_offers
              (update BuyerOffer._id
                 (BuyerOffer.set_matched (nextId db) (now env) offer) (offers db))
              (draw_id (set_listings (insert listing (listings db)) db)))).
Proof.
  intros env user offerId body db session transaction H.
  unfold acceptOffer_unit in H.
  destruct (findById BuyerOffer._id offerId (offers db)) as [offer|] eqn:Ho; [|discriminate].
  destruct (BuyerOffer.is_active offer) eqn:Hact; simpl in H; [|discriminate].
  destruct (a_section body) as [section|] eqn:Hsec; [|discriminate].
  destruct (JS.includes section (BuyerOffer.sections offer)) eqn:Hinc; simpl in H; [|discriminate].
  destruct (findById Event._id (BuyerOffer.event offer) (events db)) as [event|] eqn:He;
    [|discriminate].
  destruct (a_deliveryMethod body) as [dm|] eqn:Hdm; [|discriminate].
  match type of H with
  | (if negb ?v then _ else _) = _ => destruct v; simpl in H; [|discriminate]
  end.
  destruct (capture_ok env _) eqn:Hcap; [|discriminate].
  inversion H; subst; clear H.
  apply findById_In in Ho. destruct Ho as [Ho Hoid].
  apply is_active_offer in Hact.
  eexists offer, _. repeat split; try reflexivity; auto.
Qed.

Lemma acceptOffer_ok : forall env user offerId body db,
  Inv db -> step_ok db (fst (acceptOffer env user offerId body db)).
Proof.
  intros env user offerId body db HI. unfold acceptOffer.
  destruct (acceptOffer_unit env user offerId body db) as [m|[session t]] eqn:Hu;
    [apply step_ok_refl; exact HI|].
  apply acceptOffer_unit_session in Hu.
  destruct Hu as (offer & listing & Ho & Hoid & Hact & Hlid & Hlst & Htid & Hbo & Hsl & He & Hs).
  assert (Hgoal : step_ok db session).
  { subst session.
    pose proof (ok_insert_listing db listing HI Hlid) as S1.
    pose proof (ok_update_offer _ offer (BuyerOffer.set_matched (nextId db) (now env) offer)
                  (proj1 S1) Ho eq_refl Hact) as S2.
    assert (S2' := S2 ltac:(simpl; discriminate)). clear S2.
    eapply step_ok_trans; [eapply step_ok_trans; [exact S1|exact S2']|].
    match goal with
    | |- step_ok _ (draw_id (set_transactions (insert ?t _) ?s)) =>
        apply (ok_insert_transaction s t)
    end.
    - exact (proj1 S2').
    - simpl. exact Htid.
    - rewrite Hbo, <- Hoid. simpl.
      pose proof (offer_ids_fresh db HI offer Ho). lia.
    - rewrite Hbo, <- Hoid. simpl. intros Hr.
      apply (referenced_offer_settled db HI offer Ho) in Hr. auto.
    - rewrite Hbo, <- Hoid. simpl. intros x Hx Hid.
      apply In_update in Hx. destruct Hx as [[Hx _]|[_ Hx]].
      + subst x. simpl. discriminate.
      + simpl in Hx. contradiction.
    - rewrite Hsl. simpl. intros x Hx. inversion Hx; subst x; clear Hx.
      split; [lia|]. split.
      + intros Hr. apply (listing_refs_fresh db HI) in Hr. lia.
      + intros x Hx Hid. apply in_app_or in Hx. destruct Hx as [Hx|[Hx|[]]].
        * apply (listing_ids_fresh db HI) in Hx. lia.
        * subst x. exact Hlst.
    - exact He. }
  destruct (notify_ok env); exact Hgoal.
Qed.

Lemma checkForInstantMatch_ok : forall env o db,
  Inv db -> step_ok db (fst (checkForInstantMatch env o db)).
Proof.
  intros env o db HI. unfold checkForInstantMatch.
  destruct (bestListing env o db) as [best|]; [|apply step_ok_refl; exact HI].
  pose proof (createMatch_ok env o best db HI) as H.
  destruct (TransactionService.createMatch env o best db) as [db' [t|c m]]; exact H.
Qed.

Lemma findBestOfferForListing_ok : forall env l db,
  Inv db -> step_ok db (fst (findBestOfferForListing env l db)).
Proof.
  intros env l db HI. apply step_ok_refl. exact HI.
Qed.

Lemma autoSellLoop_ok : forall env ls db,
  Inv db -> step_ok db (fst (autoSellLoop env ls db)).
Proof.
  intros env ls db HI. destruct ls as [|l ls]; simpl; apply step_ok_refl; exact HI.
Qed.

Lemma createOffer_ok : forall env user body db,
  Inv db -> step_ok db (fst (BuyerOfferController.createOffer env user body db)).
Proof.
  intros env user body db HI. unfold BuyerOfferController.createOffer.
  destruct (findById Event._id _ (events db)) as [[eid dt avg []]|];
    try (apply step_ok_refl; exact HI).
  destruct (Pricing.calculateSuggestedPrice _ _ _ _ _) as [p|];
    [|apply step_ok_refl; exact HI].
  destruct (intent_created env) as [pid|]; [|apply step_ok_refl; exact HI].
  destruct (BuyerOfferController.valid_offer _); [|apply step_ok_refl; exact HI].
  match goal with
  | |- context [checkForInstantMatch env ?o (draw_id (set_offers (insert ?o _) _))] =>
      pose proof (ok_insert_offer db o HI eq_refl) as S1;
      pose proof (checkForInstantMatch_ok env o _ (proj1 S1)) as S2
  end.
  destruct (checkForInstantMatch env _ _) as [db2 [u|c m]]; simpl in *;
    eapply step_ok_trans; eauto.
Qed.

Lemma cancelOffer_ok : forall env user id db,
  Inv db -> step_ok db (fst (BuyerOfferController.cancelOffer env user id db)).
Proof.
  intros env user id db HI. unfold BuyerOfferController.cancelOffer.
  destruct (find _ (offers db)) as [offer|] eqn:Hf; [|apply step_ok_refl; exact HI].
  destruct (cancel_ok env _); [|apply step_ok_refl; exact HI].
  apply find_some in Hf. destruct Hf as [Hin Hp].
  apply andb_prop in Hp. destruct Hp as [_ Hact]. apply is_active_offer in Hact.
  simpl. apply (ok_update_offer db offer); auto. simpl. discriminate.
Qed.

Lemma new_listing_id : forall env user id event b l,
  new_listing env user id event b = Some l -> SellerListing._id l = id.
Proof.
  intros env user id event b l H. unfold new_listing in H.
  destruct event; [|discriminate].
  destruct (c_deliveryMethod b); [|discriminate].
  destruct (SellerListing.valid _); inversion H; reflexivity.
Qed.

Lemma createListing_ok : forall env user body db,
  Inv db -> step_ok db (fst (createListing env user body db)).
Proof.
  intros env user body db HI. unfold createListing.
  destruct (findById Event._id _ (events db)) as [[eid dt avg []]|];
    try (apply step_ok_refl; exact HI).
  destruct (new_listing env user (nextId db) _ body) as [l|] eqn:Hn;
    [|apply step_ok_refl; exact HI].
  simpl. apply ok_insert_listing; auto. eapply new_listing_id; eauto.
Qed.

Lemma bulkUpload_saves_ok : forall env user bodies db,
  Inv db -> step_ok db (fst (bulkUpload_saves env user bodies db)).
Proof.
  intros env user bodies. induction bodies as [|b rest IH]; intros db HI; simpl.
  - apply step_ok_refl. exact HI.
  - destruct (new_listing env user (nextId db) _ _) as [l|] eqn:Hn.
    + pose proof (ok_insert_listing db l HI (new_listing_id _ _ _ _ _ _ Hn)) as S1.
      eapply step_ok_trans; [exact S1|]. apply IH. exact (proj1 S1).
    + specialize (IH db HI).
      destruct (bulkUpload_saves env user rest db) as [db' ok]. exact IH.
Qed.

Lemma bulkUpload_ok : forall env user bodies db,
  Inv db -> step_ok db (fst (bulkUpload env user bodies db)).
Proof.
  intros env user bodies db HI. unfold bulkUpload.
  pose proof (bulkUpload_saves_ok env user bodies db HI) as H.
  destruct (bulkUpload_saves env user bodies db) as [db' []]; exact H.
Qed.

Lemma not_matched_or_sold : forall l,
  SellerListing.matched_or_sold l = false ->
  SellerListing.status l <> SellerListing.matched.
Proof.
  intros l H E. unfold SellerListing.matched_or_sold in H. rewrite E in H. discriminate.
Qed.

Lemma updateListing_ok : forall user id body db,
  Inv db -> step_ok db (fst (updateListing user id body db)).
Proof.
  intros user id body db HI. unfold updateListing, findOwn.
  destruct (find _ (listings db)) as [listing|] eqn:Hf; [|apply step_ok_refl; exact HI].
  destruct (SellerListing.matched_or_sold listing) eqn:Hm; [apply step_ok_refl; exact HI|].
  destruct (apply_updates body listing) as [updated|] eqn:Ha;
    [|apply step_ok_refl; exact HI].
  apply find_some in Hf. destruct Hf as [Hin _]. simpl.
  apply (ok_update_listing db listing); auto.
  - apply (apply_updates_keeps _ _ _ Ha).
  - intros E. apply not_matched_or_sold in Hm. contradiction.
Qed.

Lemma deleteListing_ok : forall user id db,
  Inv db -> step_ok db (fst (deleteListing user id db)).
Proof.
  intros user id db HI. unfold deleteListing, findOwn.
  destruct (find _ (listings db)) as [listing|] eqn:Hf; [|apply step_ok_refl; exact HI].
  destruct (SellerListing.matched_or_sold listing) eqn:Hm; [apply step_ok_refl; exact HI|].
  apply find_some in Hf. destruct Hf as [Hin _]. simpl.
  apply (ok_update_listing db listing); auto.
  intros E. apply not_matched_or_sold in Hm. contradiction.
Qed.

Lemma goLive_ok : forall env user id db,
  Inv db -> step_ok db (fst (goLive env user id db)).
Proof.
  intros env user id db HI. unfold goLive.
  destruct (find _ (listings db)) as [listing|] eqn:Hf; [|apply step_ok_refl; exact HI].
  destruct (findById Event._id _ (events db)) as [[eid dt avg []]|];
    try (apply step_ok_refl; exact HI).
  apply find_some in Hf. destruct Hf as [Hin Hp].
  apply andb_prop in Hp. destruct Hp as [_ Hd]. simpl.
  apply (ok_update_listing db listing); auto.
  intros E. rewrite E in Hd. discriminate.
Qed.

Lemma transferTickets_ok : forall env user id c n db,
  Inv db -> step_ok db (fst (transferTickets env user id c n db)).
Proof.
  intros env user id c n db HI. unfold transferTickets.
  destruct (find _ (transactions db)) as [t|] eqn:Hf; [|apply step_ok_refl; exact HI].
  apply find_some in Hf. destruct Hf as [Hin Hp].
  apply andb_prop in Hp. destruct Hp as [_ Hd]. simpl.
  apply (ok_update_transaction db t); auto.
  destruct (escrow_of_transactions db HI t Hin) as (H1 & H2 & H3 & H4).
  unfold escrow_held. simpl. auto.
Qed.

Lemma disputeTransaction_ok : forall env user id reason db,
  Inv db -> step_ok db (fst (BuyerOfferController.disputeTransaction env user id reason db)).
Proof.
  intros env user id reason db HI. unfold BuyerOfferController.disputeTransaction.
  destruct (negb _); apply step_ok_refl; exact HI.
Qed.

(** Every request takes a store that satisfies the invariant to one that
    does, and leaves settled offers as they are. *)
Lemma step_step_ok : forall env r db, Inv db -> step_ok db (step env r db).
Proof.
  intros env r db HI. destruct r; simpl.
  - apply createOffer_ok; exact HI.
  - apply cancelOffer_ok; exact HI.
  - apply step_ok_refl; exact HI.
  - apply disputeTransaction_ok; exact HI.
  - apply acceptOffer_ok; exact HI.
  - apply bulkUpload_ok; exact HI.
  - apply createListing_ok; exact HI.
  - apply updateListing_ok; exact HI.
  - apply deleteListing_ok; exact HI.
  - apply goLive_ok; exact HI.
  - apply transferTickets_ok; exact HI.
  - apply autoSellLoop_ok; exact HI.
  - apply ok_set_events; exact HI.
Qed.

Lemma reachable_Inv : forall db, reachable db -> Inv db.
Proof.
  intros db H. induction H as [catalogue n|env r db H IH].
  - constructor; simpl; try (intros ? []); try constructor.
  - apply (step_step_ok env r db IH).
Qed.

(** ** No double match *)

Lemma acceptOffer_rejects_settled : forall env user offerId body db offer,
  findById BuyerOffer._id offerId (offers db) = Some offer ->
  BuyerOffer.status offer <> BuyerOffer.active ->
  acceptOffer env user offerId body db = (db, Error 500 "Offer not available").
Proof.
  intros env user offerId body db offer Hf Hn.
  unfold acceptOffer, acceptOffer_unit. rewrite Hf.
  destruct (BuyerOffer.is_active offer) eqn:E; [|reflexivity].
  apply is_active_offer in E. contradiction.
Qed.

Lemma createMatch_rejects_settled_offer : forall env o l db offer,
  findById BuyerOffer._id (BuyerOffer._id o) (offers db) = Some offer ->
  BuyerOffer.status offer <> BuyerOffer.active ->
  exists c m, TransactionService.createMatch env o l db = (db, Error c m).
Proof.
  intros env o l db offer Hf Hn. unfold TransactionService.createMatch. rewrite Hf.
  destruct (findById SellerListing._id _ (listings db)); [|eauto].
  destruct (BuyerOffer.is_active offer) eqn:E; simpl; [|eauto].
  apply is_active_offer in E. contradiction.
Qed.

Lemma createMatch_rejects_settled_listing : forall env o l db listing,
  findById SellerListing._id (SellerListing._id l) (listings db) = Some listing ->
  SellerListing.status listing <> SellerListing.active ->
  exists c m, TransactionService.createMatch env o l db = (db, Error c m).
Proof.
  intros env o l db listing Hf Hn. unfold TransactionService.createMatch. rewrite Hf.
  destruct (findById BuyerOffer._id _ (offers db)); [|eauto].
  destruct (SellerListing.is_active listing) eqn:E; simpl.
  - apply is_active_listing in E. contradiction.
  - rewrite andb_false_r. simpl. eauto.
Qed.

Lemma createMatch_settles : forall env o l db db1 t,
  TransactionService.createMatch env o l db = (db1, Ok t) ->
  (exists offer,
      findById BuyerOffer._id (BuyerOffer._id o) (offers db1) = Some offer /\
      BuyerOffer.status offer = BuyerOffer.matched) /\
  (exists listing,
      findById SellerListing._id (SellerListing._id l) (listings db1) = Some listing /\
      SellerListing.status listing = SellerListing.matched) /\
  Transaction.buyerOffer t = BuyerOffer._id o /\
  Transaction.sellerListing t = Some (SellerListing._id l) /\
  In t (transactions db1).
Proof.
  intros env o l db db1 t H. unfold TransactionService.createMatch in H.
  destruct (findById BuyerOffer._id _ (offers db)) as [offer|] eqn:Ho; [|discriminate].
  destruct (findById SellerListing._id _ (listings db)) as [listing|] eqn:Hl; [|discriminate].
  destruct (negb _); [discriminate|].
  destruct (negb _); [discriminate|].
  destruct (negb _); [discriminate|].
  destruct (capture_ok env _); [|discriminate].
  inversion H; subst; clear H. simpl.
  pose proof (findById_In _ _ _ _ Ho) as [_ Hoid].
  pose proof (findById_In _ _ _ _ Hl) as [_ Hlid].
  split; [|split; [|split; [|split]]].
  - exists (BuyerOffer.set_matched (SellerListing._id listing) (now env) offer).
    split; [|reflexivity].
    rewrite <- Hoid in Ho |- *.
    apply (findById_update BuyerOffer._id
             (BuyerOffer.set_matched (SellerListing._id listing) (now env) offer) _ offer Ho).
  - exists (SellerListing.set_status SellerListing.matched listing).
    split; [|reflexivity].
    rewrite <- Hlid in Hl |- *.
    apply (findById_update SellerListing._id
             (SellerListing.set_status SellerListing.matched listing) _ listing Hl).
  - exact Hoid.
  - rewrite Hlid. reflexivity.
  - apply in_or_app. right. left. reflexivity.
Qed.

Lemma NoDup_somes_eq : forall {A : Type} (f : A -> option ObjectId) l a b x,
  NoDup (somes (map f l)) -> In a l -> In b l -> f a = Some x -> f b = Some x -> a = b.
Proof.
  induction l as [|c l IH]; simpl; intros a b x Hnd Ha Hb Hfa Hfb; [contradiction|].
  assert (Hin : forall d, In d l -> f d = Some x -> In x (somes (map f l))).
  { intros d Hd Hfd. apply In_somes. rewrite <- Hfd. apply in_map. exact Hd. }
  destruct (f c) as [y|] eqn:Ec.
  - inversion Hnd as [|? ? Hnin Hnd']; subst.
    destruct Ha as [Ha|Ha], Hb as [Hb|Hb]; subst; auto.
    + exfalso. apply Hnin. rewrite Hfa in Ec. inversion Ec; subst. eauto.
    + exfalso. apply Hnin. rewrite Hfb in Ec. inversion Ec; subst. eauto.
    + eapply IH; eauto.
  - destruct Ha as [Ha|Ha], Hb as [Hb|Hb]; subst; try congruence.
    eapply IH; eauto.
Qed.

(** C1.  In every store the system reaches, no two transactions refer to
    the same offer and no two refer to the same listing.  Of two settlement
    attempts for the same offer, or for the same listing, only the first can
    add a transaction: once it has, the offer (the listing) read inside the
    second attempt's atomic unit is no longer 'active', the second attempt
    is answered with an error and leaves the store as it is. *)
Theorem no_double_match :
  forall db,
    reachable db ->
    NoDup (offer_refs db) /\
    NoDup (listing_refs db) /\
    (forall t1 t2,
        In t1 (transactions db) -> In t2 (transactions db) ->
        Transaction.buyerOffer t1 = Transaction.buyerOffer t2 -> t1 = t2) /\
    (forall t1 t2 x,
        In t1 (transactions db) -> In t2 (transactions db) ->
        Transaction.sellerListing t1 = Some x ->
        Transaction.sellerListing t2 = Some x -> t1 = t2) /\
    (forall env1 u1 offerId b1 session t,
        acceptOffer_unit env1 u1 offerId b1 db = inr (session, t) ->
        (forall env2 u2 b2,
            acceptOffer env2 u2 offerId b2 session
            = (session, Error 500 "Offer not available")) /\
        (forall env2 o2 l2,
            BuyerOffer._id o2 = offerId ->
            exists c m, TransactionService.createMatch env2 o2 l2 session
                        = (session, Error c m))) /\
    (forall env1 o1 l1 db1 t,
        TransactionService.createMatch env1 o1 l1 db = (db1, Ok t) ->
        (forall env2 u2 b2,
            acceptOffer env2 u2 (BuyerOffer._id o1) b2 db1
            = (db1, Error 500 "Offer not available")) /\
        (forall env2 o2 l2,
            BuyerOffer._id o2 = BuyerOffer._id o1 \/
            SellerListing._id l2 = SellerListing._id l1 ->
            exists c m, TransactionService.createMatch env2 o2 l2 db1
                        = (db1, Error c m))).
Proof.
  intros db Hr. pose proof (reachable_Inv db Hr) as HI.
  split; [exact (offer_refs_unique db HI)|].
  split; [exact (listing_refs_unique db HI)|].
  split.
  { intros t1 t2 H1 H2 E.
    exact (NoDup_ids_eq Transaction.buyerOffer _ t1 t2 (offer_refs_unique db HI) H1 H2 E). }
  split.
  { intros t1 t2 x H1 H2 E1 E2.
    exact (NoDup_somes_eq Transaction.sellerListing _ t1 t2 x
             (listing_refs_unique db HI) H1 H2 E1 E2). }
  split.
  - intros env1 u1 offerId b1 session t Hu.
    apply acceptOffer_unit_inv in Hu.
    destruct Hu as (offer & section & event & dm & Ho & _ & _ & _ & _ & _ & _ & _ & _ & Hoff & _).
    pose proof (findById_In _ _ _ _ Ho) as [_ Hoid].
    assert (Hf : findById BuyerOffer._id offerId (offers session)
                 = Some (BuyerOffer.set_matched (nextId db) (now env1) offer)).
    { rewrite Hoff. rewrite <- Hoid in Ho |- *.
      apply (findById_update BuyerOffer._id
               (BuyerOffer.set_matched (nextId db) (now env1) offer) _ offer Ho). }
    split.
    + intros env2 u2 b2. eapply acceptOffer_rejects_settled; [exact Hf|].
      simpl. discriminate.
    + intros env2 o2 l2 E. rewrite <- E in Hf.
      eapply createMatch_rejects_settled_offer; [exact Hf|]. simpl. discriminate.
  - intros env1 o1 l1 db1 t Hc.
    apply createMatch_settles in Hc.
    destruct Hc as ((offer & Ho & Hos) & (listing & Hl & Hls) & _).
    split.
    + intros env2 u2 b2. eapply acceptOffer_rejects_settled; [exact Ho|].
      rewrite Hos. discriminate.
    + intros env2 o2 l2 [E|E].
      * rewrite <- E in Ho. eapply createMatch_rejects_settled_offer; [exact Ho|].
        rewrite Hos. discriminate.
      * rewrite <- E in Hl. eapply createMatch_rejects_settled_listing; [exact Hl|].
        rewrite Hls. discriminate.
Qed.

Lemma no_double_match_witness :
  (exists t, transactions Sample.settled_market = [t] /\
             Transaction.buyerOffer t = 2 /\ Transaction.sellerListing t = Some 3) /\
  NoDup (offer_refs Sample.settled_market) /\
  NoDup (listing_refs Sample.settled_market) /\
  acceptOffer (Sample.env_at 650) 9 2 Sample.accept_A Sample.settled_market
  = (Sample.settled_market, Error 500 "Offer not available").
Proof.
  assert (R0 : reachable (Sample.market_with_offer 200))
    by (apply reachable_step; apply reachable_init).
  assert (R1 : reachable Sample.settled_market)
    by (apply reachable_step; exact R0).
  split; [eexists; vm_compute; repeat split|].
  split; [exact (proj1 (no_double_match Sample.settled_market R1))|].
  split; [exact (proj1 (proj2 (no_double_match Sample.settled_market R1)))|].
  destruct (no_double_match (Sample.market_with_offer 200) R0)
    as (_ & _ & _ & _ & Haccept & _).
  destruct (acceptOffer_unit (Sample.env_at 600) 7 2 Sample.accept_A
              (Sample.market_with_offer 200)) as [m|[session t]] eqn:Hu;
    [vm_compute in Hu; discriminate|].
  destruct (Haccept _ _ _ _ _ _ Hu) as [H _].
  replace Sample.settled_market with session.
  - apply H.
  - vm_compute in Hu. inversion Hu. vm_compute. reflexivity.
Defined.

(** ** Offers that are no longer active *)

Lemma run_Inv : forall rs db, Inv db -> Inv (run rs db).
Proof.
  induction rs as [|[env r] rs IH]; intros db HI; simpl; [exact HI|].
  apply IH. exact (proj1 (step_step_ok env r db HI)).
Qed.

Lemma run_keeps_settled_offers : forall rs db,
  Inv db -> settled_offers_kept db (run rs db).
Proof.
  induction rs as [|[env r] rs IH]; intros db HI o Hin Hn; simpl; [exact Hin|].
  destruct (step_step_ok env r db HI) as [HI' Hk].
  apply (IH _ HI'); [apply Hk; assumption|exact Hn].
Qed.

(** The store of [Sample.market_with_expired_offer] satisfies the invariant. *)
Lemma expired_market_Inv : Inv Sample.market_with_expired_offer.
Proof.
  constructor; simpl; repeat constructor; intros;
    repeat match goal with
           | H : _ \/ _ |- _ => destruct H
           | H : False |- _ => destruct H
           end; subst; simpl in *; try reflexivity; try contradiction.
  intros [].
Qed.

(** C3, as the code has it.  The settlement paths look at the offer's
    status, not at its expiry: in a store with unique and fresh ids, an
    offer whose status is not 'active' -- an 'expired' one in particular --
    is found again exactly as it was after any sequence of requests, and no
    other offer has its id, so it never becomes 'matched'. *)
Theorem inactive_offer_is_never_matched :
  forall rs db o,
    Inv db ->
    In o (offers db) ->
    BuyerOffer.status o <> BuyerOffer.active ->
    In o (offers (run rs db)) /\
    forall o', In o' (offers (run rs db)) ->
               BuyerOffer._id o' = BuyerOffer._id o -> o' = o.
Proof.
  intros rs db o HI Hin Hn.
  pose proof (run_Inv rs db HI) as HI'.
  pose proof (run_keeps_settled_offers rs db HI o Hin Hn) as Hin'.
  split; [exact Hin'|].
  intros o' Ho' E.
  exact (NoDup_ids_eq BuyerOffer._id _ o' o (offer_ids_unique _ HI') Ho' Hin' E).
Qed.

(** The offer of [Sample.market_with_expired_offer] is 'expired'.  After the
    requests of [Sample.requests_after_expiry], which settle the new offer
    with the new listing, it is the only offer with id 2, and it is still
    'expired'. *)
Lemma inactive_offer_is_never_matched_witness :
  (exists t,
      transactions (run Sample.requests_after_expiry Sample.market_with_expired_offer)
      = [t] /\ Transaction.buyerOffer t = 4) /\
  BuyerOffer.status Sample.expired_offer = BuyerOffer.expired /\
  In Sample.expired_offer
     (offers (run Sample.requests_after_expiry Sample.market_with_expired_offer)) /\
  forall o',
    In o' (offers (run Sample.requests_after_expiry Sample.market_with_expired_offer)) ->
    BuyerOffer._id o' = 2 -> o' = Sample.expired_offer.
Proof.
  split; [eexists; vm_compute; split; reflexivity|].
  split; [reflexivity|].
  apply (inactive_offer_is_never_matched Sample.requests_after_expiry
           Sample.market_with_expired_offer Sample.expired_offer expired_market_Inv).
  - left. reflexivity.
  - simpl. discriminate.
Defined.

(** C3, as the specification words it, fails: the offer of
    [Sample.market_with_offer 200] expires at 6400000 and is still 'active'
    at 9000000, when an accept request moves it to 'matched'. *)
Lemma expired_active_offer_is_matched : ~ Claimed.expired_offer_never_matched.
Proof.
  intro H.
  pose (o := BuyerOffer.mk 2 8 1 ["A"%string] 200 2 0 10
               (BuyerOffer.mkIntent "pi_1" 400 BuyerOffer.authorized 500)
               BuyerOffer.active None None 6400000 500).
  assert (R0 : reachable (Sample.market_with_offer 200))
    by (apply reachable_step; apply reachable_init).
  apply (H (Sample.env_at 9000000) (AcceptOffer 7 2 Sample.accept_A)
           (Sample.market_with_offer 200) o R0
           ltac:(vm_compute; left; reflexivity)
           ltac:(reflexivity)
           ltac:(discriminate)
           (BuyerOffer.set_matched 3 9000000 o)).
  - vm_compute. left. reflexivity.
  - reflexivity.
  - reflexivity.
Qed.

(** ** Delivery and escrow *)



(** * Further properties of the code *)

(** ** Comparisons of numbers *)

Lemma SFltb_leb : forall a b, SFltb a b = true -> SFleb a b = true.
Proof.
  unfold SFltb, SFleb. intros a b. destruct (SFcompare a b) as [[]|]; auto.
Qed.

Lemma SFcompare_refl : forall a, a <> S754_nan -> SFcompare a a = Some Eq.
Proof.
  intros [s|s| |s m e] H; simpl; try reflexivity.
  - destruct s; reflexivity.
  - contradiction.
  - rewrite Z.compare_refl.
    change (Pos.compare_cont Eq m m) with (Pos.compare m m).
    rewrite Pos.compare_refl. destruct s; reflexivity.
Qed.

Lemma SFeqb_refl_not_nan : forall a, SFeqb a a = true <-> a <> S754_nan.
Proof.
  intros a. split.
  - intros H E. subst a. discriminate.
  - intros H. unfold SFeqb. rewrite (SFcompare_refl a H). reflexivity.
Qed.

Lemma SFleb_not_nan : forall a b, SFleb a b = true -> a <> S754_nan /\ b <> S754_nan.
Proof.
  intros a b H. destruct a, b; try discriminate; split; discriminate.
Qed.

Lemma SFnot_ltb_leb : forall a b,
  a <> S754_nan -> b <> S754_nan -> SFltb a b = false -> SFleb b a = true.
Proof.
  unfold SFltb, SFleb, SFcompare.
  intros [sa|sa| |sa ma ea] [sb|sb| |sb mb eb] Ha Hb;
    try contradiction; try (destruct sa); try (destruct sb);
    try discriminate; try reflexivity;
    change (Pos.compare_cont Eq) with Pos.compare in *;
    repeat match goal with
    | |- context [Z.compare ?x ?y] =>
        let E := fresh "E" in destruct (Z.compare_spec x y) as [E|E|E]
    end; subst; try discriminate; try reflexivity; try lia;
    repeat match goal with
    | |- context [Pos.compare ?x ?y] =>
        let E := fresh "E" in destruct (Pos.compare_spec x y) as [E|E|E]
    end; subst; simpl; try discriminate; try reflexivity; try lia.
Qed.

Lemma is_nan_spec : forall x, PrimFloat.is_nan x = false <-> Prim2SF x <> S754_nan.
Proof.
  intros x. unfold PrimFloat.is_nan. rewrite negb_false_iff, eqb_spec.
  apply SFeqb_refl_not_nan.
Qed.

Lemma ltb_leb : forall a b : float, (a <? b)%float = true -> (a <=? b)%float = true.
Proof. intros a b. rewrite ltb_spec, leb_spec. apply SFltb_leb. Qed.

Lemma not_ltb_leb : forall a b : float,
  PrimFloat.is_nan a = false -> PrimFloat.is_nan b = false ->
  (a <? b)%float = false -> (b <=? a)%float = true.
Proof.
  intros a b Ha Hb. rewrite ltb_spec, leb_spec.
  apply SFnot_ltb_leb; apply is_nan_spec; assumption.
Qed.

Lemma leb_refl : forall a : float, PrimFloat.is_nan a = false -> (a <=? a)%float = true.
Proof.
  intros a Ha. rewrite leb_spec. apply is_nan_spec in Ha.
  unfold SFleb. rewrite (SFcompare_refl _ Ha). reflexivity.
Qed.

Lemma leb_not_nan : forall a b : float,
  (a <=? b)%float = true -> PrimFloat.is_nan a = false /\ PrimFloat.is_nan b = false.
Proof.
  intros a b H. rewrite leb_spec in H. apply SFleb_not_nan in H.
  split; apply is_nan_spec; tauto.
Qed.

(** [Math.min] of two numbers is one of them and is below both. *)
Lemma Math_min_below : forall a b : float,
  PrimFloat.is_nan a = false -> PrimFloat.is_nan b = false ->
  (JS.Math_min a b = a \/ JS.Math_min a b = b) /\
  (JS.Math_min a b <=? a)%float = true /\
  (JS.Math_min a b <=? b)%float = true.
Proof.
  intros a b Ha Hb. unfold JS.Math_min. rewrite Ha, Hb. simpl.
  destruct (a <? b)%float eqn:E1.
  - split; [auto|]. split; [apply leb_refl; auto|apply ltb_leb; auto].
  - destruct (b <? a)%float eqn:E2.
    + split; [auto|]. split; [apply ltb_leb; auto|apply leb_refl; auto].
    + destruct (PrimFloat.get_sign a).
      * split; [auto|]. split; [apply leb_refl; auto|apply not_ltb_leb; auto].
      * split; [auto|]. split; [apply not_ltb_leb; auto|apply leb_refl; auto].
Qed.

(** [Math.max] of two numbers is one of them and is above both. *)
Lemma Math_max_above : forall a b : float,
  PrimFloat.is_nan a = false -> PrimFloat.is_nan b = false ->
  (JS.Math_max a b = a \/ JS.Math_max a b = b) /\
  (a <=? JS.Math_max a b)%float = true /\
  (b <=? JS.Math_max a b)%float = true.
Proof.
  intros a b Ha Hb. unfold JS.Math_max. rewrite Ha, Hb. simpl.
  destruct (a <? b)%float eqn:E1.
  - split; [auto|]. split; [apply ltb_leb; auto|apply leb_refl; auto].
  - destruct (b <? a)%float eqn:E2.
    + split; [auto|]. split; [apply leb_refl; auto|apply ltb_leb; auto].
    + destruct (PrimFloat.get_sign a).
      * split; [auto|]. split; [apply not_ltb_leb; auto|apply leb_refl; auto].
      * split; [auto|]. split; [apply leb_refl; auto|apply not_ltb_leb; auto].
Qed.

Lemma Math_nan : forall a b : float,
  PrimFloat.is_nan a = true \/ PrimFloat.is_nan b = true ->
  JS.Math_min a b = PrimFloat.nan /\ JS.Math_max a b = PrimFloat.nan.
Proof.
  intros a b H. unfold JS.Math_min, JS.Math_max.
  destruct H as [H|H]; rewrite H; rewrite ?orb_true_r; auto.
Qed.

(** ** The pricing engine: the bounds of its answer *)

(** X1.  The acceptance probability is NaN or lies between 10 and 95: the
    clamp holds for every price and every event, and NaN is the only value
    that escapes it. *)
Theorem acceptance_probability_clamped :
  forall price event,
    PrimFloat.is_nan (Pricing.calculateAcceptanceProbability price event) = true \/
    ((10 <=? Pricing.calculateAcceptanceProbability price event)%float = true /\
     (Pricing.calculateAcceptanceProbability price event <=? 95)%float = true).
Proof.
  intros price event. unfold Pricing.calculateAcceptanceProbability.
  set (x := (50 + (price / JS.ToNumber (Event.averagePrice event) - 1) * 100)%float).
  destruct (PrimFloat.is_nan x) eqn:Hx.
  - left. destruct (Math_nan 10 x (or_intror Hx)) as [_ Hm]. rewrite Hm. reflexivity.
  - right.
    destruct (Math_max_above 10 x eq_refl Hx) as (_ & H10 & _).
    pose proof (leb_not_nan _ _ H10) as [_ Hy].
    destruct (Math_min_below 95 (JS.Math_max 10 x) eq_refl Hy) as ([E|E] & H95 & Hle).
    + rewrite E. split; reflexivity.
    + rewrite E. split; [exact H10|]. rewrite E in H95. exact H95.
Qed.

(** X2.  The suggested price the engine returns is NaN or at most the
    caller's [maxPrice]. *)
Theorem suggested_price_capped :
  forall db eventId sections maxPrice quantity s,
    Pricing.calculateSuggestedPrice db eventId sections maxPrice quantity = Some s ->
    PrimFloat.is_nan (Pricing.suggestedPrice s) = true \/
    (Pricing.suggestedPrice s <=? maxPrice)%float = true.
Proof.
  intros db eventId sections maxPrice quantity s H.
  unfold Pricing.calculateSuggestedPrice in H.
  destruct (findById Event._id eventId (events db)); [|discriminate].
  inversion H; subst; clear H. simpl.
  match goal with |- context [JS.Math_min ?a ?b] => set (p := a) end.
  destruct (PrimFloat.is_nan p) eqn:Hp.
  - left. destruct (Math_nan p maxPrice (or_introl Hp)) as [Hm _]. rewrite Hm. reflexivity.
  - destruct (PrimFloat.is_nan maxPrice) eqn:Hm.
    + left. destruct (Math_nan p maxPrice (or_intror Hm)) as [Hn _]. rewrite Hn. reflexivity.
    + right. apply (Math_min_below p maxPrice Hp Hm).
Qed.

Lemma suggested_price_capped_witness :
  exists s,
    Pricing.calculateSuggestedPrice
      (mkStore [Sample.event1]
         [BuyerOffer.mk 2 8 1 ["A"%string] 300 2 0 50
            (BuyerOffer.mkIntent "pi_1" 600 BuyerOffer.authorized 500)
            BuyerOffer.active None None 6400000 500] [] [] 3)
      1 ["A"%string] 120 2 = Some s /\
    Pricing.suggestedPrice s = 120%float /\
    (PrimFloat.is_nan (Pricing.suggestedPrice s) = true \/
     (Pricing.suggestedPrice s <=? 120)%float = true).
Proof.
  eexists. split; [vm_compute; reflexivity|]. split; [reflexivity|].
  apply (suggested_price_capped
           (mkStore [Sample.event1]
              [BuyerOffer.mk 2 8 1 ["A"%string] 300 2 0 50
                 (BuyerOffer.mkIntent "pi_1" 600 BuyerOffer.authorized 500)
                 BuyerOffer.active None None 6400000 500] [] [] 3)
           1 ["A"%string] 120 2).
  vm_compute. reflexivity.
Defined.

(** ** Looking documents up by a key *)

Lemma find_unique : forall {A : Type} (id : A -> ObjectId) (p : A -> bool) l t,
  NoDup (map id l) -> In t l -> p t = true ->
  (forall x, In x l -> p x = true -> id x = id t) ->
  find p l = Some t.
Proof.
  intros A id p l t Hnd Hin Hp Hid. destruct (find p l) as [x|] eqn:E.
  - apply find_some in E. destruct E as [Hx Hpx].
    rewrite (NoDup_ids_eq id l x t Hnd Hx Hin (Hid x Hx Hpx)). reflexivity.
  - rewrite (find_none _ _ E t Hin) in Hp. discriminate.
Qed.

Lemma find_absent : forall {A : Type} (p : A -> bool) l,
  (forall x, In x l -> p x = false) -> find p l = None.
Proof.
  intros A p l H. destruct (find p l) as [x|] eqn:E; [|reflexivity].
  apply find_some in E. destruct E as [Hx Hp]. rewrite (H x Hx) in Hp. discriminate.
Qed.

Lemma In_update_new : forall {A : Type} (id : A -> ObjectId) a l old,
  In old l -> id a = id old -> In a (update id a l).
Proof.
  intros A id a l old Hin Hid. unfold update. apply in_map_iff. exists old.
  split; [|exact Hin]. rewrite Hid, N.eqb_refl. reflexivity.
Qed.

(** ** The delivery requests keep the record of the settlement *)

Lemma same_settlement_refl : forall t, same_settlement t t.
Proof. intros t. unfold same_settlement. repeat split. Qed.

Lemma delivery_moves_refl : forall a, delivery_moves a a.
Proof. intros a. left. reflexivity. Qed.

Lemma update_transaction_advances : forall db t0 t0',
  NoDup (map Transaction._id (transactions db)) ->
  In t0 (transactions db) ->
  same_settlement t0 t0' ->
  delivery_moves (Transaction.deliveryStatus t0) (Transaction.deliveryStatus t0') ->
  map Transaction._id (update Transaction._id t0' (transactions db))
  = map Transaction._id (transactions db) /\
  forall t, In t (transactions db) ->
    exists t', In t' (update Transaction._id t0' (transactions db)) /\
               same_settlement t t' /\
               delivery_moves (Transaction.deliveryStatus t) (Transaction.deliveryStatus t').
Proof.
  intros db t0 t0' Hnd Hin Hs Hm. split; [apply update_ids|].
  intros t Ht. destruct (N.eq_dec (Transaction._id t) (Transaction._id t0)) as [E|E].
  - rewrite (NoDup_ids_eq Transaction._id _ t t0 Hnd Ht Hin E).
    exists t0'. split; [|split; assumption].
    apply (In_update_new Transaction._id t0' _ t0 Hin). apply Hs.
  - exists t. split; [|split; [apply same_settlement_refl|apply delivery_moves_refl]].
    apply update_keeps; [exact Ht|]. destruct Hs as [Hid _]. rewrite Hid. exact E.
Qed.

(** X3.  A transfer, a confirmation or a dispute request never adds or
    removes a transaction and touches nothing but transactions; every
    transaction keeps its parties, its offer and listing, its tickets and
    its amounts, and its delivery status stays as it is or moves from
    'pending' to 'transferred'. *)
Theorem delivery_requests_only_advance :
  forall env r db,
    delivery_request r = true ->
    NoDup (map Transaction._id (transactions db)) ->
    events (step env r db) = events db /\
    offers (step env r db) = offers db /\
    listings (step env r db) = listings db /\
    map Transaction._id (transactions (step env r db))
    = map Transaction._id (transactions db) /\
    forall t, In t (transactions db) ->
      exists t', In t' (transactions (step env r db)) /\
                 same_settlement t t' /\
                 delivery_moves (Transaction.deliveryStatus t)
                                (Transaction.deliveryStatus t').
Proof.
  intros env r db Hr Hnd.
  assert (Hsame : events db = events db /\ offers db = offers db /\
                  listings db = listings db /\
                  map Transaction._id (transactions db)
                  = map Transaction._id (transactions db) /\
                  forall t, In t (transactions db) ->
                    exists t', In t' (transactions db) /\ same_settlement t t' /\
                      delivery_moves (Transaction.deliveryStatus t)
                                     (Transaction.deliveryStatus t')).
  { repeat split. intros t Ht. exists t.
    split; [exact Ht|split; [apply same_settlement_refl|apply delivery_moves_refl]]. }
  destruct r; try discriminate; simpl.
  - (* confirmDelivery *)
    exact Hsame.
  - (* disputeTransaction *)
    unfold BuyerOfferController.disputeTransaction.
    destruct (negb _); exact Hsame.
  - (* transferTickets *)
    unfold transferTickets.
    destruct (find _ (transactions db)) as [t0|] eqn:Hf; [|exact Hsame].
    apply find_some in Hf. destruct Hf as [Hin Hq].
    apply andb_prop in Hq. destruct Hq as [_ Hd].
    assert (Hm : delivery_moves (Transaction.deliveryStatus t0) Transaction.transferred).
    { destruct (Transaction.deliveryStatus t0); try discriminate.
      right. split; reflexivity. }
    simpl. repeat split; try reflexivity;
      apply (update_transaction_advances db t0 _ Hnd Hin);
      try exact Hm; unfold same_settlement; simpl; repeat split.
Qed.

Lemma delivery_requests_only_advance_witness :
  transactions Sample.settled_market = [Sample.sale] /\
  offers Sample.transferred_market = offers Sample.settled_market /\
  listings Sample.transferred_market = listings Sample.settled_market /\
  exists t', In t' (transactions Sample.transferred_market) /\
             same_settlement Sample.sale t' /\
             delivery_moves Transaction.dpending (Transaction.deliveryStatus t').
Proof.
  split; [vm_compute; reflexivity|].
  destruct (delivery_requests_only_advance (Sample.env_at 700)
              (TransferTickets 7 4 None None) Sample.settled_market eq_refl)
    as (_ & Ho & Hl & _ & Ht).
  - vm_compute. constructor; [simpl; tauto|constructor].
  - split; [exact Ho|]. split; [exact Hl|].
    apply (Ht Sample.sale). vm_compute. left. reflexivity.
Defined.

(** ** Transfer, then confirmation *)

Lemma findById_unique : forall {A : Type} (id : A -> ObjectId) l t,
  NoDup (map id l) -> In t l -> findById id (id t) l = Some t.
Proof.
  intros A id l t Hnd Hin. unfold findById.
  apply (find_unique id _ l t Hnd Hin).
  - apply N.eqb_refl.
  - intros x _ Hx. apply N.eqb_eq in Hx. exact Hx.
Qed.

(** X4.  The seller of a transaction whose delivery is 'pending' transfers
    the tickets once: the transaction is stored as 'transferred' with the
    time of the transfer and the seller's notes, its escrow, payout and
    settlement as they were.  A second transfer is refused (404), any other
    user's transfer is refused (404), and the buyer's confirmation that
    should follow is answered 500 and stores nothing. *)
Theorem transfer_once_then_confirmation_fails :
  forall env1 env2 db t c n,
    NoDup (map Transaction._id (transactions db)) ->
    In t (transactions db) ->
    Transaction.deliveryStatus t = Transaction.dpending ->
    (forall user,
        user <> Transaction.seller t ->
        transferTickets env1 user (Transaction._id t) c n db
        = (db, Error 404 "Transaction not found or already transferred")) /\
    exists db1 t1,
      transferTickets env1 (Transaction.seller t) (Transaction._id t) c n db = (db1, Ok t1) /\
      Transaction.deliveryStatus t1 = Transaction.transferred /\
      Transaction.transferredAt t1 = Some (now env1) /\
      Transaction.notes t1 = n /\
      Transaction.escrowStatus t1 = Transaction.escrowStatus t /\
      Transaction.payoutStatus t1 = Transaction.payoutStatus t /\
      same_settlement t t1 /\
      findById Transaction._id (Transaction._id t) (transactions db1) = Some t1 /\
      transferTickets env2 (Transaction.seller t) (Transaction._id t) c n db1
      = (db1, Error 404 "Transaction not found or already transferred") /\
      BuyerOfferController.confirmDelivery env2 (Transaction.buyer t) (Transaction._id t) db1
      = (db1, Error 500 "Failed to confirm delivery").
Proof.
  intros env1 env2 db t c n Hnd Hin Hd.
  assert (Hsame_id : forall x, In x (transactions db) ->
            Transaction._id x = Transaction._id t -> x = t).
  { intros x Hx E. exact (NoDup_ids_eq Transaction._id _ x t Hnd Hx Hin E). }
  split.
  { intros user Hu. unfold transferTickets. rewrite find_absent; [reflexivity|].
    intros x Hx. destruct (Transaction._id x =? Transaction._id t) eqn:E; [|reflexivity].
    apply N.eqb_eq in E. rewrite (Hsame_id x Hx E).
    destruct (Transaction.seller t =? user) eqn:Es; [|reflexivity].
    apply N.eqb_eq in Es. congruence. }
  unfold transferTickets at 1.
  rewrite (find_unique Transaction._id _ (transactions db) t Hnd Hin).
  2:{ rewrite !N.eqb_refl, Hd. reflexivity. }
  2:{ intros x _ Hx. apply andb_prop in Hx. destruct Hx as [Hx _].
      apply andb_prop in Hx. destruct Hx as [Hx _]. apply N.eqb_eq in Hx. exact Hx. }
  set (t1 := Transaction.set_transferred (now env1) n t).
  set (l1 := update Transaction._id t1 (transactions db)).
  assert (Hnd1 : NoDup (map Transaction._id l1)) by (unfold l1; rewrite update_ids; exact Hnd).
  assert (Hin1 : In t1 l1) by (apply (In_update_new Transaction._id t1 _ t Hin); reflexivity).
  assert (Hf1 : findById Transaction._id (Transaction._id t) l1 = Some t1)
    by (apply (findById_unique Transaction._id l1 t1 Hnd1 Hin1)).
  exists (set_transactions l1 db), t1.
  split; [reflexivity|]. split; [reflexivity|]. split; [reflexivity|].
  split; [reflexivity|]. split; [reflexivity|]. split; [reflexivity|].
  split; [unfold same_settlement; simpl; repeat split|].
  split; [exact Hf1|]. split; [|reflexivity].
  unfold transferTickets. simpl. rewrite find_absent; [reflexivity|].
  intros x Hx. destruct (Transaction._id x =? Transaction._id t) eqn:E; [|reflexivity].
  apply N.eqb_eq in E.
  rewrite (NoDup_ids_eq Transaction._id l1 x t1 Hnd1 Hx Hin1 E).
  simpl. rewrite andb_false_r. reflexivity.
Qed.

Lemma transfer_once_then_confirmation_fails_witness :
  In Sample.sale (transactions Sample.settled_market) /\
  transferTickets (Sample.env_at 700) 9 4 None None Sample.settled_market
  = (Sample.settled_market, Error 404 "Transaction not found or already transferred") /\
  transferTickets (Sample.env_at 700) 7 4 None None Sample.settled_market
  = (Sample.transferred_market, Ok Sample.transferred_sale) /\
  transferTickets (Sample.env_at 800) 7 4 None None Sample.transferred_market
  = (Sample.transferred_market, Error 404 "Transaction not found or already transferred") /\
  BuyerOfferController.confirmDelivery (Sample.env_at 800) 8 4 Sample.transferred_market
  = (Sample.transferred_market, Error 500 "Failed to confirm delivery").
Proof.
  split; [vm_compute; left; reflexivity|].
  destruct (transfer_once_then_confirmation_fails (Sample.env_at 700) (Sample.env_at 800)
              Sample.settled_market Sample.sale None None)
    as (Hother & db1 & t1 & Ht & _ & _ & _ & _ & _ & _ & _ & Hsecond & Hconfirm).
  - vm_compute. constructor; [simpl; tauto|constructor].
  - vm_compute. left. reflexivity.
  - reflexivity.
  - split; [apply (Hother 9); discriminate|].
    assert (E : db1 = Sample.transferred_market /\ t1 = Sample.transferred_sale).
    { pose proof Ht as Ht'. vm_compute in Ht'. inversion Ht'. split; vm_compute; reflexivity. }
    destruct E as [E1 E2]. subst db1 t1.
    split; [exact Ht|]. split; [exact Hsecond|exact Hconfirm].
Defined.

(** ** Disputes *)

(** X6.  No dispute is ever stored.  [disputeTransaction] leaves the store
    as it is whatever it is asked: it answers 400 for a reason that is not
    one of the six valid ones, and 500 otherwise.  In every store the system
    reaches, no transaction has a dispute or a 'disputed' delivery. *)
Theorem dispute_is_never_stored :
  (forall env user id reason db,
      BuyerOfferController.disputeTransaction env user id reason db
      = (db, if JS.includes reason BuyerOfferController.validReasons
             then Error 500 "Failed to submit dispute"
             else Error 400 "Invalid dispute reason")) /\
  (forall db,
      reachable db ->
      forall t, In t (transactions db) ->
                Transaction.hasDispute t = false /\
                Transaction.deliveryStatus t <> Transaction.disputed).
Proof.
  split.
  - intros env user id reason db. unfold BuyerOfferController.disputeTransaction.
    destruct (JS.includes reason BuyerOfferController.validReasons); reflexivity.
  - intros db Hr t Hin.
    destruct (escrow_of_transactions db (reachable_Inv db Hr) t Hin) as (_ & H2 & H3 & _).
    split; [exact H3|]. destruct H2 as [H2|H2]; rewrite H2; discriminate.
Qed.

(** ** Cancelling an offer *)

Lemma find_update_any : forall {A : Type} (id : A -> ObjectId) (p : A -> bool) a l old,
  In old l -> id old = id a ->
  (forall x, p x = true -> id x = id a) ->
  p a = true ->
  find p (update id a l) = Some a.
Proof.
  intros A id p a l old Hin Hid Hp Ha. unfold update.
  induction l as [|b l IH]; simpl in *; [contradiction|].
  destruct (id b =? id a) eqn:E.
  - rewrite Ha. reflexivity.
  - destruct (p b) eqn:Hb.
    + apply Hp in Hb. apply N.eqb_neq in E. contradiction.
    + apply IH. destruct Hin as [Hin|Hin]; [|exact Hin].
      subst b. rewrite Hid, N.eqb_refl in E. discriminate.
Qed.

Lemma find_update_none : forall {A : Type} (id : A -> ObjectId) (p : A -> bool) a l,
  (forall x, p x = true -> id x = id a) ->
  p a = false ->
  find p (update id a l) = None.
Proof.
  intros A id p a l Hp Ha. apply find_absent. intros x Hx.
  apply In_update in Hx. destruct Hx as [[Hx _]|[_ Hx]].
  - subst x. exact Ha.
  - destruct (p x) eqn:E; [|reflexivity]. apply Hp in E. contradiction.
Qed.

(** X7.  The buyer of an active offer can cancel it when the gateway
    releases the hold: the offer and its payment hold become 'cancelled',
    after which no seller can accept it and a second cancel finds nothing.
    When the gateway refuses, the offer stays as it is; and nobody but the
    buyer can cancel it. *)
Theorem cancelOffer_withdraws_the_offer :
  forall env db o,
    NoDup (map BuyerOffer._id (offers db)) ->
    In o (offers db) ->
    BuyerOffer.status o = BuyerOffer.active ->
    (cancel_ok env (BuyerOffer.stripePaymentIntentId (BuyerOffer.paymentIntent o)) = true ->
     exists db',
       BuyerOfferController.cancelOffer env (BuyerOffer.buyer o) (BuyerOffer._id o) db
       = (db', Ok tt) /\
       findById BuyerOffer._id (BuyerOffer._id o) (offers db')
       = Some (BuyerOffer.set_cancelled o) /\
       BuyerOffer.status (BuyerOffer.set_cancelled o) = BuyerOffer.cancelled /\
       BuyerOffer.pstatus (BuyerOffer.paymentIntent (BuyerOffer.set_cancelled o))
       = BuyerOffer.pcancelled /\
       (forall env2 seller body,
           acceptOffer env2 seller (BuyerOffer._id o) body db'
           = (db', Error 500 "Offer not available")) /\
       (forall env2 user,
           BuyerOfferController.cancelOffer env2 user (BuyerOffer._id o) db'
           = (db', Error 404 "Offer not found"))) /\
    (cancel_ok env (BuyerOffer.stripePaymentIntentId (BuyerOffer.paymentIntent o)) = false ->
     BuyerOfferController.cancelOffer env (BuyerOffer.buyer o) (BuyerOffer._id o) db
     = (db, Error 500 "Failed to cancel offer")) /\
    (forall user,
        user <> BuyerOffer.buyer o ->
        BuyerOfferController.cancelOffer env user (BuyerOffer._id o) db
        = (db, Error 404 "Offer not found")).
Proof.
  intros env db o Hnd Hin Hact.
  assert (Hfind :
            find (fun x => (BuyerOffer._id x =? BuyerOffer._id o)
                           && (BuyerOffer.buyer x =? BuyerOffer.buyer o)
                           && BuyerOffer.is_active x) (offers db) = Some o).
  { apply (find_unique BuyerOffer._id _ _ o Hnd Hin).
    - rewrite !N.eqb_refl. apply is_active_offer in Hact. rewrite Hact. reflexivity.
    - intros x _ Hx. apply andb_prop in Hx. destruct Hx as [Hx _].
      apply andb_prop in Hx. destruct Hx as [Hx _]. apply N.eqb_eq in Hx. exact Hx. }
  split; [|split].
  - intros Hc. unfold BuyerOfferController.cancelOffer at 1. rewrite Hfind, Hc.
    eexists. split; [reflexivity|]. simpl.
    assert (Hf : findById BuyerOffer._id (BuyerOffer._id o)
                   (update BuyerOffer._id (BuyerOffer.set_cancelled o) (offers db))
                 = Some (BuyerOffer.set_cancelled o)).
    { apply (findById_update BuyerOffer._id (BuyerOffer.set_cancelled o) (offers db) o).
      apply (findById_unique BuyerOffer._id _ o Hnd Hin). }
    split; [exact Hf|]. split; [reflexivity|]. split; [reflexivity|]. split.
    + intros env2 seller body. eapply acceptOffer_rejects_settled; [exact Hf|].
      simpl. discriminate.
    + intros env2 user. unfold BuyerOfferController.cancelOffer. simpl.
      rewrite (find_update_none BuyerOffer._id); [reflexivity| |].
      * intros x Hx. apply andb_prop in Hx. destruct Hx as [Hx _].
        apply andb_prop in Hx. destruct Hx as [Hx _]. apply N.eqb_eq in Hx. exact Hx.
      * simpl. apply andb_false_r.
  - intros Hc. unfold BuyerOfferController.cancelOffer. rewrite Hfind, Hc. reflexivity.
  - intros user Hu. unfold BuyerOfferController.cancelOffer.
    rewrite find_absent; [reflexivity|].
    intros x Hx. destruct (BuyerOffer._id x =? BuyerOffer._id o) eqn:E; [|reflexivity].
    apply N.eqb_eq in E. rewrite (NoDup_ids_eq BuyerOffer._id _ x o Hnd Hx Hin E).
    apply N.eqb_neq in Hu. rewrite N.eqb_sym in Hu. rewrite Hu. reflexivity.
Qed.

Lemma cancelOffer_withdraws_the_offer_witness :
  In Sample.open_offer (offers (Sample.market_with_offer 200)) /\
  (exists db',
      BuyerOfferController.cancelOffer (Sample.env_at 550) 8 2 (Sample.market_with_offer 200)
      = (db', Ok tt) /\
      acceptOffer (Sample.env_at 600) 7 2 Sample.accept_A db'
      = (db', Error 500 "Offer not available")) /\
  BuyerOfferController.cancelOffer (Sample.env_cancel_refused 550) 8 2
    (Sample.market_with_offer 200)
  = (Sample.market_with_offer 200, Error 500 "Failed to cancel offer") /\
  BuyerOfferController.cancelOffer (Sample.env_at 550) 9 2 (Sample.market_with_offer 200)
  = (Sample.market_with_offer 200, Error 404 "Offer not found").
Proof.
  assert (Hnd : NoDup (map BuyerOffer._id (offers (Sample.market_with_offer 200))))
    by (vm_compute; constructor; [simpl; tauto|constructor]).
  assert (Hin : In Sample.open_offer (offers (Sample.market_with_offer 200)))
    by (vm_compute; left; reflexivity).
  split; [exact Hin|]. split; [|split].
  - destruct (cancelOffer_withdraws_the_offer (Sample.env_at 550)
                (Sample.market_with_offer 200) Sample.open_offer Hnd Hin eq_refl)
      as (H & _ & _).
    destruct (H eq_refl) as (db' & Hc & _ & _ & _ & Ha & _).
    exists db'. split; [exact Hc|apply Ha].
  - destruct (cancelOffer_withdraws_the_offer (Sample.env_cancel_refused 550)
                (Sample.market_with_offer 200) Sample.open_offer Hnd Hin eq_refl)
      as (_ & H & _).
    exact (H eq_refl).
  - destruct (cancelOffer_withdraws_the_offer (Sample.env_at 550)
                (Sample.market_with_offer 200) Sample.open_offer Hnd Hin eq_refl)
      as (_ & _ & H).
    apply (H 9). discriminate.
Defined.

(** X8.  A matched offer cannot be cancelled: once a seller's accept has
    committed, every cancel request for the offer is answered with 404 and
    leaves the store as it is. *)
Theorem accepted_offer_cannot_be_cancelled :
  forall env1 seller offerId body db session t,
    acceptOffer_unit env1 seller offerId body db = inr (session, t) ->
    forall env2 user,
      BuyerOfferController.cancelOffer env2 user offerId session
      = (session, Error 404 "Offer not found").
Proof.
  intros env1 seller offerId body db session t Hu env2 user.
  apply acceptOffer_unit_inv in Hu.
  destruct Hu as (offer & section & event & dm & Ho & _ & _ & _ & _ & _ & _ & _ & _ & Hoff & _).
  pose proof (findById_In _ _ _ _ Ho) as [_ Hoid].
  unfold BuyerOfferController.cancelOffer. rewrite Hoff.
  rewrite (find_update_none BuyerOffer._id); [reflexivity| |].
  - intros x Hx. apply andb_prop in Hx. destruct Hx as [Hx _].
    apply andb_prop in Hx. destruct Hx as [Hx _]. apply N.eqb_eq in Hx.
    simpl. congruence.
  - simpl. apply andb_false_r.
Qed.

Lemma accepted_offer_cannot_be_cancelled_witness :
  acceptOffer_unit (Sample.env_at 600) 7 2 Sample.accept_A (Sample.market_with_offer 200)
  = inr (Sample.settled_market, Sample.sale) /\
  BuyerOfferController.cancelOffer (Sample.env_at 650) 8 2 Sample.settled_market
  = (Sample.settled_market, Error 404 "Offer not found").
Proof.
  assert (H : acceptOffer_unit (Sample.env_at 600) 7 2 Sample.accept_A
                (Sample.market_with_offer 200)
              = inr (Sample.settled_market, Sample.sale))
    by (vm_compute; reflexivity).
  split; [exact H|].
  exact (accepted_offer_cannot_be_cancelled _ _ _ _ _ _ _ H (Sample.env_at 650) 8).
Defined.

(** ** Paging through a seller's listings *)

Lemma sort_insert_length : forall {A : Type} (le : A -> A -> bool) a l,
  List.length (sort_insert le a l) = S (List.length l).
Proof.
  intros A le a l. induction l as [|b l IH]; simpl; [reflexivity|].
  destruct (le a b); simpl; [reflexivity|]. rewrite IH. reflexivity.
Qed.

Lemma sort_length : forall {A : Type} (le : A -> A -> bool) l,
  List.length (sort le l) = List.length l.
Proof.
  intros A le l. induction l as [|a l IH]; simpl; [reflexivity|].
  rewrite sort_insert_length, IH. reflexivity.
Qed.

Lemma firstn_plus : forall {A : Type} (a b : nat) (l : list A),
  firstn (a + b) l = firstn a l ++ firstn b (skipn a l).
Proof.
  intros A a. induction a as [|a IH]; intros b l; simpl; [reflexivity|].
  destruct l as [|x l]; simpl.
  - rewrite firstn_nil. reflexivity.
  - rewrite IH. reflexivity.
Qed.

Lemma chunks_concat : forall {A : Type} (n k : nat) (l : list A),
  List.concat (map (fun i => firstn n (skipn (i * n) l)) (seq 0 k)) = firstn (k * n) l.
Proof.
  intros A n k l. induction k as [|k IH]; [reflexivity|].
  rewrite seq_S, map_app, concat_app, IH. simpl.
  rewrite app_nil_r, (Nat.add_comm n (k * n)), firstn_plus. reflexivity.
Qed.

Lemma pages_cover : forall total limit : nat,
  (0 < limit)%nat -> (total <= (total + limit - 1) / limit * limit)%nat.
Proof.
  intros total limit H.
  pose proof (Nat.div_mod_eq (total + limit - 1) limit) as E.
  pose proof (Nat.mod_upper_bound (total + limit - 1) limit) as U.
  nia.
Qed.

(** X9.  With a limit of at least 1, every page a seller asks for (from
    page 1 on) holds at most [limit] listings and reports the same total and
    the same number of pages; the pages after the last one are empty, and
    pages 1 to [pages] read in order give every listing the query matches
    exactly once, newest first. *)
Theorem getMyListings_pages_partition :
  forall user status eventId limit db,
    (0 < limit)%nat ->
    let found := filter (myListingsQuery user status eventId) (listings db) in
    let pages := ((List.length found + limit - 1) / limit)%nat in
    (forall page,
        (0 < page)%nat ->
        exists l,
          getMyListings user status eventId page limit db
          = Ok (l, mkPagination page limit (List.length found) (Some pages)) /\
          (List.length l <= limit)%nat /\
          ((pages < page)%nat -> l = [])) /\
    List.concat (map (fun page => listed (getMyListings user status eventId page limit db))
                (seq 1 pages))
    = sort newest_first found.
Proof.
  intros user status eventId limit db Hl found pages.
  assert (Hcover : (List.length (sort newest_first found) <= pages * limit)%nat).
  { rewrite sort_length. apply pages_cover. exact Hl. }
  destruct limit as [|k]; [inversion Hl|].
  split.
  - intros page Hp. destruct page as [|before]; [inversion Hp|].
    exists (firstn (S k) (skipn (before * S k) (sort newest_first found))).
    split; [|split].
    + unfold getMyListings, limit_to. fold found.
      rewrite Nat.sub_succ, Nat.sub_0_r. reflexivity.
    + apply firstn_le_length.
    + intros Hlast. rewrite skipn_all2; [reflexivity|].
      apply (Nat.le_trans _ _ _ Hcover). apply Nat.mul_le_mono_r. lia.
  - rewrite <- seq_shift, map_map.
    rewrite (map_ext _ (fun i => firstn (S k) (skipn (i * S k) (sort newest_first found)))).
    + rewrite chunks_concat. apply firstn_all2. exact Hcover.
    + intros i. unfold getMyListings. fold found. simpl.
      rewrite Nat.sub_0_r. reflexivity.
Qed.

Lemma getMyListings_pages_partition_witness :
  map SellerListing._id
      (listed (getMyListings 7 None None 1 1 Sample.seller_with_two)) = [3] /\
  map SellerListing._id
      (listed (getMyListings 7 None None 2 1 Sample.seller_with_two)) = [2] /\
  List.concat (map (fun page => listed (getMyListings 7 None None page 1
                                           Sample.seller_with_two))
                   (seq 1 2))
  = sort newest_first
      (filter (myListingsQuery 7 None None) (listings Sample.seller_with_two)).
Proof.
  split; [vm_compute; reflexivity|]. split; [vm_compute; reflexivity|].
  exact (proj2 (getMyListings_pages_partition 7 None None 1 Sample.seller_with_two
                  (Nat.lt_0_succ 0))).
Defined.

(** ** Accepting an offer *)

(** X10.  A seller's accept commits exactly when the offer exists and is
    active, the body names a non-empty section of the offer's and a delivery
    method, the offer asks for at least one seat, its event exists and the
    capture goes through (the offer being a stored one, with a [maxPrice]
    that is a number of at least 0).  The commit stores three documents that name each
    other: the offer, now matched to the new listing; the new listing, of the
    accepting seller, at the offer's price and quantity; and a transaction
    between the two parties for that offer and that listing, delivery
    pending and escrow held.  A notification that fails afterwards turns the
    answer into an error and leaves the commit in place.  In every other
    case the answer is an error 500 and the store is as it was. *)
Theorem acceptOffer_commits_exactly_when :
  forall env user offerId body db,
    (forall offer section event dm,
        findById BuyerOffer._id offerId (offers db) = Some offer ->
        (0 <=? BuyerOffer.maxPrice offer)%float = true ->
        BuyerOffer.status offer = BuyerOffer.active ->
        a_section body = Some section ->
        JS.includes section (BuyerOffer.sections offer) = true ->
        section <> EmptyString ->
        (1 <= BuyerOffer.quantity offer)%Z ->
        findById Event._id (BuyerOffer.event offer) (events db) = Some event ->
        a_deliveryMethod body = Some dm ->
        capture_ok env (BuyerOffer.stripePaymentIntentId (BuyerOffer.paymentIntent offer))
        = true ->
        exists db' answer t listing,
          acceptOffer env user offerId body db = (db', answer) /\
          (if notify_ok env then answer = Ok t else exists m, answer = Error 500 m) /\
          events db' = events db /\
          offers db'
          = update BuyerOffer._id (BuyerOffer.set_matched (nextId db) (now env) offer)
                   (offers db) /\
          listings db' = listings db ++ [listing] /\
          transactions db' = transactions db ++ [t] /\
          SellerListing._id listing = nextId db /\
          SellerListing.seller listing = user /\
          SellerListing.event listing = Event._id event /\
          SellerListing.section listing = section /\
          SellerListing.status listing = SellerListing.matched /\
          SellerListing.askingPrice listing = Some (BuyerOffer.maxPrice offer) /\
          SellerListing.quantity listing = BuyerOffer.quantity offer /\
          Transaction.buyerOffer t = offerId /\
          Transaction.sellerListing t = Some (nextId db) /\
          Transaction.buyer t = BuyerOffer.buyer offer /\
          Transaction.seller t = user /\
          Transaction.event t = Event._id event /\
          Transaction.salePrice t = BuyerOffer.maxPrice offer /\
          Transaction.deliveryStatus t = Transaction.dpending /\
          Transaction.escrowStatus t = Transaction.held /\
          Transaction.hasDispute t = false) /\
    ((forall offer section event dm,
         findById BuyerOffer._id offerId (offers db) = Some offer ->
         BuyerOffer.status offer = BuyerOffer.active ->
         a_section body = Some section ->
         JS.includes section (BuyerOffer.sections offer) = true ->
         section <> EmptyString ->
         (1 <= BuyerOffer.quantity offer)%Z ->
         findById Event._id (BuyerOffer.event offer) (events db) = Some event ->
         a_deliveryMethod body = Some dm ->
         capture_ok env (BuyerOffer.stripePaymentIntentId (BuyerOffer.paymentIntent offer))
         = true -> False) ->
     exists m, acceptOffer env user offerId body db = (db, Error 500 m)).
Proof.
  intros env user offerId body db. split.
  - intros offer section event dm Ho _ Ha Hs Hi Hne Hq He Hd Hc.
    pose proof (findById_In _ _ _ _ Ho) as [_ Hoid].
    apply is_active_offer in Ha. apply String.eqb_neq in Hne. apply Z.leb_le in Hq.
    unfold acceptOffer, acceptOffer_unit.
    rewrite Ho, Ha, Hs, Hi, He, Hd. unfold SellerListing.valid. simpl.
    rewrite Hne, Hq, Hc. simpl.
    destruct (notify_ok env); eexists _, _, _, _;
      (split; [reflexivity|]); simpl; repeat split; eauto.
  - intros Hno. unfold acceptOffer.
    destruct (acceptOffer_unit env user offerId body db) as [m|[session t]] eqn:Hu;
      [eauto|].
    exfalso. unfold acceptOffer_unit in Hu.
    destruct (findById BuyerOffer._id offerId (offers db)) as [offer|] eqn:Ho;
      [|discriminate].
    destruct (BuyerOffer.is_active offer) eqn:Ha; simpl in Hu; [|discriminate].
    destruct (a_section body) as [section|] eqn:Hs; [|discriminate].
    destruct (JS.includes section (BuyerOffer.sections offer)) eqn:Hi; simpl in Hu;
      [|discriminate].
    destruct (findById Event._id (BuyerOffer.event offer) (events db)) as [event|] eqn:He;
      [|discriminate].
    destruct (a_deliveryMethod body) as [dm|] eqn:Hd; [|discriminate].
    unfold SellerListing.valid in Hu. simpl in Hu.
    destruct (String.eqb section EmptyString) eqn:Hne; simpl in Hu; [discriminate|].
    destruct (1 <=? BuyerOffer.quantity offer)%Z eqn:Hq; simpl in Hu; [|discriminate].
    destruct (capture_ok env _) eqn:Hc; [|discriminate].
    apply (Hno offer section event dm); auto.
    + apply is_active_offer. exact Ha.
    + apply String.eqb_neq. exact Hne.
    + apply Z.leb_le. exact Hq.
Qed.

Lemma acceptOffer_commits_exactly_when_witness :
  (exists db' t listing,
      acceptOffer (Sample.env_at 600) 7 2 Sample.accept_A (Sample.market_with_offer 200)
      = (db', Ok t) /\
      listings db' = [listing] /\
      SellerListing.status listing = SellerListing.matched /\
      Transaction.sellerListing t = Some (SellerListing._id listing)) /\
  (exists m,
      acceptOffer (Sample.env_at 650) 9 2 Sample.accept_A Sample.settled_market
      = (Sample.settled_market, Error 500 m)).
Proof.
  split.
  - destruct (proj1 (acceptOffer_commits_exactly_when (Sample.env_at 600) 7 2
                       Sample.accept_A (Sample.market_with_offer 200))
                    Sample.open_offer "A"%string Sample.event1 pdf)
      as (db' & answer & t & listing & H & Ha & _ & _ & Hl & _ & Hid & _ & _ & _ & Hs
          & _ & _ & _ & Hr & _).
    + vm_compute. reflexivity.
    + reflexivity.
    + reflexivity.
    + reflexivity.
    + reflexivity.
    + discriminate.
    + vm_compute. discriminate.
    + reflexivity.
    + reflexivity.
    + reflexivity.
    + exists db', t, listing. simpl in Ha. subst answer.
      split; [exact H|]. split; [exact Hl|]. split; [exact Hs|].
      rewrite Hid. exact Hr.
  - apply (proj2 (acceptOffer_commits_exactly_when (Sample.env_at 650) 9 2
                    Sample.accept_A Sample.settled_market)).
    intros offer section event dm Ho Ha _ _ _ _ _ _ _.
    vm_compute in Ho. inversion Ho; subst. discriminate Ha.
Defined.

(** ** Creating an offer *)

Lemma filter_none : forall {A : Type} (p : A -> bool) l,
  (forall x, In x l -> p x = false) -> filter p l = [].
Proof.
  intros A p l H. induction l as [|a l IH]; simpl; [reflexivity|].
  rewrite (H a (or_introl eq_refl)). apply IH. intros x Hx. apply H. right. exact Hx.
Qed.

(** X11.  An offer is stored only with a payment hold.  When the event
    exists and is upcoming, the pricing engine's suggestion consists of
    numbers, the hold is created, the offer passes validation and no listing
    is a candidate for an instant match, the offer is added to the store as
    'active', owned by the buyer, with a hold of [maxPrice * quantity] that
    is 'authorized', and nothing else changes.  When the event is missing or
    not upcoming, the hold cannot be created or the offer is not valid, the
    answer is an error and the store is as it was. *)
Theorem createOffer_stores_offer_with_hold :
  forall env user body db,
    (forall event pid,
        findById Event._id (BuyerOfferController.b_eventId body) (events db) = Some event ->
        Event.status event = Event.upcoming ->
        (forall s,
            Pricing.calculateSuggestedPrice db (BuyerOfferController.b_eventId body)
              (BuyerOfferController.b_sections body)
              (BuyerOfferController.b_maxPrice body)
              (BuyerOfferController.b_quantity body) = Some s ->
            PrimFloat.is_nan (Pricing.suggestedPrice s) = false /\
            PrimFloat.is_nan (Pricing.probability s) = false) ->
        intent_created env = Some pid ->
        forallb (fun s => negb (String.eqb s EmptyString))
                (BuyerOfferController.b_sections body) = true ->
        (0 <=? BuyerOfferController.b_maxPrice body)%float = true ->
        (1 <= BuyerOfferController.b_quantity body)%Z ->
        (forall o l,
            BuyerOffer.event o = BuyerOfferController.b_eventId body ->
            BuyerOffer.sections o = BuyerOfferController.b_sections body ->
            BuyerOffer.maxPrice o = BuyerOfferController.b_maxPrice body ->
            BuyerOffer.quantity o = BuyerOfferController.b_quantity body ->
            In l (listings db) ->
            MatchingService.instantMatchQuery o l = false) ->
        exists db' offer,
          BuyerOfferController.createOffer env user body db = (db', Ok offer) /\
          events db' = events db /\
          offers db' = offers db ++ [offer] /\
          listings db' = listings db /\
          transactions db' = transactions db /\
          BuyerOffer._id offer = nextId db /\
          nextId db' = nextId db + 1 /\
          BuyerOffer.buyer offer = user /\
          BuyerOffer.event offer = BuyerOfferController.b_eventId body /\
          BuyerOffer.sections offer = BuyerOfferController.b_sections body /\
          BuyerOffer.maxPrice offer = BuyerOfferController.b_maxPrice body /\
          BuyerOffer.quantity offer = BuyerOfferController.b_quantity body /\
          BuyerOffer.status offer = BuyerOffer.active /\
          BuyerOffer.matchedListing offer = None /\
          BuyerOffer.paymentIntent offer
          = BuyerOffer.mkIntent pid (BuyerOfferController.b_maxPrice body * JS.of_int (BuyerOfferController.b_quantity body))%float
                                BuyerOffer.authorized (now env)) /\
    ((forall event pid,
         findById Event._id (BuyerOfferController.b_eventId body) (events db) = Some event ->
         Event.status event = Event.upcoming ->
         intent_created env = Some pid ->
         forallb (fun s => negb (String.eqb s EmptyString))
                 (BuyerOfferController.b_sections body) = true ->
         (0 <=? BuyerOfferController.b_maxPrice body)%float = true ->
         (1 <= BuyerOfferController.b_quantity body)%Z -> False) ->
     exists c m, BuyerOfferController.createOffer env user body db = (db, Error c m)).
Proof.
  intros env user body db. split.
  - intros event pid He Hst Hnan Hint Hsec Hmax Hq Hnone.
    unfold BuyerOfferController.createOffer.
    rewrite He. destruct event as [eid dateTime avg st]. simpl in Hst. subst st.
    destruct (Pricing.calculateSuggestedPrice db _ _ _ _) as [s|] eqn:Hs.
    2:{ unfold Pricing.calculateSuggestedPrice in Hs. rewrite He in Hs. discriminate. }
    destruct (Hnan s eq_refl) as [N1 N2].
    rewrite Hint. unfold BuyerOfferController.valid_offer. simpl.
    apply Z.leb_le in Hq. rewrite Hsec, Hmax, Hq, N1, N2. simpl.
    unfold MatchingService.checkForInstantMatch, MatchingService.bestListing,
      MatchingService.matchingListings. simpl.
    rewrite filter_none.
    + simpl. eexists _, _. split; [reflexivity|]. simpl. repeat split.
    + intros l Hl. apply Hnone; try reflexivity. exact Hl.
  - intros Hno. unfold BuyerOfferController.createOffer.
    destruct (findById Event._id (BuyerOfferController.b_eventId body) (events db)) as [event|] eqn:He;
      [|eauto].
    destruct event as [eid dateTime avg st].
    destruct st; eauto.
    destruct (Pricing.calculateSuggestedPrice _ _ _ _ _); [|eauto].
    destruct (intent_created env) as [pid|] eqn:Hint; [|eauto].
    unfold BuyerOfferController.valid_offer. simpl.
    destruct (forallb _ (BuyerOfferController.b_sections body)) eqn:Hsec; simpl; [|eauto].
    destruct (0 <=? BuyerOfferController.b_maxPrice body)%float eqn:Hmax; simpl; [|eauto].
    destruct (1 <=? BuyerOfferController.b_quantity body)%Z eqn:Hq; simpl; [|eauto].
    destruct (negb _ && negb _); [|eauto].
    exfalso. apply (Hno _ pid eq_refl eq_refl eq_refl eq_refl eq_refl).
    apply Z.leb_le. exact Hq.
Qed.

Lemma createOffer_stores_offer_with_hold_witness :
  BuyerOfferController.createOffer (Sample.env_at 500) 8 (Sample.offer_body 200)
    Sample.empty_market
  = (Sample.market_with_offer 200, Ok Sample.open_offer) /\
  (exists c m,
      BuyerOfferController.createOffer (Sample.env_at 500) 8
        (BuyerOfferController.mkOfferBody 5 ["A"%string] 200 2) Sample.empty_market
      = (Sample.empty_market, Error c m)).
Proof.
  split.
  - destruct (proj1 (createOffer_stores_offer_with_hold (Sample.env_at 500) 8
                       (Sample.offer_body 200) Sample.empty_market)
                    Sample.event1 "pi_1"%string)
      as (db' & offer & H & _).
    + reflexivity.
    + reflexivity.
    + intros s Hs. vm_compute in Hs. inversion Hs. split; reflexivity.
    + reflexivity.
    + reflexivity.
    + reflexivity.
    + vm_compute. discriminate.
    + intros o l _ _ _ _ [].
    + rewrite H. vm_compute in H. inversion H. reflexivity.
  - apply (proj2 (createOffer_stores_offer_with_hold (Sample.env_at 500) 8
                    (BuyerOfferController.mkOfferBody 5 ["A"%string] 200 2)
                    Sample.empty_market)).
    intros event pid He _ _ _ _ _. vm_compute in He. discriminate He.
Defined.

(** ** A seller's own listings *)

Lemma find_app_some : forall {A : Type} (p : A -> bool) l l' x,
  find p l = Some x -> find p (l ++ l') = Some x.
Proof.
  intros A p l l' x. induction l as [|a l IH]; simpl; [discriminate|].
  destruct (p a); auto.
Qed.

Lemma find_app_none : forall {A : Type} (p : A -> bool) l l',
  find p l = None -> find p (l ++ l') = find p l'.
Proof.
  intros A p l l'. induction l as [|a l IH]; simpl; [reflexivity|].
  destruct (p a); [discriminate|auto].
Qed.

Lemma new_listing_fields : forall env user id event b l,
  new_listing env user id event b = Some l ->
  SellerListing._id l = id /\
  SellerListing.seller l = user /\
  event = Some (SellerListing.event l) /\
  SellerListing.status l
  = (if JS.supplied_truthy (c_goLiveAt b) then SellerListing.draft else SellerListing.active) /\
  SellerListing.isLive l = negb (JS.supplied_truthy (c_goLiveAt b)) /\
  SellerListing.section l <> EmptyString /\
  (1 <= SellerListing.quantity l)%Z.
Proof.
  intros env user id event b l H. unfold new_listing in H.
  destruct event as [event|]; [|discriminate].
  destruct (c_deliveryMethod b); [|discriminate].
  destruct (SellerListing.valid _) eqn:V; inversion H; subst; clear H.
  unfold SellerListing.valid in V. simpl in *.
  apply andb_prop in V. destruct V as [V1 V2].
  apply negb_true_iff in V1. apply String.eqb_neq in V1. apply Z.leb_le in V2.
  repeat split; auto.
Qed.

(** X12.  A listing that [createListing] answers with is stored under a new
    id and belongs to the seller alone: the seller finds it by that id, no
    other user does, and every listing that could be found before is found
    unchanged.  It is a hidden draft when the body schedules it with a
    go-live date, and active and live otherwise. *)
Theorem createListing_adds_own_listing :
  forall env user body db db' listing,
    (forall l, In l (listings db) -> SellerListing._id l < nextId db) ->
    createListing env user body db = (db', Ok listing) ->
    listings db' = listings db ++ [listing] /\
    findOwn user (SellerListing._id listing) db' = Some listing /\
    (forall other, other <> user -> findOwn other (SellerListing._id listing) db' = None) /\
    (forall u id old, findOwn u id db = Some old -> findOwn u id db' = Some old) /\
    SellerListing.status listing
    = (if JS.supplied_truthy (c_goLiveAt body)
       then SellerListing.draft else SellerListing.active) /\
    SellerListing.isLive listing = negb (JS.supplied_truthy (c_goLiveAt body)).
Proof.
  intros env user body db db' listing Hfresh H.
  unfold createListing in H.
  destruct (findById Event._id (c_eventId body) (events db)) as [[eid d avg st]|];
    [|discriminate].
  destruct st; try discriminate.
  destruct (new_listing env user (nextId db) _ body) as [l|] eqn:Hn; [|discriminate].
  inversion H; subst; clear H.
  destruct (new_listing_fields _ _ _ _ _ _ Hn) as (Hid & Hs & _ & Hst & Hlive & _).
  assert (Hold : forall u, find (fun l => (SellerListing._id l =? SellerListing._id listing)
                                          && (SellerListing.seller l =? u))
                                (listings db) = None).
  { intros u. apply find_absent. intros x Hx. apply Hfresh in Hx.
    rewrite Hid. apply N.lt_neq in Hx. apply N.eqb_neq in Hx. rewrite Hx. reflexivity. }
  split; [reflexivity|]. split; [|split; [|split; [|split]]].
  - unfold findOwn. simpl. unfold insert. rewrite find_app_none by apply Hold.
    simpl. rewrite Hs, !N.eqb_refl. reflexivity.
  - intros other Ho. unfold findOwn. simpl. unfold insert.
    rewrite find_app_none by apply Hold.
    simpl. rewrite Hs. apply N.eqb_neq in Ho. rewrite N.eqb_sym in Ho.
    rewrite Ho, andb_false_r. reflexivity.
  - intros u id old Hf. unfold findOwn in *. simpl. unfold insert.
    apply find_app_some. exact Hf.
  - exact Hst.
  - exact Hlive.
Qed.

Lemma createListing_adds_own_listing_witness :
  exists listing,
    createListing (Sample.env_at 400) 7 (Sample.listing_body (Some 150%float))
      Sample.empty_market
    = (Sample.market_with_listing (Some 150%float), Ok listing) /\
    findOwn 7 (SellerListing._id listing) (Sample.market_with_listing (Some 150%float))
    = Some listing /\
    SellerListing.status listing = SellerListing.active.
Proof.
  destruct (createListing (Sample.env_at 400) 7 (Sample.listing_body (Some 150%float))
              Sample.empty_market) as [db' [listing|c m]] eqn:H;
    [|vm_compute in H; discriminate H].
  assert (Hdb : db' = Sample.market_with_listing (Some 150%float))
    by (pose proof H as H'; vm_compute in H'; inversion H'; vm_compute; reflexivity).
  subst db'. exists listing.
  destruct (createListing_adds_own_listing (Sample.env_at 400) 7
              (Sample.listing_body (Some 150%float)) Sample.empty_market
              (Sample.market_with_listing (Some 150%float)) listing)
    as (_ & Hf & _ & _ & Hs & _).
  - intros l [].
  - exact H.
  - split; [reflexivity|]. split; [exact Hf|exact Hs].
Defined.



Lemma update_idem : forall {A : Type} (id : A -> ObjectId) a l,
  update id a (update id a l) = update id a l.
Proof.
  intros A id a l. unfold update. rewrite map_map. apply map_ext.
  intros b. destruct (id b =? id a) eqn:E; [rewrite N.eqb_refl|rewrite E]; reflexivity.
Qed.

(** X14.  Deleting is a soft delete, and doing it twice is the same as doing
    it once.  A delete of the seller's own listing that is neither matched
    nor sold keeps the document, with every field but the status as it was
    and the status 'cancelled'; no listing is added or removed; and a second
    delete succeeds again and leaves the store exactly as the first one
    did. *)
Theorem deleteListing_soft_and_idempotent :
  forall user id db listing,
    findOwn user id db = Some listing ->
    SellerListing.matched_or_sold listing = false ->
    exists db1,
      deleteListing user id db = (db1, Ok tt) /\
      map SellerListing._id (listings db1) = map SellerListing._id (listings db) /\
      findOwn user id db1
      = Some (SellerListing.set_status SellerListing.cancelled listing) /\
      deleteListing user id db1 = (db1, Ok tt).
Proof.
  intros user id db listing Hf Hm.
  pose proof Hf as Hf'. unfold findOwn in Hf'. apply find_some in Hf'.
  destruct Hf' as [Hin Hq]. apply andb_prop in Hq. destruct Hq as [Hid Hs].
  apply N.eqb_eq in Hid. apply N.eqb_eq in Hs.
  set (deleted := SellerListing.set_status SellerListing.cancelled listing).
  exists (set_listings (update SellerListing._id deleted (listings db)) db).
  assert (Hf1 : findOwn user id
                  (set_listings (update SellerListing._id deleted (listings db)) db)
                = Some deleted).
  { unfold findOwn. simpl.
    apply (find_update_any SellerListing._id _ deleted _ listing Hin).
    - reflexivity.
    - intros x Hx. apply andb_prop in Hx. destruct Hx as [Hx _].
      apply N.eqb_eq in Hx. simpl. congruence.
    - simpl. rewrite Hid, Hs, !N.eqb_refl. reflexivity. }
  split; [unfold deleteListing; rewrite Hf, Hm; reflexivity|].
  split; [simpl; apply update_ids|]. split; [exact Hf1|].
  unfold deleteListing. rewrite Hf1. simpl.
  change (SellerListing.set_status SellerListing.cancelled deleted) with deleted.
  rewrite update_idem. reflexivity.
Qed.

Lemma deleteListing_soft_and_idempotent_witness :
  exists db1,
    deleteListing 7 2 (Sample.market_with_listing (Some 150%float)) = (db1, Ok tt) /\
    map SellerListing.status (listings db1) = [SellerListing.cancelled] /\
    deleteListing 7 2 db1 = (db1, Ok tt).
Proof.
  destruct (findOwn 7 2 (Sample.market_with_listing (Some 150%float)))
    as [listing|] eqn:Hf; [|vm_compute in Hf; discriminate Hf].
  destruct (deleteListing_soft_and_idempotent 7 2
              (Sample.market_with_listing (Some 150%float)) listing Hf)
    as (db1 & H1 & _ & _ & H4).
  - vm_compute in Hf. inversion Hf; subst. reflexivity.
  - exists db1. split; [exact H1|]. split; [|exact H4].
    vm_compute in H1. inversion H1. reflexivity.
Defined.

(** ** Bulk upload *)

(** The id given to a document plays no part in its validation. *)
Lemma new_listing_any_id : forall env user id id' event b,
  new_listing env user id event b = None -> new_listing env user id' event b = None.
Proof.
  intros env user id id' event b. unfold new_listing.
  destruct event; [|reflexivity].
  destruct (c_deliveryMethod b); [|reflexivity].
  unfold SellerListing.valid. simpl.
  destruct (negb _ && _); [discriminate|reflexivity].
Qed.

Lemma bulkUpload_saves_spec : forall env user elements db,
  exists results,
    Forall2 (saved_as env user) elements results /\
    listings (fst (bulkUpload_saves env user elements db)) = listings db ++ somes results /\
    events (fst (bulkUpload_saves env user elements db)) = events db /\
    offers (fst (bulkUpload_saves env user elements db)) = offers db /\
    transactions (fst (bulkUpload_saves env user elements db)) = transactions db /\
    nextId (fst (bulkUpload_saves env user elements db))
    = nextId db + N.of_nat (List.length (somes results)) /\
    snd (bulkUpload_saves env user elements db) = forallb is_saved results /\
    (forall l, In l (somes results) ->
               nextId db <= SellerListing._id l
               < nextId db + N.of_nat (List.length (somes results))) /\
    NoDup (map SellerListing._id (somes results)).
Proof.
  intros env user elements. induction elements as [|e rest IH]; intros db; simpl.
  - exists []. simpl. rewrite app_nil_r, N.add_0_r.
    split; [constructor|]. do 6 (split; [reflexivity|]).
    split; [intros ? []|constructor].
  - destruct (new_listing env user (nextId db) (e_event e) (e_listing e))
      as [listing|] eqn:Hn.
    + destruct (IH (draw_id (set_listings (insert listing (listings db)) db)))
        as (results & H0 & H1 & H2 & H3 & H4 & H5 & H6 & H7 & H8).
      destruct (new_listing_fields _ _ _ _ _ _ Hn) as (Hid & _).
      exists (Some listing :: results). rewrite H1, H2, H3, H4, H5, H6.
      unfold insert. simpl. rewrite <- app_assoc. simpl.
      split; [constructor; [simpl; rewrite Hid; exact Hn|exact H0]|].
      split; [reflexivity|]. split; [reflexivity|]. split; [reflexivity|].
      split; [reflexivity|]. split; [lia|]. split; [reflexivity|]. split.
      * intros l [H|H]; [subst l; rewrite Hid; lia|].
        apply H7 in H. simpl in H. lia.
      * constructor; [|exact H8]. intros Hin. apply in_map_iff in Hin.
        destruct Hin as (x & Hx & Hin). apply H7 in Hin. simpl in Hin. lia.
    + destruct (IH db) as (results & H0 & H1 & H2 & H3 & H4 & H5 & H6 & H7 & H8).
      destruct (bulkUpload_saves env user rest db) as [db' ok]. simpl in *.
      exists (None :: results). simpl.
      split; [constructor; [|exact H0]|repeat split; auto; apply H7; assumption].
      intros id. exact (new_listing_any_id _ _ _ id _ _ Hn).
Qed.

(** X15.  A bulk upload saves, in order, the document built from each
    element that passes [save()] and skips the others: the new listings are
    appended under ids that are new and distinct, each is the seller's
    document for its element, and nothing else in the store changes.  The
    answer is a success, with the number of elements, exactly when every
    element was saved; otherwise it is an error 500 although the other
    elements have been saved.  An element without the key [event] is never
    saved. *)
Theorem bulkUpload_saves_each_valid_element :
  forall env user elements db,
    exists results,
      Forall2 (saved_as env user) elements results /\
      (forall e, In e elements -> e_event e = None -> In None results) /\
      listings (fst (bulkUpload env user elements db)) = listings db ++ somes results /\
      events (fst (bulkUpload env user elements db)) = events db /\
      offers (fst (bulkUpload env user elements db)) = offers db /\
      transactions (fst (bulkUpload env user elements db)) = transactions db /\
      (forall l, In l (somes results) ->
                 SellerListing.seller l = user /\
                 nextId db <= SellerListing._id l
                 < nextId (fst (bulkUpload env user elements db))) /\
      NoDup (map SellerListing._id (somes results)) /\
      snd (bulkUpload env user elements db)
      = (if forallb is_saved results
         then Ok (List.length elements)
         else Error 500 "Bulk upload failed").
Proof.
  intros env user elements db.
  destruct (bulkUpload_saves_spec env user elements db)
    as (results & H0 & H1 & H2 & H3 & H4 & H5 & H6 & H7 & H8).
  exists results. unfold bulkUpload.
  destruct (bulkUpload_saves env user elements db) as [db' ok]. simpl in *.
  assert (Hdb : fst (if ok return Store * Response nat
                     then (db', Ok (List.length elements))
                     else (db', Error 500 "Bulk upload failed")) = db')
    by (destruct ok; reflexivity).
  assert (Hans : snd (if ok return Store * Response nat
                      then (db', Ok (List.length elements))
                      else (db', Error 500 "Bulk upload failed"))
                 = if ok then Ok (List.length elements)
                   else Error 500 "Bulk upload failed")
    by (destruct ok; reflexivity).
  rewrite Hdb, Hans, H1, H2, H3, H4, H5, H6.
  split; [exact H0|]. split.
  { clear - H0. induction H0 as [|e r es rs Hr _ IH]; intros e0 Hin Hev; [contradiction|].
    destruct Hin as [Hin|Hin].
    - subst e0. destruct r as [l|]; [|left; reflexivity].
      simpl in Hr. unfold new_listing in Hr. rewrite Hev in Hr. discriminate.
    - right. exact (IH e0 Hin Hev). }
  split; [reflexivity|]. split; [reflexivity|]. split; [reflexivity|].
  split; [reflexivity|]. split; [|split; [exact H8|reflexivity]].
  intros l Hl. split.
  - clear - H0 Hl. induction H0 as [|e r es rs Hr _ IH]; [contradiction|].
    destruct r as [l0|]; simpl in Hl; [|exact (IH Hl)].
    destruct Hl as [Hl|Hl]; [|exact (IH Hl)]. subst l0.
    simpl in Hr. apply new_listing_fields in Hr. apply Hr.
  - exact (H7 l Hl).
Qed.

Lemma bulkUpload_saves_each_valid_element_witness :
  exists db' listing,
    bulkUpload (Sample.env_at 400) 7
      [mkElement (Some 1) (Sample.listing_body None);
       mkElement None (Sample.listing_body None)]
      Sample.empty_market
    = (db', Error 500 "Bulk upload failed") /\
    listings db' = [listing] /\
    SellerListing.seller listing = 7 /\
    SellerListing.event listing = 1.
Proof.
  destruct (bulkUpload_saves_each_valid_element (Sample.env_at 400) 7
              [mkElement (Some 1) (Sample.listing_body None);
               mkElement None (Sample.listing_body None)]
              Sample.empty_market)
    as (results & H0 & _ & H1 & _ & _ & _ & H7 & _ & H9).
  destruct (bulkUpload _ _ _ _) as [db' answer] eqn:Hb. simpl in *.
  pose proof Hb as Hb'. vm_compute in Hb'. inversion Hb'; subst db' answer.
  eexists _, _. split; [reflexivity|]. vm_compute. repeat split.
Defined.

(** ** The listing an offer is matched with at once *)

(** X16.  The instant match of an offer selects nothing exactly when the
    query takes no listing; otherwise it selects a listing the query takes
    whose minimum price is the lowest among the listings the query takes,
    whatever order the store gives to listings with equal minimums. *)
Theorem instant_match_selects_lowest_minimum :
  forall env buyerOffer db,
    (bestListing env buyerOffer db = None <->
     forall l, In l (listings db) -> instantMatchQuery buyerOffer l = false) /\
    (forall best,
        bestListing env buyerOffer db = Some best ->
        In best (listings db) /\
        instantMatchQuery buyerOffer best = true /\
        exists m,
          SellerListing.minimumAcceptablePrice best = Some m /\
          (m <=? BuyerOffer.maxPrice buyerOffer)%float = true /\
          forall l,
            In l (listings db) ->
            instantMatchQuery buyerOffer l = true ->
            exists m', SellerListing.minimumAcceptablePrice l = Some m' /\
                       (m <=? m')%float = true).
Proof.
  intros env buyerOffer db. unfold bestListing, matchingListings. split.
  - split.
    + intros H l Hin.
      destruct (sorted_by _ _ _ _) as [|x r] eqn:E; [|discriminate].
      destruct (instantMatchQuery buyerOffer l) eqn:Hq; [|reflexivity].
      assert (Hf : In l (filter (instantMatchQuery buyerOffer) (listings db)))
        by (apply filter_In; auto).
      apply (sorted_by_In SellerListing._id (precedes env) by_minimumAcceptablePrice) in Hf.
      rewrite E in Hf. contradiction.
    + intros H. destruct (sorted_by _ _ _ _) as [|x r] eqn:E; [reflexivity|].
      assert (Hx : In x (filter (instantMatchQuery buyerOffer) (listings db))).
      { apply (sorted_by_In SellerListing._id (precedes env) by_minimumAcceptablePrice).
        rewrite E. left. reflexivity. }
      apply filter_In in Hx. destruct Hx as [Hx1 Hx2].
      rewrite (H x Hx1) in Hx2. discriminate.
  - intros best H.
    destruct (sorted_by _ _ _ _) as [|x r] eqn:E; [discriminate|].
    inversion H; subst x; clear H.
    assert (Hb : In best (filter (instantMatchQuery buyerOffer) (listings db))).
    { apply (sorted_by_In SellerListing._id (precedes env) by_minimumAcceptablePrice).
      rewrite E. left. reflexivity. }
    pose proof Hb as Hb'. apply filter_In in Hb'. destruct Hb' as [Hb1 Hb2].
    split; [exact Hb1|]. split; [exact Hb2|].
    pose proof (proj1 (instantMatchQuery_spec _ _) Hb2) as (_ & _ & _ & _ & _ & m & Hm & Hle).
    exists m. split; [exact Hm|]. split; [exact Hle|].
    intros l Hin Hq.
    pose proof (proj1 (instantMatchQuery_spec _ _) Hq) as (_ & _ & _ & _ & _ & m' & Hm' & _).
    exists m'. split; [exact Hm'|].
    assert (Hmin : by_minimumAcceptablePrice best l = true).
    { apply (sorted_by_head SellerListing._id (precedes env) by_minimumAcceptablePrice
               (filter (instantMatchQuery buyerOffer) (listings db)) best r).
      - intros a b Ha Hb0. apply filter_In in Ha. apply filter_In in Hb0.
        apply (by_minimumAcceptablePrice_total buyerOffer); tauto.
      - intros a b c _ _ _. apply by_minimumAcceptablePrice_trans.
      - exact E.
      - apply filter_In. auto. }
    unfold by_minimumAcceptablePrice in Hmin. rewrite Hm, Hm' in Hmin. exact Hmin.
Qed.

(** The offer of [Sample.market_with_offer 200] finds the two listings of
    [Sample.market_with_tie], both with a minimum of 150: where the store
    returns equal minimums newest first, the newer listing is selected, and
    its minimum is 150. *)
Lemma instant_match_selects_lowest_minimum_witness :
  exists best,
    bestListing (Sample.env_newest_first 500) Sample.open_offer Sample.market_with_tie
    = Some best /\
    SellerListing.createdAt best = 420%Z /\
    In best (listings Sample.market_with_tie) /\
    instantMatchQuery Sample.open_offer best = true.
Proof.
  destruct (bestListing (Sample.env_newest_first 500) Sample.open_offer
              Sample.market_with_tie) as [best|] eqn:Hb;
    [|vm_compute in Hb; discriminate Hb].
  exists best. split; [reflexivity|].
  destruct (proj2 (instant_match_selects_lowest_minimum (Sample.env_newest_first 500)
                     Sample.open_offer Sample.market_with_tie) best Hb)
    as (Hin & Hq & _).
  split; [|split; [exact Hin|exact Hq]].
  vm_compute in Hb. inversion Hb. reflexivity.
Defined.

(** ** The sweep *)

(** X19.  The auto-sell sweep never changes the store.  It completes when no
    active listing with auto-sell enabled has a trigger time that has come;
    with one such listing it is rejected at the lookup of the offers, before
    any offer is read, whether or not the listing accepts the highest
    offer. *)
Theorem sweep_changes_nothing :
  forall env db,
    processAutoSellListings env db
    = (db,
       if forallb (fun l => negb (autoSellQuery (now env) l)) (listings db)
       then Ok tt
       else Error 500 "BuyerOffer is not defined").
Proof.
  intros env db. unfold processAutoSellListings.
  induction (listings db) as [|l ls IH]; simpl; [reflexivity|].
  destruct (autoSellQuery (now env) l); simpl; [reflexivity|exact IH].
Qed.

(** ** The market data of an event *)

Lemma update_same_fields : forall {A B : Type} (id : A -> ObjectId) (f : A -> B) a l old,
  NoDup (map id l) -> In old l -> id old = id a -> f a = f old ->
  map f (update id a l) = map f l.
Proof.
  intros A B id f a l old Hnd Hin Hid Hf. unfold update. rewrite map_map.
  apply map_ext_in. intros b Hb. destruct (id b =? id a) eqn:E; [|reflexivity].
  apply N.eqb_eq in E. rewrite Hf. f_equal.
  apply (NoDup_ids_eq id l old b Hnd Hin Hb). congruence.
Qed.

(** X17.  The market-data query writes one number.  Whatever it answers, it
    leaves the offers, the listings and the transactions as they are, and
    every event keeps its id, its date and its status; an event other than
    the one asked for is not changed at all.  When the answer is a success
    and the event exists, its stored average price is a number afterwards.
    The store it leaves is one the system can be in whenever the store it
    found was. *)
Theorem getMarketData_writes_one_average :
  forall env eventId db db' r,
    NoDup (map Event._id (events db)) ->
    EventController.getMarketData env eventId db = (db', r) ->
    offers db' = offers db /\
    listings db' = listings db /\
    transactions db' = transactions db /\
    nextId db' = nextId db /\
    map Event._id (events db') = map Event._id (events db) /\
    map Event.dateTime (events db') = map Event.dateTime (events db) /\
    map Event.status (events db') = map Event.status (events db) /\
    (forall e, In e (events db) -> Event._id e <> eventId -> In e (events db')) /\
    (forall event,
        findById Event._id eventId (events db) = Some event ->
        is_error r = false ->
        exists a,
          findById Event._id eventId (events db')
          = Some (Event.mk eventId (Event.dateTime event) (Some a) (Event.status event)) /\
          PrimFloat.is_nan a = false) /\
    (reachable db -> reachable db').
Proof.
  intros env eventId db db' r Hnd H.
  unfold EventController.getMarketData in H.
  match type of H with
  | (if ?c then _ else _) = _ => destruct c eqn:Hnan
  end.
  { inversion H; subst; clear H. repeat split; auto. intros event _ Hr. discriminate Hr. }
  destruct (findById Event._id eventId (events db)) as [event|] eqn:He.
  2:{ inversion H; subst; clear H. repeat split; auto. intros event Hev. discriminate Hev. }
  inversion H; subst; clear H.
  pose proof (findById_In _ _ _ _ He) as [Hin Hid].
  apply orb_false_iff in Hnan. destruct Hnan as [Hnan _].
  apply orb_false_iff in Hnan. destruct Hnan as [Hnan _].
  simpl. split; [reflexivity|]. split; [reflexivity|]. split; [reflexivity|].
  split; [reflexivity|]. split; [apply update_ids|].
  split; [apply (update_same_fields Event._id Event.dateTime _ _ event Hnd Hin);
          reflexivity|].
  split; [apply (update_same_fields Event._id Event.status _ _ event Hnd Hin);
          reflexivity|].
  split; [|split].
  - intros e Hine Hne. apply update_keeps; [exact Hine|]. simpl. congruence.
  - intros event0 Hev _. inversion Hev; subst event0; clear Hev.
    eexists. split; [|exact Hnan]. subst eventId.
    match goal with
    | |- findById _ _ (update _ ?e _) = _ =>
        exact (findById_update Event._id e (events db) event He)
    end.
  - intros Hr.
    match goal with
    | |- reachable (set_events ?c db) =>
        exact (reachable_step env (CatalogueUpdate c) db Hr)
    end.
Qed.

Lemma getMarketData_writes_one_average_witness :
  exists db' md,
    EventController.getMarketData (Sample.env_at 700) 1 Sample.market_auto_sell
    = (db', Ok md) /\
    offers db' = offers Sample.market_auto_sell /\
    listings db' = listings Sample.market_auto_sell /\
    map Event.averagePrice (events db') = [Some 140%float].
Proof.
  destruct (EventController.getMarketData (Sample.env_at 700) 1 Sample.market_auto_sell)
    as [db' [md|c m]] eqn:H; [|vm_compute in H; discriminate H].
  destruct (getMarketData_writes_one_average (Sample.env_at 700) 1
              Sample.market_auto_sell db' (Ok md))
    as (Ho & Hl & _).
  - vm_compute. constructor; [simpl; tauto|constructor].
  - exact H.
  - exists db', md. split; [reflexivity|]. split; [exact Ho|]. split; [exact Hl|].
    vm_compute in H. inversion H. reflexivity.
Defined.

Lemma ltb_neg_infinity : forall y : float, (y <? PrimFloat.neg_infinity)%float = false.
Proof.
  intros y. rewrite ltb_spec.
  change (Prim2SF PrimFloat.neg_infinity) with (S754_infinity true).
  destruct (Prim2SF y) as [s|s| |s m e]; try destruct s; reflexivity.
Qed.

Lemma infinity_ltb : forall y : float, (PrimFloat.infinity <? y)%float = false.
Proof.
  intros y. rewrite ltb_spec.
  change (Prim2SF PrimFloat.infinity) with (S754_infinity false).
  destruct (Prim2SF y) as [s|s| |s m e]; try destruct s; reflexivity.
Qed.

Lemma Math_max_neg_infinity : forall y : float,
  PrimFloat.is_nan y = false -> JS.Math_max PrimFloat.neg_infinity y = y.
Proof.
  intros y Hy. unfold JS.Math_max. rewrite Hy, ltb_neg_infinity. simpl.
  destruct (PrimFloat.neg_infinity <? y)%float; reflexivity.
Qed.

Lemma Math_min_infinity : forall y : float,
  PrimFloat.is_nan y = false -> JS.Math_min PrimFloat.infinity y = y.
Proof.
  intros y Hy. unfold JS.Math_min. rewrite Hy, infinity_ltb. simpl.
  destruct (y <? PrimFloat.infinity)%float; reflexivity.
Qed.

Lemma fold_Math_max : forall l acc,
  PrimFloat.is_nan acc = false ->
  (forall x, In x l -> PrimFloat.is_nan x = false) ->
  (acc <=? fold_left JS.Math_max l acc)%float = true /\
  (forall x, In x l -> (x <=? fold_left JS.Math_max l acc)%float = true) /\
  (fold_left JS.Math_max l acc = acc \/ In (fold_left JS.Math_max l acc) l).
Proof.
  induction l as [|y l IH]; intros acc Ha Hl; simpl.
  - split; [apply leb_refl; exact Ha|]. split; [intros x []|left; reflexivity].
  - assert (Hy : PrimFloat.is_nan y = false) by (apply Hl; left; reflexivity).
    destruct (Math_max_above acc y Ha Hy) as (Hor & Hacc & Hyle).
    pose proof (leb_not_nan _ _ Hacc) as [_ Hn].
    destruct (IH (JS.Math_max acc y) Hn) as (H1 & H2 & H3).
    { intros x Hx. apply Hl. right. exact Hx. }
    split; [exact (leb_trans _ _ _ Hacc H1)|]. split.
    + intros x [Hx|Hx]; [subst x; exact (leb_trans _ _ _ Hyle H1)|apply H2; exact Hx].
    + destruct H3 as [H3|H3]; [|right; right; exact H3].
      rewrite H3. destruct Hor as [E|E]; rewrite E; [left; reflexivity|right; left; reflexivity].
Qed.

Lemma fold_Math_min : forall l acc,
  PrimFloat.is_nan acc = false ->
  (forall x, In x l -> PrimFloat.is_nan x = false) ->
  (fold_left JS.Math_min l acc <=? acc)%float = true /\
  (forall x, In x l -> (fold_left JS.Math_min l acc <=? x)%float = true) /\
  (fold_left JS.Math_min l acc = acc \/ In (fold_left JS.Math_min l acc) l).
Proof.
  induction l as [|y l IH]; intros acc Ha Hl; simpl.
  - split; [apply leb_refl; exact Ha|]. split; [intros x []|left; reflexivity].
  - assert (Hy : PrimFloat.is_nan y = false) by (apply Hl; left; reflexivity).
    destruct (Math_min_below acc y Ha Hy) as (Hor & Hacc & Hyle).
    pose proof (leb_not_nan _ _ Hacc) as [Hn _].
    destruct (IH (JS.Math_min acc y) Hn) as (H1 & H2 & H3).
    { intros x Hx. apply Hl. right. exact Hx. }
    split; [exact (leb_trans _ _ _ H1 Hacc)|]. split.
    + intros x [Hx|Hx]; [subst x; exact (leb_trans _ _ _ H1 Hyle)|apply H2; exact Hx].
    + destruct H3 as [H3|H3]; [|right; right; exact H3].
      rewrite H3. destruct Hor as [E|E]; rewrite E; [left; reflexivity|right; left; reflexivity].
Qed.

(** The extremes of a non-empty list of numbers are elements of the list and
    bound every element. *)
Lemma extremes_of_prices : forall prices,
  (forall x, In x prices -> PrimFloat.is_nan x = false) ->
  prices <> [] ->
  In (EventController.Math_max_all prices) prices /\
  In (EventController.Math_min_all prices) prices /\
  forall x, In x prices ->
    (EventController.Math_min_all prices <=? x)%float = true /\
    (x <=? EventController.Math_max_all prices)%float = true.
Proof.
  intros [|y l] Hl Hne; [contradiction|].
  assert (Hy : PrimFloat.is_nan y = false) by (apply Hl; left; reflexivity).
  assert (Hl' : forall x, In x l -> PrimFloat.is_nan x = false)
    by (intros x Hx; apply Hl; right; exact Hx).
  unfold EventController.Math_max_all, EventController.Math_min_all. simpl.
  rewrite (Math_max_neg_infinity y Hy), (Math_min_infinity y Hy).
  destruct (fold_Math_max l y Hy Hl') as (A1 & A2 & A3).
  destruct (fold_Math_min l y Hy Hl') as (B1 & B2 & B3).
  split; [destruct A3 as [E|E]; [rewrite E; left; reflexivity|right; exact E]|].
  split; [destruct B3 as [E|E]; [rewrite E; left; reflexivity|right; exact E]|].
  intros x [Hx|Hx]; [subst x; auto|auto].
Qed.

(** X18.  The extremes the market-data query reports are the true ones.
    With stored offers whose [maxPrice] is a number of at least 0, a
    successful answer reports, for the offers, a minimum and a maximum that
    are the [maxPrice] of two active offers of the event and that bound the
    [maxPrice] of every active offer of the event; and for the listings, a
    minimum and a maximum that bound the asking price of every active, live
    listing of the event that has one other than 0.  A side without prices
    reports 0 for both. *)
Theorem getMarketData_reports_extremes :
  forall env eventId db db' md,
    (forall o, In o (offers db) -> (0 <=? BuyerOffer.maxPrice o)%float = true) ->
    EventController.getMarketData env eventId db = (db', Ok md) ->
    (forall o,
        In o (offers db) ->
        BuyerOffer.event o = eventId ->
        BuyerOffer.status o = BuyerOffer.active ->
        (EventController.minPrice (EventController.md_offers md) <=? BuyerOffer.maxPrice o)%float
        = true /\
        (BuyerOffer.maxPrice o <=? EventController.maxPrice (EventController.md_offers md))%float
        = true /\
        exists lowest highest,
          In lowest (EventController.activeOffers eventId db) /\
          In highest (EventController.activeOffers eventId db) /\
          BuyerOffer.maxPrice lowest = EventController.minPrice (EventController.md_offers md) /\
          BuyerOffer.maxPrice highest
          = EventController.maxPrice (EventController.md_offers md)) /\
    (EventController.activeOffers eventId db = [] ->
     EventController.minPrice (EventController.md_offers md) = 0%float /\
     EventController.maxPrice (EventController.md_offers md) = 0%float) /\
    (forall l p,
        In l (listings db) ->
        SellerListing.event l = eventId ->
        SellerListing.status l = SellerListing.active ->
        SellerListing.isLive l = true ->
        SellerListing.askingPrice l = Some p ->
        JS.truthy p = true ->
        (EventController.minPrice (EventController.md_listings md) <=? p)%float = true /\
        (p <=? EventController.maxPrice (EventController.md_listings md))%float = true) /\
    (EventController.listingPrices (EventController.activeListings eventId db) = [] ->
     EventController.minPrice (EventController.md_listings md) = 0%float /\
     EventController.maxPrice (EventController.md_listings md) = 0%float).
Proof.
  intros env eventId db db' md Hnum H.
  assert (Hmd : md = {| EventController.md_offers :=
                          EventController.side (EventController.activeOffers eventId db)
                            BuyerOffer.quantity
                            (map BuyerOffer.maxPrice (EventController.activeOffers eventId db));
                        EventController.md_listings :=
                          EventController.side (EventController.activeListings eventId db)
                            SellerListing.quantity
                            (EventController.listingPrices
                               (EventController.activeListings eventId db));
                        EventController.lastUpdated := now env |}).
  { unfold EventController.getMarketData in H.
    match type of H with
    | (if ?c then _ else _) = _ => destruct c
    end; [discriminate|].
    destruct (findById Event._id eventId (events db)); inversion H; reflexivity. }
  subst md. clear H. simpl.
  split; [|split; [|split]].
  - intros o Hin He Hs.
    assert (Hact : In o (EventController.activeOffers eventId db)).
    { apply filter_In. split; [exact Hin|].
      rewrite He, N.eqb_refl. apply is_active_offer. exact Hs. }
    set (prices := map BuyerOffer.maxPrice (EventController.activeOffers eventId db)).
    assert (Hp : In (BuyerOffer.maxPrice o) prices) by (apply in_map; exact Hact).
    destruct (extremes_of_prices prices) as (Hmax & Hmin & Hb).
    { intros x Hx. apply in_map_iff in Hx. destruct Hx as (o' & Ho' & Hin').
      apply filter_In in Hin'. destruct Hin' as [Hin' _].
      apply Hnum in Hin'. apply leb_not_nan in Hin'. rewrite <- Ho'. apply Hin'. }
    { intros E. rewrite E in Hp. exact Hp. }
    assert (Hu : forall x, EventController.unless_empty prices x = x).
    { intros x. destruct prices; [contradiction|reflexivity]. }
    rewrite !Hu. destruct (Hb _ Hp) as [Hlo Hhi].
    split; [exact Hlo|]. split; [exact Hhi|].
    apply in_map_iff in Hmax. destruct Hmax as (hi & Ehi & Hhin).
    apply in_map_iff in Hmin. destruct Hmin as (lo & Elo & Hlin).
    exists lo, hi. auto.
  - intros E. rewrite E. simpl. split; reflexivity.
  - intros l p Hin He Hs Hlive Hask Ht.
    set (prices := EventController.listingPrices (EventController.activeListings eventId db)).
    assert (Hp : In p prices).
    { apply in_flat_map. exists l. split.
      - apply filter_In. split; [exact Hin|].
        rewrite He, N.eqb_refl, Hlive. apply is_active_listing in Hs. rewrite Hs. reflexivity.
      - rewrite Hask, Ht. left. reflexivity. }
    destruct (extremes_of_prices prices) as (_ & _ & Hb).
    { intros x Hx. apply in_flat_map in Hx. destruct Hx as (l' & _ & Hx).
      destruct (SellerListing.askingPrice l') as [q|]; [|contradiction].
      destruct (JS.truthy q) eqn:Hq; [|contradiction].
      destruct Hx as [Hx|[]]. subst q. unfold JS.truthy in Hq.
      apply negb_true_iff in Hq. apply orb_false_iff in Hq. apply Hq. }
    { intros E. rewrite E in Hp. exact Hp. }
    assert (Hu : forall x, EventController.unless_empty prices x = x).
    { intros x. destruct prices; [contradiction|reflexivity]. }
    rewrite !Hu. apply Hb. exact Hp.
  - intros E. rewrite E. simpl. split; reflexivity.
Qed.

Lemma getMarketData_reports_extremes_witness :
  exists db' md o,
    EventController.getMarketData (Sample.env_at 700) 1 Sample.market_auto_sell
    = (db', Ok md) /\
    offers Sample.market_auto_sell = [o] /\
    (EventController.minPrice (EventController.md_offers md) <=? BuyerOffer.maxPrice o)%float
    = true /\
    (BuyerOffer.maxPrice o <=? EventController.maxPrice (EventController.md_offers md))%float
    = true /\
    EventController.maxPrice (EventController.md_listings md) = 180%float.
Proof.
  destruct (EventController.getMarketData (Sample.env_at 700) 1 Sample.market_auto_sell)
    as [db' [md|c m]] eqn:H; [|vm_compute in H; discriminate H].
  destruct (offers Sample.market_auto_sell) as [|o [|x r]] eqn:Ho;
    try (vm_compute in Ho; discriminate Ho).
  assert (Hnum : forall o', In o' (offers Sample.market_auto_sell) ->
                            (0 <=? BuyerOffer.maxPrice o')%float = true).
  { intros o' Hin. vm_compute in Hin. destruct Hin as [Hin|[]]. subst o'. reflexivity. }
  destruct (getMarketData_reports_extremes (Sample.env_at 700) 1
              Sample.market_auto_sell db' md Hnum H) as (Hoff & _).
  destruct (Hoff o) as (Hlo & Hhi & _).
  - rewrite Ho. left. reflexivity.
  - vm_compute in Ho. inversion Ho. reflexivity.
  - vm_compute in Ho. inversion Ho. reflexivity.
  - exists db', md, o. split; [reflexivity|]. split; [reflexivity|].
    split; [exact Hlo|]. split; [exact Hhi|].
    vm_compute in H. inversion H. reflexivity.
Defined.

(** ** What putting a listing up for sale leaves alone *)

(** X20.  Neither putting a listing up for sale nor making it go live
    settles anything.  [createListing] and [goLive] leave every offer and
    every transaction as they are, also when an active offer at or above the
    listing's price is waiting; the only listing they can change is the one
    of the request, and no listing becomes 'matched' by them. *)
Theorem listing_a_ticket_never_settles :
  forall env user id body db,
    (offers (fst (createListing env user body db)) = offers db /\
     transactions (fst (createListing env user body db)) = transactions db /\
     (forall l, In l (listings (fst (createListing env user body db))) ->
                SellerListing.status l = SellerListing.matched ->
                In l (listings db))) /\
    (offers (fst (goLive env user id db)) = offers db /\
     transactions (fst (goLive env user id db)) = transactions db /\
     map SellerListing._id (listings (fst (goLive env user id db)))
     = map SellerListing._id (listings db) /\
     (forall l, In l (listings (fst (goLive env user id db))) ->
                SellerListing.status l = SellerListing.matched ->
                In l (listings db))).
Proof.
  intros env user id body db. split.
  - unfold createListing.
    destruct (findById Event._id (c_eventId body) (events db)) as [[eid d avg st]|];
      [|simpl; auto].
    destruct st; try (simpl; auto; fail).
    destruct (new_listing env user (nextId db) (Some (c_eventId body)) body)
      as [listing|] eqn:Hn; simpl; auto.
    split; [reflexivity|]. split; [reflexivity|].
    intros l Hl Hs. unfold insert in Hl. apply in_app_or in Hl.
    destruct Hl as [Hl|[Hl|[]]]; [exact Hl|]. subst l.
    destruct (new_listing_fields _ _ _ _ _ _ Hn) as (_ & _ & _ & Hst & _).
    rewrite Hst in Hs. destruct (JS.supplied_truthy (c_goLiveAt body)); discriminate.
  - unfold goLive.
    destruct (find _ (listings db)) as [listing|]; [|simpl; auto].
    destruct (findById Event._id _ (events db)) as [[eid d avg st]|]; [|simpl; auto].
    destruct st; simpl; auto.
    split; [reflexivity|]. split; [reflexivity|]. split; [apply update_ids|].
    intros l Hl Hs. apply In_update in Hl. destruct Hl as [[Hl _]|[Hl _]]; [|exact Hl].
    subst l. discriminate Hs.
Qed.

(** ** Who may act on a document *)

Lemma find_by_id_and_owner_absent :
  forall {A : Type} (id owner : A -> ObjectId) (p : A -> bool) l a user,
    NoDup (map id l) -> In a l -> user <> owner a ->
    find (fun x => (id x =? id a) && (owner x =? user) && p x) l = None.
Proof.
  intros A id owner p l a user Hnd Hin Hu. apply find_absent. intros x Hx.
  destruct (id x =? id a) eqn:E; [|reflexivity].
  apply N.eqb_eq in E. rewrite (NoDup_ids_eq id l x a Hnd Hx Hin E).
  apply N.eqb_neq in Hu. rewrite N.eqb_sym in Hu. rewrite Hu. reflexivity.
Qed.

(** X22.  Only its seller acts on a listing.  For a user who is not the
    seller of a stored listing, an update, a delete and a go-live of that
    listing are each answered with 404 and leave the store as it was,
    whatever the listing's status. *)
Theorem only_the_seller_acts_on_a_listing :
  forall env db l user,
    NoDup (map SellerListing._id (listings db)) ->
    In l (listings db) ->
    user <> SellerListing.seller l ->
    (forall body,
        updateListing user (SellerListing._id l) body db
        = (db, Error 404 "Listing not found")) /\
    deleteListing user (SellerListing._id l) db = (db, Error 404 "Listing not found") /\
    goLive env user (SellerListing._id l) db = (db, Error 404 "Draft listing not found").
Proof.
  intros env db l user Hnd Hin Hu.
  assert (Hown : findOwn user (SellerListing._id l) db = None).
  { unfold findOwn. apply find_absent. intros x Hx.
    destruct (SellerListing._id x =? SellerListing._id l) eqn:E; [|reflexivity].
    apply N.eqb_eq in E. rewrite (NoDup_ids_eq SellerListing._id _ x l Hnd Hx Hin E).
    apply N.eqb_neq in Hu. rewrite N.eqb_sym in Hu. rewrite Hu. reflexivity. }
  split; [|split].
  - intros body. unfold updateListing. rewrite Hown. reflexivity.
  - unfold deleteListing. rewrite Hown. reflexivity.
  - unfold goLive.
    rewrite (find_by_id_and_owner_absent SellerListing._id SellerListing.seller _ _ l user
               Hnd Hin Hu).
    reflexivity.
Qed.

Lemma only_the_seller_acts_on_a_listing_witness :
  deleteListing 9 2 (Sample.market_with_listing (Some 150%float))
  = (Sample.market_with_listing (Some 150%float), Error 404 "Listing not found").
Proof.
  destruct (findOwn 7 2 (Sample.market_with_listing (Some 150%float)))
    as [l|] eqn:Hf; [|vm_compute in Hf; discriminate Hf].
  assert (Hid : SellerListing._id l = 2 /\ SellerListing.seller l = 7
                /\ In l (listings (Sample.market_with_listing (Some 150%float)))).
  { vm_compute in Hf. inversion Hf. split; [reflexivity|]. split; [reflexivity|].
    vm_compute. left. reflexivity. }
  destruct Hid as (Hid & Hs & Hin).
  destruct (only_the_seller_acts_on_a_listing (Sample.env_at 450)
              (Sample.market_with_listing (Some 150%float)) l 9) as (_ & H & _).
  - vm_compute. constructor; [simpl; tauto|constructor].
  - exact Hin.
  - rewrite Hs. discriminate.
  - rewrite Hid in H. exact H.
Defined.
